(** * dials.stills_process: per-image pipeline driver

    A shallow embedding of [command_line/stills_process.py]: the tag
    assignment, the work items and the rank loop of [Script.run], and the
    per-unit [Processor] with its four stages; then [Script.run] as a
    whole, with [Script.load_reference_geometry].

    Python values are modelled as follows.  A [str] is a [string], an
    [int] is a [nat] or a [Z], [None] is [None] of an option type.  An
    entry of a [flex.double] column is a rational [Q]; the program only
    compares such entries with zero and multiplies them by the detector
    gain.  A reflection table is a list of rows together with the
    optional columns it has.  The phil parameter objects live in a store,
    so that [copy.deepcopy] and assignment in place can be told apart.
    Exceptions are values of type [exn]; a computation returns a result
    or raises, and leaves a trace of the lines it printed and the files
    it wrote.  Calls into other packages are fields of the class
    [Collaborators].  Messages sent to the [logging] module and elapsed
    times are left out. *)

From Stdlib Require Import ZArith QArith Lia Ascii.
From stdpp Require Import base numbers option list strings pretty gmap.

Local Open Scope Z_scope.

(** ** Python string helpers *)

Module Py.

(** [s.rfind(c)]: index of the last occurrence, or -1. *)
Fixpoint rfind (c : ascii) (s : string) : Z :=
  match s with
  | EmptyString => -1
  | String a s' =>
      let r := rfind c s' in
      if 0 <=? r then r + 1
      else if bool_decide (a = c) then 0 else -1
  end.

(** [s[n:]] and [s[:n]] for [0 <= n]. *)
Fixpoint drop (n : nat) (s : string) : string :=
  match n, s with
  | O, _ => s
  | S n', String _ s' => drop n' s'
  | S _, EmptyString => EmptyString
  end.

Fixpoint take (n : nat) (s : string) : string :=
  match n, s with
  | O, _ => EmptyString
  | S n', String a s' => String a (take n' s')
  | S _, EmptyString => EmptyString
  end.

(** [s[n]] for an index in range. *)
Fixpoint at_index (n : nat) (s : string) : option ascii :=
  match n, s with
  | _, EmptyString => None
  | O, String a _ => Some a
  | S n', String _ s' => at_index n' s'
  end.

Fixpoint startswith (p s : string) : bool :=
  match p, s with
  | EmptyString, _ => true
  | String a p', String b s' => bool_decide (a = b) && startswith p' s'
  | String _ _, EmptyString => false
  end.

(** [sub in s] for strings. *)
Fixpoint contains (sub s : string) : bool :=
  startswith sub s ||
  match s with
  | EmptyString => false
  | String _ s' => contains sub s'
  end.

Fixpoint endswith_char (c : ascii) (s : string) : bool :=
  match s with
  | EmptyString => false
  | String a EmptyString => bool_decide (a = c)
  | String _ s' => endswith_char c s'
  end.

(** [l.count(x)] on a list of strings. *)
Fixpoint count (x : string) (l : list string) : nat :=
  match l with
  | [] => O
  | y :: l' => (if bool_decide (y = x) then 1 else 0) + count x l'
  end%nat.

Fixpoint zeros (n : nat) : string :=
  match n with
  | O => EmptyString
  | S n' => String "0" (zeros n')
  end.

(** ["%05d" % i] for [0 <= i]: the decimal digits of [i], padded on the
    left with zeros to a width of at least five. *)
Definition fmt_05d (i : nat) : string :=
  let s := pretty i in
  zeros (5 - String.length s) +:+ s.

(** ["%s_%05d" % (basename, i)]. *)
Definition fmt_s_05d (basename : string) (i : nat) : string :=
  basename +:+ "_" +:+ fmt_05d i.

End Py.

(** ** [os.path] on a POSIX host *)

Module OsPath.

(** [posixpath.basename]: [i = p.rfind('/') + 1; return p[i:]]. *)
Definition basename (p : string) : string :=
  let i := Py.rfind "/" p + 1 in
  Py.drop (Z.to_nat i) p.

(** The loop of [genericpath._splitext] that skips leading dots: starting
    at [filenameIndex], the first character that is not a dot makes the
    split at [dotIndex] valid. *)
Fixpoint splitext_scan (p : string) (dotIndex filenameIndex : Z) (fuel : nat)
  : string * string :=
  match fuel with
  | O => (p, EmptyString)
  | S fuel' =>
      if filenameIndex <? dotIndex then
        match Py.at_index (Z.to_nat filenameIndex) p with
        | Some c =>
            if bool_decide (c = "."%char)
            then splitext_scan p dotIndex (filenameIndex + 1) fuel'
            else (Py.take (Z.to_nat dotIndex) p, Py.drop (Z.to_nat dotIndex) p)
        | None => (p, EmptyString)
        end
      else (p, EmptyString)
  end.

(** [posixpath.splitext] ([sep = '/'], no [altsep], [extsep = '.']). *)
Definition splitext (p : string) : string * string :=
  let sepIndex := Py.rfind "/" p in
  let dotIndex := Py.rfind "." p in
  if sepIndex <? dotIndex
  then splitext_scan p dotIndex (sepIndex + 1) (String.length p)
  else (p, EmptyString).

(** [posixpath.join(a, b)]; [a] may be [None], on which [a.endswith]
    fails.  The result is [None] exactly when Python raises. *)
Definition join (a : option string) (b : string) : option string :=
  if Py.startswith "/" b then Some b
  else match a with
       | None => None
       | Some path =>
           if bool_decide (path = EmptyString) || Py.endswith_char "/" path
           then Some (path +:+ b)
           else Some (path +:+ "/" +:+ b)
       end.

End OsPath.

(** ** Tag assignment in [Script.run] *)

Module Tags.

(** [os.path.splitext(os.path.basename(filename))[0]] *)
Definition stem (filename : string) : string :=
  (OsPath.splitext (OsPath.basename filename)).1.

(** The body of both tagging loops:
    [if basenames.count(basename) > 1: "%s_%05d" % (basename, i) else basename]. *)
Definition tag_for (basenames : list string) (i : nat) (basename : string) : string :=
  if bool_decide (1 < Py.count basename basenames)%nat
  then Py.fmt_s_05d basename i
  else basename.

(** Deferred mode (lines 254-260): [for i, basename in enumerate(basenames)]. *)
Definition deferred_tags (all_paths : list string) : list string :=
  let basenames := stem <$> all_paths in
  imap (tag_for basenames) basenames.

(** An imported image set, seen through [imageset.paths()]: one path per
    frame; a datablock is seen through [extract_imagesets()]. *)
Definition imageset := list string.
Definition datablock_paths := list imageset.

(** Pre-import mode (lines 229-239): one unit per frame, remembering the
    frame's index inside its image set and the stem of its path. *)
Definition split_units (datablocks : list datablock_paths) : list (nat * string) :=
  datablock ← datablocks;
  imageset ← datablock;
  imap (λ i path, (i, stem path)) imageset.

(** Lines 240-245: [for i, basename in zip(indices, basenames)]. *)
Definition zip_tags (indices : list nat) (basenames : list string) : list string :=
  zip_with (tag_for basenames) indices basenames.

Definition pre_import_tags (datablocks : list datablock_paths) : list string :=
  let units := split_units datablocks in
  zip_tags units.*1 units.*2.

End Tags.

(** ** The rank partition of the [mpi] branch of [Script.run] *)

Module Mpi.

(** Lines 293-295: the items on which rank [rank] of [size] calls
    [do_work], with their position. *)
Definition selected (rank size i : Z) : bool := ((i + rank) mod size =? 0).

Fixpoint share_from {A} (rank size : Z) (i : Z) (iterable : list A) : list (Z * A) :=
  match iterable with
  | [] => []
  | item :: rest =>
      (if selected rank size i then [(i, item)] else [])
      ++ share_from rank size (i + 1) rest
  end.

Definition share {A} (rank size : Z) (iterable : list A) : list (Z * A) :=
  share_from rank size 0 iterable.



End Mpi.

(** ** Exceptions, reflection tables and configuration values *)

(** The exceptions the program meets.  All of them derive from Python's
    [Exception], which is what the per-stage handlers catch. *)
Inductive exn :=
| Sorry (msg : string)               (* libtbx.utils.Sorry *)
| Abort (msg : string)               (* libtbx.utils.Abort *)
| AssertionError
| TypeError (msg : string)
| AttributeError (msg : string)
| ColumnError (column : string)      (* flex: a column that the table lacks *)
| CollaboratorError (msg : string).  (* any other Exception of external code *)

(** [str(e)] *)
Definition str (e : exn) : string :=
  match e with
  | Sorry msg | Abort msg | TypeError msg | AttributeError msg
  | ColumnError msg | CollaboratorError msg => msg
  | AssertionError => EmptyString
  end.

Inductive result (A : Type) :=
| Ok (a : A)
| Raise (e : exn).
Arguments Ok {A} a.
Arguments Raise {A} e.

(** The reflection flags the program tests. *)
Record flag_set := {
  indexed : bool;
  integrated_sum : bool;
  integrated_prf : bool;
  foreground_includes_bad_pixels : bool;
}.

(** One row of a reflection table.  [experiment_id] is the column ['id']. *)
Record reflection := {
  xyzobs_px_value : Q * Q * Q;
  bbox : Z * Z * Z * Z * Z * Z;
  miller_index : Z * Z * Z;
  experiment_id : Z;
  flags : flag_set;
  intensity_prf_variance : Q;
  intensity_sum_variance : Q;
  background_sum_variance : Q;
}.

(** The optional columns.  The integrator writes the value and the variance
    of an intensity together, so each such pair has one presence bit:
    [has_prf] stands for ['intensity.prf.value'] and
    ['intensity.prf.variance'], [has_sum] for ['intensity.sum.*'],
    [has_bkg] for ['background.sum.*']. *)
Record columns := {
  has_miller_index : bool;
  has_id : bool;
  has_prf : bool;
  has_sum : bool;
  has_bkg : bool;
}.

Record reflection_table := {
  cols : columns;
  rows : list reflection;
}.

Definition with_rows (t : reflection_table) (l : list reflection) : reflection_table :=
  {| cols := cols t; rows := l |}.

Definition set_xyzobs (r : reflection) (v : Q * Q * Q) : reflection :=
  {| xyzobs_px_value := v; bbox := bbox r; miller_index := miller_index r;
     experiment_id := experiment_id r; flags := flags r;
     intensity_prf_variance := intensity_prf_variance r;
     intensity_sum_variance := intensity_sum_variance r;
     background_sum_variance := background_sum_variance r |}.

Definition set_bbox (r : reflection) (b : Z * Z * Z * Z * Z * Z) : reflection :=
  {| xyzobs_px_value := xyzobs_px_value r; bbox := b; miller_index := miller_index r;
     experiment_id := experiment_id r; flags := flags r;
     intensity_prf_variance := intensity_prf_variance r;
     intensity_sum_variance := intensity_sum_variance r;
     background_sum_variance := background_sum_variance r |}.

Definition set_sum_variance (r : reflection) (v : Q) : reflection :=
  {| xyzobs_px_value := xyzobs_px_value r; bbox := bbox r; miller_index := miller_index r;
     experiment_id := experiment_id r; flags := flags r;
     intensity_prf_variance := intensity_prf_variance r;
     intensity_sum_variance := v;
     background_sum_variance := background_sum_variance r |}.

Definition set_bkg_variance (r : reflection) (v : Q) : reflection :=
  {| xyzobs_px_value := xyzobs_px_value r; bbox := bbox r; miller_index := miller_index r;
     experiment_id := experiment_id r; flags := flags r;
     intensity_prf_variance := intensity_prf_variance r;
     intensity_sum_variance := intensity_sum_variance r;
     background_sum_variance := v |}.

(** [table.select(mask)]: the rows whose mask entry is [True]. *)
Fixpoint select_rows (l : list reflection) (mask : list bool) : list reflection :=
  match l, mask with
  | r :: l', b :: mask' => (if b then [r] else []) ++ select_rows l' mask'
  | _, _ => []
  end.

Definition select (t : reflection_table) (mask : list bool) : reflection_table :=
  with_rows t (select_rows (rows t) mask).

(** [table.del_selected(mask)]: the rows whose mask entry is [False]. *)
Definition del_selected (t : reflection_table) (mask : list bool) : reflection_table :=
  with_rows t (select_rows (rows t) (negb <$> mask)).

(** [mask.count(b)] *)
Definition count_mask (b : bool) (mask : list bool) : nat :=
  length (filter (λ x, x = b) mask).

(** A column compared entry by entry, as [table['col'] <op> value] does. *)
Definition column_mask (f : reflection → bool) (t : reflection_table) : list bool :=
  f <$> rows t.

(** [table.get_flags(flag)] for the flags in use;
    [flags.integrated] is [integrated_sum | integrated_prf] and is asked
    for with [all=True]. *)
Definition get_flags_indexed := column_mask (λ r, indexed (flags r)).
Definition get_flags_integrated_all :=
  column_mask (λ r, integrated_sum (flags r) && integrated_prf (flags r)).
Definition get_flags_integrated_sum := column_mask (λ r, integrated_sum (flags r)).
Definition get_flags_bad_foreground :=
  column_mask (λ r, foreground_includes_bad_pixels (flags r)).

(** The [output] scope of the phil parameters; [None] is phil's [None]. *)
Record output_scope := {
  output_dir : option string;
  datablock_filename : option string;
  strong_filename : option string;
  indexed_filename : option string;
  refined_experiments_filename : option string;
  integrated_filename : option string;
  integration_pickle : option string;
}.

Definition set_datablock_filename (o : output_scope) (v : option string) :=
  {| output_dir := output_dir o; datablock_filename := v;
     strong_filename := strong_filename o; indexed_filename := indexed_filename o;
     refined_experiments_filename := refined_experiments_filename o;
     integrated_filename := integrated_filename o;
     integration_pickle := integration_pickle o |}.

Definition set_strong_filename (o : output_scope) (v : option string) :=
  {| output_dir := output_dir o; datablock_filename := datablock_filename o;
     strong_filename := v; indexed_filename := indexed_filename o;
     refined_experiments_filename := refined_experiments_filename o;
     integrated_filename := integrated_filename o;
     integration_pickle := integration_pickle o |}.

Definition set_indexed_filename (o : output_scope) (v : option string) :=
  {| output_dir := output_dir o; datablock_filename := datablock_filename o;
     strong_filename := strong_filename o; indexed_filename := v;
     refined_experiments_filename := refined_experiments_filename o;
     integrated_filename := integrated_filename o;
     integration_pickle := integration_pickle o |}.

Definition set_refined_experiments_filename (o : output_scope) (v : option string) :=
  {| output_dir := output_dir o; datablock_filename := datablock_filename o;
     strong_filename := strong_filename o; indexed_filename := indexed_filename o;
     refined_experiments_filename := v;
     integrated_filename := integrated_filename o;
     integration_pickle := integration_pickle o |}.

Definition set_integrated_filename (o : output_scope) (v : option string) :=
  {| output_dir := output_dir o; datablock_filename := datablock_filename o;
     strong_filename := strong_filename o; indexed_filename := indexed_filename o;
     refined_experiments_filename := refined_experiments_filename o;
     integrated_filename := v;
     integration_pickle := integration_pickle o |}.

(** The value of a whole parameter object, as a collaborator reads it:
    the output scope, [refinement.parameterisation.scan_varying],
    [integration.summation.detector_gain], and the parameters of the
    external algorithms, which the program passes through untouched. *)
Record config (algo : Type) := {
  cfg_output : output_scope;
  cfg_scan_varying : bool;
  cfg_detector_gain : Q;
  cfg_algo : algo;
}.
Arguments cfg_output {algo} c.
Arguments cfg_scan_varying {algo} c.
Arguments cfg_detector_gain {algo} c.
Arguments cfg_algo {algo} c.

(** Truth value of a [str]-or-[None] parameter: [if filename:]. *)
Definition truthy (v : option string) : option string :=
  match v with
  | Some s => if bool_decide (s = EmptyString) then None else Some s
  | None => None
  end.

(** ** External collaborators

    Everything the program calls but does not define.  Each one returns a
    value or raises. *)
Class Collaborators := {
  datablock : Type;
  experiment : Type;
  frame : Type;
  algo : Type;
  (** [DataBlockFactory.from_json_file], with the fall-back to
      [from_filenames] on [ValueError] *)
  load_datablocks : string → result (list datablock);
  (** the rebuilding of the image sets as stills in [do_import] *)
  as_stills : datablock → result datablock;
  (** [len(imageset)] for each of [datablock.extract_imagesets()] *)
  imageset_lengths : datablock → list nat;
  (** the reference detector and the manual geometry applied to a unit *)
  apply_geometry : datablock → result datablock;
  (** [flex.reflection_table.from_observations(datablock, params)] *)
  from_observations : datablock → config algo → result reflection_table;
  (** [indexer_base.from_parameters(...)] and its refined results *)
  indexer_from_parameters :
    reflection_table → datablock → config algo
    → result (list experiment * reflection_table);
  (** [ProfileModelFactory.create(params, experiments, indexed)] *)
  profile_model_create :
    config algo → list experiment → option reflection_table
    → result (list experiment);
  (** [from_predictions_multi] followed by [match_with_reference] *)
  predict_and_match :
    config algo → list experiment → option reflection_table
    → result reflection_table;
  (** [IntegratorFactory.create(...).integrate()] *)
  integrator_integrate :
    config algo → list experiment → reflection_table → result reflection_table;
  (** the RMSD report of lines 522-538, which is only logged *)
  quality_report :
    list experiment → option reflection_table → reflection_table → result string;
  (** [ConstructFrame(reflections, experiment).make_frame()] with its pixel size *)
  make_frame : reflection_table → experiment → result frame;
  (** the time stamp read from the data when the processor has no tag *)
  timestamp_from_data : list experiment → experiment → result string;
  (** [template % arg] for one string argument *)
  format_s : string → string → result string;
  (** [template % (e_number, event_timestamp)] *)
  format_d_s : string → nat → string → result string;
}.

(** ** The store, the trace and the monad of the program *)

(** Locations of the store. *)
Abbreviation loc := nat.

Section Program.
Context `{C : Collaborators}.

(** What the program leaves behind: lines written with [print], and files
    written by the dumpers.  Messages sent to the [logging] module are not
    recorded. *)
Inductive artifact :=
| DatablockJson (d : datablock)
| ReflectionPickle (t : reflection_table)
| ExperimentsJson (l : list experiment)
| FramePickle (f : frame).

Inductive event :=
| Print (line : string)
| Write (path : string) (a : artifact).


(** A phil parameter object refers to its scopes, which are objects of
    their own: [params.output], [params.refinement.parameterisation] and
    [params.integration.summation]. *)
Record params_obj := {
  p_output : loc;
  p_refinement : loc;
  p_integration : loc;
  p_algo : algo;
}.

Record world := {
  next : loc;
  roots : gmap nat params_obj;
  outputs : gmap nat output_scope;
  refinements : gmap nat bool;
  integrations : gmap nat Q;
  trace : list event;
}.

Definition M (A : Type) : Type := world → result A * world.

Definition ret {A} (a : A) : M A := λ w, (Ok a, w).

Definition bind {A B} (m : M A) (k : A → M B) : M B :=
  λ w, match m w with
       | (Ok a, w') => k a w'
       | (Raise e, w') => (Raise e, w')
       end.

Definition raise {A} (e : exn) : M A := λ w, (Raise e, w).

(** [try: m  except Exception, e: h e] *)
Definition try_except {A} (m : M A) (h : exn → M A) : M A :=
  λ w, match m w with
       | (Ok a, w') => (Ok a, w')
       | (Raise e, w') => h e w'
       end.

Definition lift {A} (r : result A) : M A := λ w, (r, w).

#[export] Instance M_ret : MRet M := @ret.
#[export] Instance M_bind : MBind M := λ A B k m, bind m k.

(** The world after some more events. *)
Definition add_events (w : world) (es : list event) : world :=
  {| next := next w; roots := roots w; outputs := outputs w;
     refinements := refinements w; integrations := integrations w;
     trace := trace w ++ es |}.

Definition emit (e : event) : M unit := λ w, (Ok tt, add_events w [e]).

(** The lines printed so far, and the paths of the files written so far. *)
Definition printed_lines (w : world) : list string :=
  omap (λ e, match e with Print line => Some line | Write _ _ => None end) (trace w).

Definition written_paths (w : world) : list string :=
  omap (λ e, match e with Write path _ => Some path | Print _ => None end) (trace w).

Definition print (line : string) : M unit := emit (Print line).

Fixpoint for_each {A} (f : A → M unit) (l : list A) : M unit :=
  match l with
  | [] => ret tt
  | x :: l' => bind (f x) (λ _, for_each f l')
  end.

(** *** Reading and writing parameter objects *)

Definition read_output (w : world) (p : loc) : option output_scope :=
  r ← roots w !! p; outputs w !! p_output r.

Definition read_config (w : world) (p : loc) : option (config algo) :=
  r ← roots w !! p;
  o ← outputs w !! p_output r;
  sv ← refinements w !! p_refinement r;
  g ← integrations w !! p_integration r;
  Some {| cfg_output := o; cfg_scan_varying := sv; cfg_detector_gain := g;
          cfg_algo := p_algo r |}.

(** [params.output] followed by an attribute read.  A location that
    holds no object stands for an attribute that does not exist. *)
Definition get_output (p : loc) : M output_scope :=
  λ w, match read_output w p with
       | Some o => (Ok o, w)
       | None => (Raise (AttributeError "output"), w)
       end.

Definition get_config (p : loc) : M (config algo) :=
  λ w, match read_config w p with
       | Some c => (Ok c, w)
       | None => (Raise (AttributeError "params"), w)
       end.

(** [params.output.<field> = v]: the output object of [p] is updated in place *)
Definition set_output (p : loc) (f : output_scope → output_scope) : M unit :=
  λ w, match roots w !! p with
       | Some r =>
           match outputs w !! p_output r with
           | Some o =>
               (Ok tt,
                {| next := next w; roots := roots w;
                   outputs := <[p_output r := f o]> (outputs w);
                   refinements := refinements w; integrations := integrations w;
                   trace := trace w |})
           | None => (Raise (AttributeError "output"), w)
           end
       | None => (Raise (AttributeError "output"), w)
       end.

(** [params.refinement.parameterisation.scan_varying = v] *)
Definition set_scan_varying (p : loc) (v : bool) : M unit :=
  λ w, match roots w !! p with
       | Some r =>
           match refinements w !! p_refinement r with
           | Some _ =>
               (Ok tt,
                {| next := next w; roots := roots w; outputs := outputs w;
                   refinements := <[p_refinement r := v]> (refinements w);
                   integrations := integrations w; trace := trace w |})
           | None => (Raise (AttributeError "parameterisation"), w)
           end
       | None => (Raise (AttributeError "refinement"), w)
       end.

(** [copy.deepcopy(params)]: a new object whose scopes are new objects
    too, each holding what the original held. *)
Definition deepcopy (p : loc) : M loc :=
  λ w, match roots w !! p with
       | Some r =>
           match read_config w p with
           | Some c =>
               let n := next w in
               (Ok (n + 3)%nat,
                {| next := (n + 4)%nat;
                   roots := <[(n + 3)%nat :=
                               {| p_output := n; p_refinement := (n + 1)%nat;
                                  p_integration := (n + 2)%nat;
                                  p_algo := p_algo r |}]> (roots w);
                   outputs := <[n := cfg_output c]> (outputs w);
                   refinements := <[(n + 1)%nat := cfg_scan_varying c]> (refinements w);
                   integrations := <[(n + 2)%nat := cfg_detector_gain c]> (integrations w);
                   trace := trace w |})
           | None => (Raise (AttributeError "params"), w)
           end
       | None => (Raise (AttributeError "params"), w)
       end.

(** What ["%s" in None] raises. *)
Definition not_iterable : exn :=
  TypeError "argument of type 'NoneType' is not iterable".

Definition path_join (a : option string) (b : string) : M string :=
  match OsPath.join a b with
  | Some path => ret path
  | None => raise (AttributeError "'NoneType' object has no attribute 'endswith'")
  end.

(** [os.path.join(self.params.output.output_dir, template % ("idx-" + s))] *)
Definition resolve (p : loc) (template s : string) : M string :=
  o ← get_output p;
  name ← lift (format_s template ("idx-" +:+ s));
  path_join (output_dir o) name.

(** ** class Processor *)

Record processor := {
  params : loc;
  tag : option string;
}.

(** [save_reflections]: [reflections.as_pickle(filename)] *)
Definition save_reflections (reflections : reflection_table) (filename : string) : M unit :=
  emit (Write filename (ReflectionPickle reflections)).

(** Lines 370-372: [for i in xrange(len(xyzobs)): xyzobs[i] = (x, y, 0)].
    [observed['xyzobs.px.value']] is a handle on the column of the table,
    not a copy of it, so the assignments change the table. *)
Definition reset_xyzobs (l : list reflection) : list reflection :=
  foldl (λ l i,
           match l !! i with
           | Some r =>
               let '(x, y, _) := xyzobs_px_value r in
               <[i := set_xyzobs r (x, y, 0%Q)]> l
           | None => l
           end)
        l (seq 0 (length l)).

(** Lines 373-375: [for i in xrange(len(bbox)): bbox[i] = (b0, b1, b2, b3, 0, 1)] *)
Definition reset_bbox (l : list reflection) : list reflection :=
  foldl (λ l i,
           match l !! i with
           | Some r =>
               let '(b0, b1, b2, b3, _, _) := bbox r in
               <[i := set_bbox r (b0, b1, b2, b3, 0, 1)]> l
           | None => l
           end)
        l (seq 0 (length l)).

Definition find_spots (self : processor) (db : datablock) : M reflection_table :=
  cfg ← get_config (params self);
  observed ← lift (from_observations db cfg);
  let observed := with_rows observed (reset_bbox (reset_xyzobs (rows observed))) in
  o ← get_output (params self);
  _ ← match truthy (strong_filename o) with
      | Some filename => save_reflections observed filename
      | None => ret tt
      end;
  ret observed.

Definition index (self : processor) (db : datablock) (reflections : reflection_table)
  : M (list experiment * reflection_table) :=
  params' ← deepcopy (params self);
  _ ← set_scan_varying params' false;
  cfg ← get_config params';
  '(experiments, indexed) ← lift (indexer_from_parameters reflections db cfg);
  o ← get_output (params self);
  _ ← match truthy (indexed_filename o) with
      | Some filename => save_reflections indexed filename
      | None => ret tt
      end;
  ret (experiments, indexed).

Definition refine (self : processor) (experiments : list experiment)
    (centroids : reflection_table) : M (list experiment) :=
  _ ← print "Skipping refinement because the crystal orientation is refined during indexing";
  o ← get_output (params self);
  _ ← match truthy (refined_experiments_filename o) with
      | Some filename => emit (Write filename (ExperimentsJson experiments))
      | None => ret tt
      end;
  ret experiments.

(** The two messages of [process_reference]. *)
Definition msg_no_indexed (expected got : nat) : string :=
  "
        Invalid input for reference reflections.
        Expected > " +:+ pretty expected +:+ " indexed spots, got " +:+ pretty got +:+ "
      ".

Definition msg_invalid_id (n : nat) : string :=
  "
        Invalid input for reference reflections.
        " +:+ pretty n +:+ " reference spots have an invalid experiment id
      ".

Definition is_hkl_zero (r : reflection) : bool :=
  bool_decide (miller_index r = (0, 0, 0)).

Definition process_reference (self : processor) (reference : option reflection_table)
  : M (option reflection_table * option reflection_table) :=
  match reference with
  | None => ret (None, None)
  | Some reference =>
      if negb (has_miller_index (cols reference)) then raise AssertionError
      else if negb (has_id (cols reference)) then raise AssertionError
      else
        let mask := get_flags_indexed reference in
        let rubbish := select reference (negb <$> mask) in
        let reference :=
          if (0 <? count_mask false mask)%nat
          then del_selected reference (negb <$> mask)
          else reference in
        if (length (rows reference) =? 0)%nat
        then raise (Sorry (msg_no_indexed 0 (length (rows reference))))
        else
          let mask := column_mask is_hkl_zero reference in
          let '(reference, rubbish) :=
            if (0 <? count_mask true mask)%nat
            then (del_selected reference mask,
                  with_rows rubbish (rows rubbish ++ rows (select reference mask)))
            else (reference, rubbish) in
          let mask := column_mask (λ r, experiment_id r <? 0) reference in
          if (0 <? count_mask true mask)%nat
          then raise (Sorry (msg_invalid_id (count_mask true mask)))
          else ret (Some reference, Some rubbish)
  end.

Definition get_detector_gain (p : loc) : M Q :=
  cfg ← get_config p; ret (cfg_detector_gain cfg).

(** Lines 500-502: the profile-fitted variances. *)
Definition verify_prf (integrated : reflection_table) : M unit :=
  if has_prf (cols integrated) then
    if (0 <? count_mask true
               (column_mask (λ r, Qle_bool (intensity_prf_variance r) 0%Q) integrated))%nat
    then raise (Sorry "Found negative variances")
    else ret tt
  else ret tt.

(** Lines 503-507: the summation variances, and the detector gain
    applied to them. *)
Definition verify_sum (self : processor) (integrated : reflection_table)
  : M reflection_table :=
  if has_sum (cols integrated) then
    if (0 <? count_mask true
               (column_mask (λ r, Qle_bool (intensity_sum_variance r) 0%Q) integrated))%nat
    then raise (Sorry "Found negative variances")
    else
      gain ← get_detector_gain (params self);
      ret (with_rows integrated
             ((λ r, set_sum_variance r (intensity_sum_variance r * gain)%Q)
                <$> rows integrated))
  else ret integrated.

(** Lines 508-515: the background variances, and the detector gain
    applied to them. *)
Definition verify_bkg (self : processor) (integrated : reflection_table)
  : M reflection_table :=
  if has_bkg (cols integrated) then
    if (0 <? count_mask true
               (column_mask (λ r, negb (Qle_bool 0%Q (background_sum_variance r)))
                  integrated))%nat
    then raise (Sorry "Found negative variances")
    else
      let zero := column_mask (λ r, Qeq_bool (background_sum_variance r) 0%Q) integrated in
      integrated ←
        (if (0 <? count_mask true zero)%nat then
           _ ← print ("Filtering " +:+ pretty (count_mask true zero)
                      +:+ " reflections with zero background variance");
           ret (select integrated
                  (column_mask (λ r, negb (Qle_bool (background_sum_variance r) 0%Q))
                     integrated))
         else ret integrated);
      gain ← get_detector_gain (params self);
      ret (with_rows integrated
             ((λ r, set_bkg_variance r (background_sum_variance r * gain)%Q)
                <$> rows integrated))
  else ret integrated.

(** Lines 499-515 of [integrate]: "verify sigmas are sensible". *)
Definition verify_sigmas (self : processor) (integrated : reflection_table)
  : M reflection_table :=
  _ ← verify_prf integrated;
  integrated ← verify_sum self integrated;
  verify_bkg self integrated.

(** The body of the loop of [write_integration_pickles] for one experiment. *)
Definition write_one_pickle (self : processor) (integrated : reflection_table)
    (experiments : list experiment) (e_number : nat) (experiment : experiment) : M unit :=
  _ ← (if has_id (cols integrated) then ret tt else raise (ColumnError "id"));
  let e_selection :=
    column_mask (λ r, experiment_id r =? Z.of_nat e_number) integrated in
  let reflections := select integrated e_selection in
  frame ← lift (make_frame reflections experiment);
  event_timestamp ←
    match tag self with
    | None =>
        event_timestamp ← lift (timestamp_from_data experiments experiment);
        let event_timestamp := OsPath.basename event_timestamp in
        ret (if Py.startswith "shot-" event_timestamp
             then (OsPath.splitext event_timestamp).1
             else event_timestamp)
    | Some t => ret t
    end;
  o ← get_output (params self);
  name ← match integration_pickle o with
         | Some template => lift (format_d_s template e_number event_timestamp)
         | None => raise (TypeError "unsupported operand type(s) for %")
         end;
  outfile ← path_join (output_dir o) name;
  emit (Write outfile (FramePickle frame)).

(** [write_integration_pickles] (lines 544-596), called without a
    callback.  The phil scope always has [output.integration_pickle], so
    the [AttributeError] handler of lines 555-558 is never entered. *)
Definition write_integration_pickles (self : processor) (integrated : reflection_table)
    (experiments : list experiment) : M unit :=
  o ← get_output (params self);
  match integration_pickle o with
  | Some _ =>
      for_each (λ '(e_number, experiment),
                  write_one_pickle self integrated experiments e_number experiment)
               (imap pair experiments)
  | None => ret tt
  end.

(** Lines 454-497 of [integrate]: the reference is cleaned, the
    collaborators predict and integrate, and the result is filtered by
    its flags. *)
Definition integrate_reflections (self : processor) (experiments : list experiment)
    (indexed : reflection_table)
  : M (list experiment * option reflection_table * reflection_table) :=
  '(indexed, _) ← process_reference self (Some indexed);
  cfg ← get_config (params self);
  experiments ← lift (profile_model_create cfg experiments indexed);
  cfg ← get_config (params self);
  predicted ← lift (predict_and_match cfg experiments indexed);
  cfg ← get_config (params self);
  integrated ← lift (integrator_integrate cfg experiments predicted);
  let selection :=
    if has_prf (cols integrated)
    then get_flags_integrated_all integrated
    else get_flags_integrated_sum integrated in
  let integrated := select integrated selection in
  let len_all := length (rows integrated) in
  let integrated := select integrated (negb <$> get_flags_bad_foreground integrated) in
  _ ← print ("Filtering " +:+ pretty (len_all - length (rows integrated))%nat
             +:+ " reflections with at least one bad foreground pixel out of "
             +:+ pretty len_all);
  ret (experiments, indexed, integrated).

(** Lines 517-542 of [integrate]: the results are written and reported. *)
Definition report_integrated (self : processor) (experiments : list experiment)
    (indexed : option reflection_table) (integrated : reflection_table)
  : M reflection_table :=
  o ← get_output (params self);
  _ ← match truthy (integrated_filename o) with
      | Some filename => save_reflections integrated filename
      | None => ret tt
      end;
  _ ← write_integration_pickles self integrated experiments;
  _ ← lift (quality_report experiments indexed integrated);
  ret integrated.

Definition integrate (self : processor) (experiments : list experiment)
    (indexed : reflection_table) : M reflection_table :=
  '(experiments, indexed, integrated) ← integrate_reflections self experiments indexed;
  integrated ← verify_sigmas self integrated;
  report_integrated self experiments indexed integrated.

(** One statement of lines 318-323, for the output parameter read by
    [get] and assigned by [set]:
    [if template is not None and "%s" in template: template = join(dir, template % ("idx-" + s))],
    the assignment being made in place in the output scope. *)
Definition set_path_if_not_none (get : output_scope → option string)
    (set : output_scope → option string → output_scope)
    (self : processor) (s : string) : M unit :=
  o ← get_output (params self);
  match get o with
  | Some template =>
      if Py.contains "%s" template then
        path ← resolve (params self) template s;
        set_output (params self) (λ o, set o (Some path))
      else ret tt
  | None => ret tt
  end.

(** One statement of lines 324-327, which has no test for [None]:
    [if "%s" in template: template = join(dir, template % ("idx-" + s))]. *)
Definition set_path (get : output_scope → option string)
    (set : output_scope → option string → output_scope)
    (self : processor) (s : string) : M unit :=
  o ← get_output (params self);
  match get o with
  | Some template =>
      if Py.contains "%s" template then
        path ← resolve (params self) template s;
        set_output (params self) (λ o, set o (Some path))
      else ret tt
  | None => raise not_iterable
  end.

(** Lines 318-327: the output paths are set from the templates. *)
Definition set_output_paths (self : processor) (s : string) : M unit :=
  _ ← set_path_if_not_none datablock_filename set_datablock_filename self s;
  _ ← set_path_if_not_none strong_filename set_strong_filename self s;
  _ ← set_path_if_not_none indexed_filename set_indexed_filename self s;
  _ ← set_path refined_experiments_filename set_refined_experiments_filename self s;
  set_path integrated_filename set_integrated_filename self s.

(** [print label, tag, str(e)] *)
Definition diagnostic (label tag : string) (e : exn) : string :=
  label +:+ " " +:+ tag +:+ " " +:+ str e.

(** One of the four blocks of lines 336-355:
    [try: x = stage  except Exception, e: print label, tag, str(e); return].
    [None] stands for the [return]. *)
Definition guarded {A} (stage : M A) (label tag : string) : M (option A) :=
  try_except (x ← stage; ret (Some x))
             (λ e, _ ← print (diagnostic label tag e); ret None).

(** Lines 335-355 of [process_datablock]: "Do the processing". *)
Definition run_stages (self : processor) (tag : string) (db : datablock) : M unit :=
  observed ← guarded (find_spots self db) "Error spotfinding" tag;
  match observed with
  | None => ret tt
  | Some observed =>
      indexed ← guarded (index self db observed) "Couldn't index" tag;
      match indexed with
      | None => ret tt
      | Some (experiments, indexed) =>
          experiments ← guarded (refine self experiments indexed) "Error refining" tag;
          match experiments with
          | None => ret tt
          | Some experiments =>
              integrated ← guarded (integrate self experiments indexed)
                                   "Error integrating" tag;
              ret tt
          end
      end
  end.

(** Lines 330-333: the datablock is dumped when its file name is set. *)
Definition dump_datablock (self : processor) (db : datablock) : M unit :=
  o ← get_output (params self);
  match truthy (datablock_filename o) with
  | Some filename => emit (Write filename (DatablockJson db))
  | None => ret tt
  end.

Definition process_datablock (self : processor) (tag : string) (db : datablock) : M unit :=
  let s := tag in
  _ ← set_output_paths self s;
  let self := {| params := params self; tag := Some tag |} in
  _ ← dump_datablock self db;
  run_stages self tag db.

(** ** The work items of [Script.run] *)

(** [do_import] (lines 106-128) *)
Definition do_import (filename : string) : M datablock :=
  datablocks ← lift (load_datablocks filename);
  match datablocks with
  | [] => raise (Abort ("Could not load " +:+ filename))
  | [d] => lift (as_stills d)
  | _ :: _ :: _ => raise (Abort ("Got multiple datablocks from file " +:+ filename))
  end.

(** [do_work] of the pre-import branch (lines 248-249); [run_params] is
    the [params] of [Script.run]. *)
Definition do_work_pre_import (run_params : loc) (item : string * datablock) : M unit :=
  p ← deepcopy run_params;
  process_datablock {| params := p; tag := None |} item.1 item.2.

(** [do_work] of the deferred branch (lines 263-282).  When the file
    has no image set or its first image set is empty, the source sends
    ["Zero length imageset in file: ..."] to the logger and returns;
    like every message to the logger, it is not recorded here. *)
Definition do_work_deferred (run_params : loc) (item : string * string) : M unit :=
  let '(tag, filename) := item in
  db ← do_import filename;
  match imageset_lengths db with
  | [] => ret tt
  | n :: others =>
      if (n =? 0)%nat then ret tt
      else if (0 <? length others)%nat
      then raise (Abort ("Found more than one imageset in file: " +:+ filename))
      else if (1 <? n)%nat
      then raise (Abort "Found a multi-image file. Run again with pre_import=True")
      else
        db ← lift (apply_geometry db);
        p ← deepcopy run_params;
        process_datablock {| params := p; tag := None |} tag db
  end.

(** Lines 293-295:
    [for i, item in enumerate(iterable): if (i+rank)%size == 0: do_work(item)] *)
Fixpoint mpi_loop_from {A} (do_work : A → M unit) (rank size i : Z) (iterable : list A)
  : M unit :=
  match iterable with
  | [] => ret tt
  | item :: rest =>
      _ ← (if Mpi.selected rank size i then do_work item else ret tt);
      mpi_loop_from do_work rank size (i + 1) rest
  end.

Definition mpi_loop {A} (do_work : A → M unit) (rank size : Z) (iterable : list A) : M unit :=
  mpi_loop_from do_work rank size 0 iterable.

End Program.

(** ** Ownership of parameter objects *)

Section Ownership.
Context `{C : Collaborators}.

(** The parameter object [p] and its scopes are allocated below [n]. *)
Definition params_below (n : loc) (w : world) (p : loc) : Prop :=
  ∃ r, roots w !! p = Some r
       ∧ (p < n)%nat ∧ (p_output r < n)%nat
       ∧ (p_refinement r < n)%nat ∧ (p_integration r < n)%nat.

(** What [Script.run] relies on between two units: its own [params]
    still has the value [cfg] and lies below the allocation pointer,
    above which no parameter object exists. *)
Definition run_inv (p0 : loc) (cfg : config algo) (w : world) : Prop :=
  read_config w p0 = Some cfg
  ∧ params_below (next w) w p0
  ∧ ∀ l, (next w ≤ l)%nat → roots w !! l = None.

(** Relative to a world [w0] and a mark [n]: nothing allocated below [n]
    has changed since [w0], every parameter object at or above [n] has
    its scopes at or above [n], and none exists above the allocation
    pointer. *)
Definition private_above (n : loc) (w0 w : world) : Prop :=
  (n ≤ next w)%nat
  ∧ (∀ l, (l < n)%nat →
          roots w !! l = roots w0 !! l
          ∧ outputs w !! l = outputs w0 !! l
          ∧ refinements w !! l = refinements w0 !! l
          ∧ integrations w !! l = integrations w0 !! l)
  ∧ (∀ l r, (n ≤ l)%nat → roots w !! l = Some r →
            (n ≤ p_output r)%nat ∧ (n ≤ p_refinement r)%nat
            ∧ (n ≤ p_integration r)%nat)
  ∧ (∀ l, (next w ≤ l)%nat → roots w !! l = None).

(** A computation that keeps [private_above n w0], however it ends. *)
Definition preserves (n : loc) (w0 : world) {A} (m : M A) : Prop :=
  ∀ w, private_above n w0 w → private_above n w0 (m w).2.

End Ownership.

(** ** Output paths

    The template [template] of the output scope [o] has a placeholder
    and, filled in with ["idx-" + s] and joined with the output
    directory, gives [path]. *)
Definition resolves_to `{C : Collaborators} (o : output_scope) (s : string)
    (template : option string) (path : string) : Prop :=
  ∃ t name,
    template = Some t ∧ Py.contains "%s" t = true
    ∧ format_s t ("idx-" +:+ s) = Ok name
    ∧ OsPath.join (output_dir o) name = Some path.

(** A template without a placeholder: [None], or a name that does not
    contain ["%s"]. *)
Definition literal (template : option string) : Prop :=
  ∀ t, template = Some t → Py.contains "%s" t = false.

(** What a writer that tests its file name for truth leaves behind. *)
Definition written_if `{C : Collaborators} (filename : option string) (a : artifact)
  : list event :=
  match truthy filename with
  | Some path => [Write path a]
  | None => []
  end.

(** The defaults of the [output] scope in [control_phil_str]. *)
Definition default_output : output_scope :=
  {| output_dir := Some ".";
     datablock_filename := Some "%s_datablock.json";
     strong_filename := Some "%s_strong.pickle";
     indexed_filename := Some "%s_indexed.pickle";
     refined_experiments_filename := Some "%s_refined_experiments.json";
     integrated_filename := Some "%s_integrated.pickle";
     integration_pickle := Some "int-%d-%s.pickle" |}.

(** ** A small set of collaborators to run the program on *)

Module Demo.

(** [template % arg] for a template with [%s] directives only: the first
    one takes the argument. *)
Fixpoint subst (directive : ascii) (template arg : string) : option string :=
  match template with
  | EmptyString => None
  | String c rest =>
      match rest with
      | String d rest' =>
          if bool_decide (c = "%"%char) && bool_decide (d = directive)
          then Some (arg +:+ rest')
          else String c <$> subst directive rest arg
      | EmptyString => None
      end
  end.

Definition percent_s (template arg : string) : result string :=
  match subst "s" template arg with
  | Some s => Ok s
  | None => Raise (TypeError "not all arguments converted during string formatting")
  end.

Definition percent_d_s (template : string) (n : nat) (arg : string) : result string :=
  match subst "d" template (pretty n) with
  | Some t => percent_s t arg
  | None => Raise (TypeError "not all arguments converted during string formatting")
  end.

Definition all_columns : columns :=
  {| has_miller_index := true; has_id := true; has_prf := true;
     has_sum := true; has_bkg := true |}.

Definition spot (z : Q) (z0 z1 : Z) : reflection :=
  {| xyzobs_px_value := (10.5%Q, 20.25%Q, z); bbox := (8, 13, 18, 23, z0, z1);
     miller_index := (0, 0, 0); experiment_id := -1;
     flags := {| indexed := false; integrated_sum := false; integrated_prf := false;
                 foreground_includes_bad_pixels := false |};
     intensity_prf_variance := 0%Q; intensity_sum_variance := 0%Q;
     background_sum_variance := 0%Q |}.

(** An indexed and integrated reflection with the given experiment id and
    variances (profile, summation, background). *)
Definition measured (hkl : Z * Z * Z) (i : Z) (is_indexed : bool) (prf sum bkg : Q)
  : reflection :=
  {| xyzobs_px_value := (10.5%Q, 20.25%Q, 0%Q); bbox := (8, 13, 18, 23, 0, 1);
     miller_index := hkl; experiment_id := i;
     flags := {| indexed := is_indexed; integrated_sum := true; integrated_prf := true;
                 foreground_includes_bad_pixels := false |};
     intensity_prf_variance := prf; intensity_sum_variance := sum;
     background_sum_variance := bkg |}.

Definition table (l : list reflection) : reflection_table :=
  {| cols := all_columns; rows := l |}.

Definition strong_spots : reflection_table :=
  table [spot 0.5%Q 0 1; spot 7%Q 6 9].

Definition indexed_spots : reflection_table :=
  table [measured (1, 2, 3) 0 true 4%Q 4%Q 1%Q;
         measured (0, 0, 0) (-1) true 4%Q 4%Q 1%Q;
         measured (3, 1, 1) (-1) false 4%Q 4%Q 1%Q].

Definition integrated_spots : reflection_table :=
  table [measured (1, 2, 3) 0 true 4%Q 4%Q 1%Q;
         measured (2, 0, 1) 0 true 9%Q 9%Q 0%Q].

(** Datablocks are named by a string; ["blank"] has no spots and
    ["powder"] cannot be indexed. *)
#[export] Instance collaborators : Collaborators :=
  {| datablock := string;
     experiment := nat;
     frame := list reflection;
     algo := unit;
     load_datablocks filename := Ok [filename];
     as_stills d := Ok d;
     imageset_lengths _ := [1%nat];
     apply_geometry d := Ok d;
     from_observations db _ :=
       if bool_decide (db = "blank")
       then Raise (CollaboratorError "no strong spots")
       else Ok strong_spots;
     indexer_from_parameters _ db _ :=
       if bool_decide (db = "powder")
       then Raise (Sorry "No suitable lattice could be found")
       else Ok ([0%nat], indexed_spots);
     profile_model_create _ experiments _ := Ok experiments;
     predict_and_match _ _ _ := Ok integrated_spots;
     integrator_integrate _ _ predicted := Ok predicted;
     quality_report _ _ _ := Ok "RMSD indexed (px)";
     make_frame reflections _ := Ok (rows reflections);
     timestamp_from_data _ _ := Ok "shot-0001.pickle";
     format_s := percent_s;
     format_d_s := percent_d_s |}.

(** A store holding one parameter object, at location 3, with the
    given output scope. *)
Definition world_with (o : output_scope) : world :=
  {| next := 4%nat;
     roots := {[ 3%nat := {| p_output := 0%nat; p_refinement := 1%nat;
                            p_integration := 2%nat; p_algo := tt |} ]};
     outputs := {[ 0%nat := o ]};
     refinements := {[ 1%nat := true ]};
     integrations := {[ 2%nat := 2%Q ]};
     trace := [] |}.

Definition run_params : loc := 3%nat.

End Demo.

(** ** [Script.run] and the reference geometry *)

(** The values of [params.mp.method]. *)
Inductive method := multiprocessing | sge | lsf | pbs | mpi.

(** The parameters that only [Script.run] reads: [dispatch.pre_import],
    [mp.method], [mp.nproc] and [input.reference_geometry]. *)
Record run_options := {
  dispatch_pre_import : bool;
  mp_method : method;
  mp_nproc : nat;
  input_reference_geometry : option string;
}.

(** What [Script.run] and [Script.load_reference_geometry] call but do
    not define. *)
Class RunCollaborators `{C : Collaborators} := {
  detector : Type;
  (** what [parser.print_help()] writes on standard output *)
  help_text : string;
  (** [DataBlockFactory.from_json_file(path, check_format=False)] *)
  datablocks_from_json_file : string → result (list datablock);
  (** [datablock.unique_detectors()] *)
  unique_detectors : datablock → list detector;
  (** [ExperimentListFactory.from_json_file(path, check_format=False)],
      seen through [detectors()] *)
  experiment_detectors_from_json_file : string → result (list detector);
  (** lines 216-227: the reference detector, when there is one, and the
      manual geometry applied to every image set of the imported
      datablocks *)
  import_geometry : option detector → list datablock → result (list datablock);
  (** lines 232-237: for each image set of [datablock.extract_imagesets()]
      and each of its frames, the path [imageset.paths()[i]] and the
      datablock [DataBlockFactory.from_imageset(imageset[i:i+1])[0]] *)
  split_frames : datablock → list (list (string * datablock));
  (** [easy_mp.parallel_map(func, iterable, processes, method, ...)] *)
  parallel_map : ∀ A : Type, (A → M unit) → list A → nat → method → M unit;
}.

Section Script.
Context `{R : RunCollaborators}.

(** [Script.load_reference_geometry] (lines 151-168), as a function of
    [params.input.reference_geometry]; the result is the value of
    [self.reference_detector] afterwards, which [__init__] sets to [None]. *)
Definition load_reference_geometry (reference_geometry : option string)
  : result (option detector) :=
  match reference_geometry with
  | None => Ok None
  | Some path =>
      let ref_datablocks :=
        match datablocks_from_json_file path with
        | Ok l => Some l
        | Raise _ => None
        end in
      match ref_datablocks with
      | None =>
          match experiment_detectors_from_json_file path with
          | Raise _ => Raise (Sorry ("Couldn't load geometry file " +:+ path))
          | Ok detectors =>
              match detectors with
              | [d] => Ok (Some d)
              | _ => Raise AssertionError
              end
          end
      | Some ref_datablocks =>
          match ref_datablocks with
          | [db] =>
              match unique_detectors db with
              | [d] => Ok (Some d)
              | _ => Raise AssertionError
              end
          | _ => Raise AssertionError
          end
      end
  end.

(** Line 215: [[do_import(path) for path in all_paths]] *)
Fixpoint import_all (all_paths : list string) : M (list datablock) :=
  match all_paths with
  | [] => ret []
  | path :: rest =>
      db ← do_import path;
      dbs ← import_all rest;
      ret (db :: dbs)
  end.

(** Lines 287-303: "Process the data".  [rank] and [size] are what
    [comm.Get_rank()] and [comm.Get_size()] return. *)
Definition process_the_data {A} (opts : run_options) (do_work : A → M unit)
    (iterable : list A) (rank size : Z) : M unit :=
  match mp_method opts with
  | mpi => mpi_loop do_work rank size iterable
  | m => parallel_map A do_work iterable (mp_nproc opts) m
  end.

(** Lines 229-251: one work item per frame of the imported datablocks,
    the frame's tag and its datablock. *)
Definition pre_import_items (datablocks : list datablock) : list (string * datablock) :=
  let frames : list (list (list (string * datablock))) :=
    split_frames <$> datablocks in
  let paths : list Tags.datablock_paths :=
    (λ imagesets : list (list (string * datablock)),
       (λ imageset : list (string * datablock), imageset.*1) <$> imagesets)
      <$> frames in
  let tags := Tags.pre_import_tags paths in
  let split_datablocks := (concat (concat frames)).*2 in
  zip tags split_datablocks.

(** Lines 254-260 and 284: one work item per path, its tag and the path. *)
Definition deferred_items (all_paths : list string) : list (string * string) :=
  let tags := Tags.deferred_tags all_paths in
  zip tags all_paths.

(** [Script.run] (lines 170-307) for the file names [all_paths] and the
    parameter object [run_params] that the parser returns.  In the
    deferred branch the reference detector reaches the units through
    [apply_geometry]. *)
Definition run (opts : run_options) (all_paths : list string) (run_params : loc)
    (rank size : Z) : M unit :=
  match all_paths with
  | [] => print help_text
  | _ :: _ =>
      reference_detector ← lift (load_reference_geometry (input_reference_geometry opts));
      let pre_import := dispatch_pre_import opts || (length all_paths =? 1)%nat in
      if pre_import then
        datablocks ← import_all all_paths;
        datablocks ← lift (import_geometry reference_detector datablocks);
        process_the_data opts (do_work_pre_import run_params)
          (pre_import_items datablocks) rank size
      else
        process_the_data opts (do_work_deferred run_params)
          (deferred_items all_paths) rank size
  end.

End Script.

(** ** Collaborators with files that do not load *)

Module DemoRun.

(** As [Demo.collaborators], but ["missing.cbf"] holds no datablock,
    ["two.json"] holds two, ["empty.h5"] has no image set, ["pair.h5"] has
    two and ["multi.h5"] has one of three frames. *)
#[export] Instance collaborators : Collaborators :=
  {| datablock := string;
     experiment := nat;
     frame := list reflection;
     algo := unit;
     load_datablocks filename :=
       if bool_decide (filename = "missing.cbf") then Ok []
       else if bool_decide (filename = "two.json") then Ok [filename; filename]
       else Ok [filename];
     as_stills d := Ok d;
     imageset_lengths db :=
       if bool_decide (db = "empty.h5") then []
       else if bool_decide (db = "pair.h5") then [1%nat; 1%nat]
       else if bool_decide (db = "multi.h5") then [3%nat]
       else [1%nat];
     apply_geometry d := Ok d;
     from_observations := @from_observations Demo.collaborators;
     indexer_from_parameters := @indexer_from_parameters Demo.collaborators;
     profile_model_create := @profile_model_create Demo.collaborators;
     predict_and_match := @predict_and_match Demo.collaborators;
     integrator_integrate := @integrator_integrate Demo.collaborators;
     quality_report := @quality_report Demo.collaborators;
     make_frame := @make_frame Demo.collaborators;
     timestamp_from_data := @timestamp_from_data Demo.collaborators;
     format_s := Demo.percent_s;
     format_d_s := Demo.percent_d_s |}.

(** The frames of a file: ["multi.h5"] holds three, named after the
    file, any other file holds one. *)
Definition frames_of (db : string) : list (list (string * string)) :=
  if bool_decide (db = "multi.h5")
  then [[(db, "multi.h5[0]"); (db, "multi.h5[1]"); (db, "multi.h5[2]")]]
  else [[(db, db)]].

(** A geometry file is a datablock file when its name ends in
    ["datablock.json"], an experiment list when it is
    ["experiments.json"]; the worker pool runs the items one after the
    other. *)
#[export] Instance run_collaborators : RunCollaborators (C := collaborators) :=
  {| detector := string;
     help_text := "usage: dials.stills_process [options] [param.phil] filenames";
     datablocks_from_json_file path :=
       if bool_decide (path = "datablock.json") then Ok [path]
       else Raise (CollaboratorError "not a datablock file");
     unique_detectors db := [db];
     experiment_detectors_from_json_file path :=
       if bool_decide (path = "experiments.json") then Ok [path]
       else Raise (CollaboratorError "not an experiment list");
     import_geometry _ datablocks := Ok datablocks;
     split_frames := frames_of;
     parallel_map A do_work iterable _ _ := for_each do_work iterable |}.

(** The store of [Demo.world_with] for these collaborators. *)
Definition world_with (o : output_scope) : world :=
  {| next := 4%nat;
     roots := {[ 3%nat := {| p_output := 0%nat; p_refinement := 1%nat;
                            p_integration := 2%nat; p_algo := tt |} ]};
     outputs := {[ 0%nat := o ]};
     refinements := {[ 1%nat := true ]};
     integrations := {[ 2%nat := 2%Q ]};
     trace := [] |}.

Definition run_params : loc := 3%nat.

End DemoRun.

(** ** Proof automation *)

(** Exposes the state-passing behind the monad's operations. *)
Ltac unfold_monad :=
  unfold get_detector_gain, save_reflections, print in *;
  unfold emit in *;
  unfold mbind, M_bind, bind, ret, raise, lift, try_except,
    get_output, get_config in *.

(** * Facts about the tags *)

Module TagFacts.
Import Py Tags.

Lemma pretty_N_go_head (x : N) : ∀ s,
  (0 < x)%N → ∃ c s', pretty_N_go x s = String c s' ∧ c ≠ "0"%char.
Proof.
  induction (N.lt_wf_0 x) as [x _ IH]. intros s Hx.
  rewrite pretty_N_go_step by done.
  destruct (decide (x `div` 10 = 0)%N) as [Hz|Hnz].
  - rewrite Hz, pretty_N_go_0. eexists _, _. split; [done|].
    assert (x < 10)%N by (apply (N.div_small_iff x 10); [lia|exact Hz]).
    rewrite N.mod_small by done.
    intros Hc. change "0"%char with (pretty_N_char 0) in Hc.
    apply pretty_N_char_inj in Hc; lia.
  - apply IH.
    + apply N.div_lt; lia.
    + destruct (x `div` 10)%N; [done|lia].
Qed.

Lemma pretty_nat_head (n : nat) :
  ∃ c s, pretty n = String c s ∧ (c = "0"%char → n = 0%nat).
Proof.
  unfold pretty, pretty_nat, pretty, pretty_N.
  destruct (decide (N.of_nat n = 0)%N) as [Hz|Hnz].
  - exists "0"%char, EmptyString. split; [done|lia].
  - destruct (pretty_N_go_head (N.of_nat n) EmptyString) as (c & s & -> & Hc); [lia|].
    exists c, s. split; [done|]. intros ->. done.
Qed.

Lemma pretty_N_char_no_underscore (x : N) : pretty_N_char x ≠ "_"%char.
Proof. unfold pretty_N_char. by repeat case_match. Qed.

Lemma rfind_ge (c : ascii) (s : string) : (-1 ≤ rfind c s)%Z.
Proof. induction s as [|a s IH]; simpl; [lia|]. repeat case_match; lia. Qed.

Lemma rfind_cons_absent (c a : ascii) (s : string) :
  rfind c (String a s) = (-1)%Z ↔ a ≠ c ∧ rfind c s = (-1)%Z.
Proof.
  pose proof (rfind_ge c s). simpl.
  destruct (Z.leb_spec 0 (rfind c s)); [lia|].
  case_bool_decide as Hac.
  - split; [lia|]. intros [? _]. congruence.
  - split; [intros _; split; [done|lia]|done].
Qed.

Lemma rfind_app_absent (c : ascii) (s t : string) :
  rfind c (s +:+ t) = (-1)%Z ↔ rfind c s = (-1)%Z ∧ rfind c t = (-1)%Z.
Proof.
  induction s as [|a s IH].
  - simpl. intuition.
  - change (String a s +:+ t) with (String a (s +:+ t)).
    rewrite !rfind_cons_absent, IH. tauto.
Qed.

Lemma rfind_pretty_N_go (x : N) : ∀ s,
  rfind "_" s = (-1)%Z → rfind "_" (pretty_N_go x s) = (-1)%Z.
Proof.
  induction (N.lt_wf_0 x) as [x _ IH]. intros s Hs.
  destruct (decide (x = 0)%N) as [->|Hx]; [by rewrite pretty_N_go_0|].
  rewrite pretty_N_go_step by lia. apply IH.
  - apply N.div_lt; lia.
  - apply rfind_cons_absent. split; [apply pretty_N_char_no_underscore|done].
Qed.

Lemma rfind_pretty_nat (n : nat) : rfind "_" (pretty n) = (-1)%Z.
Proof.
  unfold pretty, pretty_nat, pretty, pretty_N. case_decide; [done|].
  by apply rfind_pretty_N_go.
Qed.

Lemma rfind_zeros (n : nat) : rfind "_" (zeros n) = (-1)%Z.
Proof. induction n; [done|]. by apply rfind_cons_absent. Qed.

Lemma rfind_fmt_05d (i : nat) : rfind "_" (fmt_05d i) = (-1)%Z.
Proof.
  unfold fmt_05d. apply rfind_app_absent.
  split; [apply rfind_zeros|apply rfind_pretty_nat].
Qed.

Lemma zeros_app_cancel (a b : nat) (s t : string) :
  (a ≤ b)%nat → zeros a +:+ s = zeros b +:+ t → s = zeros (b - a) +:+ t.
Proof.
  revert b. induction a as [|a IH]; intros b Hab Heq.
  - by rewrite Nat.sub_0_r.
  - destruct b as [|b]; [lia|]. simpl in Heq. injection Heq as Heq.
    apply IH in Heq; [|lia]. by rewrite Nat.sub_succ.
Qed.

Lemma length_zeros_app (n : nat) (s : string) :
  String.length (zeros n +:+ s) = (n + String.length s)%nat.
Proof. induction n as [|n IH]; [done|]. simpl. by rewrite <- IH. Qed.

Lemma fmt_05d_width (i : nat) :
  String.length (fmt_05d i) = (5 `max` String.length (pretty i))%nat.
Proof. unfold fmt_05d. rewrite length_zeros_app. lia. Qed.

Example fmt_05d_small : fmt_05d 7 = "00007" ∧ fmt_05d 4321 = "04321".
Proof. split; reflexivity. Qed.

Example fmt_05d_large : fmt_05d (123 * 1000 + 456) = "123456".
Proof. reflexivity. Qed.

Lemma fmt_05d_inj (i j : nat) : fmt_05d i = fmt_05d j → i = j.
Proof.
  assert (∀ i j, (String.length (pretty i) ≤ String.length (pretty j))%nat →
                 fmt_05d i = fmt_05d j → i = j) as Hle.
  { clear i j. intros i j Hlen Heq. unfold fmt_05d in Heq.
    apply symmetry, zeros_app_cancel in Heq; [|lia].
    destruct (pretty_nat_head i) as (ci & si & Hi & Hi0).
    destruct (pretty_nat_head j) as (cj & sj & Hj & Hj0).
    destruct (5 - String.length (pretty i) - (5 - String.length (pretty j)))%nat
      as [|k] eqn:Hk.
    - simpl in Heq. by apply (inj pretty).
    - exfalso. rewrite Hi, Hj in Heq. simpl in Heq. injection Heq as Hc Hs.
      rewrite (Hj0 Hc) in Hj. compute in Hj. injection Hj as _ <-.
      apply (f_equal String.length) in Hs. rewrite length_zeros_app in Hs.
      simpl in Hs. lia. }
  intros Heq. destruct (Nat.le_ge_cases (String.length (pretty i))
                          (String.length (pretty j))).
  - by apply Hle.
  - symmetry. by apply Hle.
Qed.

Lemma string_app_nil_l (s : string) : EmptyString +:+ s = s.
Proof. reflexivity. Qed.

Lemma string_app_cons (a : ascii) (s t : string) : String a s +:+ t = String a (s +:+ t).
Proof. reflexivity. Qed.

Lemma suffix_split_unique (b1 b2 d1 d2 : string) :
  rfind "_" d1 = (-1)%Z → rfind "_" d2 = (-1)%Z →
  b1 +:+ "_" +:+ d1 = b2 +:+ "_" +:+ d2 → b1 = b2 ∧ d1 = d2.
Proof.
  intros H1 H2. revert b2.
  induction b1 as [|a b1 IH]; intros [|c b2] Heq;
    rewrite ?string_app_cons, ?string_app_nil_l in Heq.
  - by injection Heq as ->.
  - injection Heq as _ Heq. exfalso. rewrite Heq in H1.
    apply rfind_app_absent in H1 as [_ H1].
    by apply rfind_cons_absent in H1 as [? _].
  - injection Heq as _ Heq. exfalso. rewrite <- Heq in H2.
    apply rfind_app_absent in H2 as [_ H2].
    by apply rfind_cons_absent in H2 as [? _].
  - injection Heq as -> Heq. by destruct (IH _ Heq) as [-> ->].
Qed.

Lemma fmt_s_05d_inj (b1 b2 : string) (i j : nat) :
  fmt_s_05d b1 i = fmt_s_05d b2 j → b1 = b2 ∧ i = j.
Proof.
  intros Heq. apply suffix_split_unique in Heq as [-> Heq];
    [|apply rfind_fmt_05d..].
  split; [done|by apply fmt_05d_inj].
Qed.

Lemma count_pos (b : string) (l : list string) (p : nat) :
  l !! p = Some b → (0 < count b l)%nat.
Proof.
  revert p. induction l as [|y l IH]; intros [|p] Hp; simplify_eq/=.
  - rewrite bool_decide_eq_true_2 by done. lia.
  - specialize (IH _ Hp). lia.
Qed.

Lemma count_repeated (b : string) (l : list string) (p q : nat) :
  p ≠ q → l !! p = Some b → l !! q = Some b → (1 < count b l)%nat.
Proof.
  revert p q. induction l as [|y l IH]; intros [|p] [|q] Hne Hp Hq; simplify_eq/=.
  - rewrite bool_decide_eq_true_2 by done. pose proof (count_pos _ _ _ Hq). lia.
  - rewrite bool_decide_eq_true_2 by done. pose proof (count_pos _ _ _ Hp). lia.
  - assert (p ≠ q) as Hne' by congruence. specialize (IH _ _ Hne' Hp Hq). lia.
Qed.

Lemma zip_tags_lookup (indices : list nat) (basenames : list string)
    (p i : nat) (b : string) :
  indices !! p = Some i → basenames !! p = Some b →
  zip_tags indices basenames !! p = Some (tag_for basenames i b).
Proof.
  intros Hi Hb. unfold zip_tags. rewrite lookup_zip_with, Hi. simpl. by rewrite Hb.
Qed.

Lemma deferred_tags_zip (all_paths : list string) :
  deferred_tags all_paths
  = zip_tags (seq 0 (length all_paths)) (stem <$> all_paths).
Proof.
  unfold deferred_tags, zip_tags.
  rewrite <- (length_fmap stem all_paths).
  generalize (tag_for (stem <$> all_paths)). generalize (stem <$> all_paths).
  intros l f. apply list_eq. intros i.
  rewrite list_lookup_imap, lookup_zip_with.
  destruct (l !! i) as [b|] eqn:Hb; simpl.
  - rewrite lookup_seq_lt by (by eapply lookup_lt_Some). done.
  - by destruct (seq 0 (length l) !! i).
Qed.

(** Two units whose base names are both unique or both repeated get
    different tags, unless they agree on base name and index. *)
Lemma zip_tags_distinct (indices : list nat) (basenames : list string)
    (p q i j : nat) (bi bj : string) :
  p ≠ q →
  indices !! p = Some i → basenames !! p = Some bi →
  indices !! q = Some j → basenames !! q = Some bj →
  ((1 < count bi basenames)%nat ↔ (1 < count bj basenames)%nat) →
  bi ≠ bj ∨ i ≠ j →
  zip_tags indices basenames !! p ≠ zip_tags indices basenames !! q.
Proof.
  intros Hpq Hi Hbi Hj Hbj Hsame Hdiff.
  rewrite (zip_tags_lookup _ _ _ _ _ Hi Hbi), (zip_tags_lookup _ _ _ _ _ Hj Hbj).
  unfold tag_for. intros [= Heq].
  destruct (decide (1 < count bi basenames)%nat) as [Hc|Hc].
  - rewrite !bool_decide_eq_true_2 in Heq by tauto.
    apply fmt_s_05d_inj in Heq. tauto.
  - rewrite !bool_decide_eq_false_2 in Heq by tauto. subst bj.
    apply Hc. by eapply count_repeated.
Qed.

Lemma split_units_lookup (datablocks : list datablock_paths) (p i : nat) (b : string) :
  split_units datablocks !! p = Some (i, b) →
  (split_units datablocks).*1 !! p = Some i ∧ (split_units datablocks).*2 !! p = Some b.
Proof. intros H. rewrite !list_lookup_fmap, H. done. Qed.

(** C1, as amended.  In deferred mode every path gets one tag, in
    pre-import mode every frame does.  A unit whose base name occurs
    once is tagged with the bare base name; a unit whose base name is
    repeated is tagged with the base name, an underscore and its index
    padded with zeros to five digits (more when the index has more), the
    index being the position of the path in deferred mode and the
    position of the frame inside its image set in pre-import mode.  Two
    different units whose base names are both unique or both repeated
    get different tags; in pre-import mode this needs that they differ
    in base name or in index. *)
Theorem tags_by_design :
  (∀ all_paths : list string,
      let basenames := stem <$> all_paths in
      let tags := deferred_tags all_paths in
      length tags = length all_paths
      ∧ (∀ i b, basenames !! i = Some b →
           tags !! i = Some (if bool_decide (1 < count b basenames)%nat
                             then b +:+ "_" +:+ fmt_05d i else b))
      ∧ (∀ i j bi bj, i ≠ j →
           basenames !! i = Some bi → basenames !! j = Some bj →
           ((1 < count bi basenames)%nat ↔ (1 < count bj basenames)%nat) →
           tags !! i ≠ tags !! j))
  ∧ (∀ datablocks : list datablock_paths,
      let units := split_units datablocks in
      let tags := pre_import_tags datablocks in
      length tags = length units
      ∧ (∀ p i b, units !! p = Some (i, b) →
           tags !! p = Some (if bool_decide (1 < count b units.*2)%nat
                             then b +:+ "_" +:+ fmt_05d i else b))
      ∧ (∀ p q i j bi bj, p ≠ q →
           units !! p = Some (i, bi) → units !! q = Some (j, bj) →
           ((1 < count bi units.*2)%nat ↔ (1 < count bj units.*2)%nat) →
           bi ≠ bj ∨ i ≠ j →
           tags !! p ≠ tags !! q))
  ∧ (∀ i : nat, String.length (fmt_05d i) = (5 `max` String.length (pretty i))%nat).
Proof.
  split; [|split; [|apply fmt_05d_width]].
  - intros all_paths basenames tags. subst tags. rewrite deferred_tags_zip.
    fold basenames.
    assert (length basenames = length all_paths) as Hlen
      by (unfold basenames; apply length_fmap).
    assert (∀ i b, basenames !! i = Some b → seq 0 (length all_paths) !! i = Some i)
      as Hseq.
    { intros i b Hb. apply lookup_seq_lt. rewrite <- Hlen.
      by eapply lookup_lt_Some. }
    split; [|split].
    + unfold zip_tags. rewrite length_zip_with, length_seq. lia.
    + intros i b Hb. by rewrite (zip_tags_lookup _ _ _ _ _ (Hseq _ _ Hb) Hb).
    + intros i j bi bj Hne Hi Hj Hsame.
      eapply zip_tags_distinct; eauto.
  - intros datablocks units tags. subst tags units. unfold pre_import_tags.
    split; [|split].
    + unfold zip_tags. rewrite length_zip_with, !length_fmap. lia.
    + intros p i b Hp. apply split_units_lookup in Hp as [Hi Hb].
      by rewrite (zip_tags_lookup _ _ _ _ _ Hi Hb).
    + intros p q i j bi bj Hne Hp Hq Hsame Hdiff.
      apply split_units_lookup in Hp as [Hi Hbi].
      apply split_units_lookup in Hq as [Hj Hbj].
      eapply zip_tags_distinct; eauto.
Qed.

Lemma tags_by_design_witness :
  deferred_tags ["run1/shot.cbf"; "run2/shot.cbf"; "dark.cbf"] !! 0%nat
  ≠ deferred_tags ["run1/shot.cbf"; "run2/shot.cbf"; "dark.cbf"] !! 1%nat.
Proof.
  apply (proj2 (proj2 (proj1 tags_by_design
           ["run1/shot.cbf"; "run2/shot.cbf"; "dark.cbf"])) 0%nat 1%nat "shot" "shot").
  - lia.
  - reflexivity.
  - reflexivity.
  - reflexivity.
Defined.

(** C1 as stated fails: in pre-import mode two single-frame files with
    the same base name are both frame 0 of their image set and get the
    same tag, so the unit at position 1 carries index 0; in deferred
    mode a file whose own name looks like a suffixed tag collides with
    it. *)
Lemma tags_can_collide :
  pre_import_tags [[["run1/shot.cbf"]]; [["run2/shot.cbf"]]]
    = ["shot_00000"; "shot_00000"]
  ∧ ¬ NoDup (pre_import_tags [[["run1/shot.cbf"]]; [["run2/shot.cbf"]]])
  ∧ ¬ NoDup (deferred_tags ["a.img"; "d/a.img"; "a_00000.img"]).
Proof.
  split; [reflexivity|]. split.
  - intros H. apply NoDup_cons in H as [Hnotin _]. apply Hnotin. vm_compute. left.
  - intros H. apply NoDup_cons in H as [Hnotin _]. apply Hnotin. vm_compute.
    right. left.
Qed.

End TagFacts.

(** * Facts about the rank partition *)

Module MpiFacts.
Import Mpi.











End MpiFacts.

(** * The rank loop *)

Section RankLoop.
Context `{C : Collaborators}.
Import Mpi MpiFacts.



End RankLoop.


(** * Reflection tables *)

Section TableFacts.

Lemma select_rows_fmap (f : reflection → bool) (l : list reflection) :
  select_rows l (f <$> l) = filter (λ r, f r = true) l.
Proof.
  induction l as [|r l IH]; [done|].
  rewrite fmap_cons, filter_cons. cbn [select_rows]. rewrite IH.
  destruct (f r); [by rewrite decide_True|by rewrite decide_False].
Qed.

Lemma select_rows_negb_fmap (f : reflection → bool) (l : list reflection) :
  select_rows l (negb <$> (f <$> l)) = filter (λ r, f r = false) l.
Proof.
  rewrite <- list_fmap_compose, select_rows_fmap.
  apply list_filter_iff. intros r. simpl. by destruct (f r).
Qed.

Lemma count_mask_pos (f : reflection → bool) (b : bool) (l : list reflection) :
  (0 <? count_mask b (f <$> l))%nat = true ↔ ∃ r, r ∈ l ∧ f r = b.
Proof.
  rewrite Nat.ltb_lt. unfold count_mask. split.
  - intros Hlen.
    destruct (filter (λ x, x = b) (f <$> l)) as [|x xs] eqn:Hf; [simpl in Hlen; lia|].
    assert (x ∈ filter (λ x, x = b) (f <$> l)) as Hx by (rewrite Hf; left).
    apply list_elem_of_filter in Hx as [-> Hx].
    apply list_elem_of_fmap in Hx as (r & ? & ?). eauto.
  - intros (r & Hr & Hb).
    assert (b ∈ filter (λ x, x = b) (f <$> l)) as Hx.
    { apply list_elem_of_filter. split; [done|].
      apply list_elem_of_fmap. eauto. }
    destruct (filter (λ x, x = b) (f <$> l)); [by apply elem_of_nil in Hx|].
    simpl. lia.
Qed.

Lemma count_mask_zero (f : reflection → bool) (b : bool) (l : list reflection) :
  (0 <? count_mask b (f <$> l))%nat = false ↔ ∀ r, r ∈ l → f r = negb b.
Proof.
  rewrite <- not_true_iff_false, count_mask_pos. split.
  - intros Hno r Hr. destruct (f r) eqn:Hf, b; try done; exfalso; eauto.
  - intros Hall (r & Hr & Hb). rewrite (Hall r Hr) in Hb. by destruct b.
Qed.

Lemma count_mask_filter (f : reflection → bool) (l : list reflection) :
  count_mask true (f <$> l) = length (filter (λ r, f r = true) l).
Proof.
  unfold count_mask. induction l as [|r l IH]; [done|].
  rewrite fmap_cons, !filter_cons. destruct (f r) eqn:Hf.
  - rewrite !decide_True by done. simpl. by rewrite IH.
  - rewrite !decide_False by done. done.
Qed.

(** A loop that rewrites every entry in place is a map. *)
Lemma foldl_update_all {A} (f : A → A) (step : list A → nat → list A) :
  (∀ l i r, l !! i = Some r → step l i = <[i := f r]> l) →
  ∀ seen rest : list A,
    foldl step (seen ++ rest) (seq (length seen) (length rest))
    = seen ++ (f <$> rest).
Proof.
  intros Hstep seen rest. revert seen.
  induction rest as [|x rest IH]; intros seen; [done|].
  simpl. rewrite (Hstep _ _ x) by (by apply list_lookup_middle).
  rewrite insert_app_r_alt, Nat.sub_diag by done. simpl.
  rewrite (cons_middle (f x)), (assoc (++)).
  replace (S (length seen)) with (length (seen ++ [f x]))
    by (rewrite length_app; simpl; lia).
  rewrite IH. by rewrite <- (assoc (++)).
Qed.

End TableFacts.

(** * The stages *)

Section StageFacts.
Context `{C : Collaborators}.

Lemma add_events_nil (w : world) : add_events w [] = w.
Proof. destruct w. unfold add_events. simpl. by rewrite app_nil_r. Qed.

Lemma add_events_app (w : world) (es es' : list event) :
  add_events (add_events w es) es' = add_events w (es ++ es').
Proof. unfold add_events. simpl. by rewrite (assoc (++)). Qed.

Lemma read_output_add_events (w : world) (es : list event) (p : loc) :
  read_output (add_events w es) p = read_output w p.
Proof. done. Qed.

Lemma read_config_add_events (w : world) (es : list event) (p : loc) :
  read_config (add_events w es) p = read_config w p.
Proof. done. Qed.

Lemma read_config_output (w : world) (p : loc) (cfg : config algo) :
  read_config w p = Some cfg → read_output w p = Some (cfg_output cfg).
Proof.
  unfold read_config, read_output. intros H.
  destruct (roots w !! p) as [r|]; simplify_eq/=.
  destruct (outputs w !! p_output r); simplify_eq/=.
  destruct (refinements w !! p_refinement r); simplify_eq/=.
  destruct (integrations w !! p_integration r); simplify_eq/=. done.
Qed.

Lemma reset_xyzobs_fmap (l : list reflection) :
  reset_xyzobs l
  = (λ r, set_xyzobs r ((xyzobs_px_value r).1.1, (xyzobs_px_value r).1.2, 0%Q)) <$> l.
Proof.
  unfold reset_xyzobs. apply (foldl_update_all _ _) with (seen := []).
  intros l' i r ->. by destruct (xyzobs_px_value r) as [[x y] z].
Qed.

Lemma reset_bbox_fmap (l : list reflection) :
  reset_bbox l
  = (λ r, set_bbox r ((bbox r).1.1.1.1.1, (bbox r).1.1.1.1.2, (bbox r).1.1.1.2,
                      (bbox r).1.1.2, 0, 1)) <$> l.
Proof.
  unfold reset_bbox. apply (foldl_update_all _ _) with (seen := []).
  intros l' i r ->. by destruct (bbox r) as [[[[[b0 b1] b2] b3] z0] z1].
Qed.

Lemma reset_rows_lookup (l : list reflection) (i : nat) (r : reflection) :
  reset_bbox (reset_xyzobs l) !! i = Some r →
  ∃ r0, l !! i = Some r0
        ∧ xyzobs_px_value r
          = ((xyzobs_px_value r0).1.1, (xyzobs_px_value r0).1.2, 0%Q)
        ∧ bbox r = ((bbox r0).1.1.1.1.1, (bbox r0).1.1.1.1.2, (bbox r0).1.1.1.2,
                    (bbox r0).1.1.2, 0, 1)
        ∧ miller_index r = miller_index r0
        ∧ experiment_id r = experiment_id r0
        ∧ flags r = flags r0.
Proof.
  rewrite reset_bbox_fmap, reset_xyzobs_fmap, <- list_fmap_compose.
  rewrite list_lookup_fmap. destruct (l !! i) as [r0|]; [|done].
  intros [= <-]. exists r0. done.
Qed.

(** C7.  Whenever [find_spots] returns an observation set, every
    observation in it has centroid z equal to 0 and a bounding box that
    spans 0 to 1 in z; and it does return, with one such observation for
    each raw one and the other coordinates kept, as soon as the spot
    finder returns. *)
Theorem find_spots_resets_z (self : processor) (db : datablock) (w : world) :
  (∀ observed w',
      find_spots self db w = (Ok observed, w') →
      ∀ r, r ∈ rows observed →
           (xyzobs_px_value r).2 = 0%Q ∧ (bbox r).1.2 = 0 ∧ (bbox r).2 = 1)
  ∧ (∀ cfg raw,
      read_config w (params self) = Some cfg →
      from_observations db cfg = Ok raw →
      ∃ observed w',
        find_spots self db w = (Ok observed, w')
        ∧ length (rows observed) = length (rows raw)
        ∧ ∀ i r, rows observed !! i = Some r →
            ∃ r0, rows raw !! i = Some r0
                  ∧ xyzobs_px_value r
                    = ((xyzobs_px_value r0).1.1, (xyzobs_px_value r0).1.2, 0%Q)
                  ∧ bbox r = ((bbox r0).1.1.1.1.1, (bbox r0).1.1.1.1.2,
                              (bbox r0).1.1.1.2, (bbox r0).1.1.2, 0, 1)).
Proof.
  split.
  - intros observed w' Hrun r Hr.
    unfold find_spots in Hrun. unfold_monad.
    destruct (read_config w (params self)) as [cfg|]; [|done].
    destruct (from_observations db cfg) as [raw|]; [|done].
    destruct (read_output w (params self)) as [o|]; [|done].
    assert (observed = with_rows raw (reset_bbox (reset_xyzobs (rows raw)))) as ->
      by (destruct (truthy (strong_filename o)); by simplify_eq/=).
    apply list_elem_of_lookup in Hr as [i Hi].
    apply reset_rows_lookup in Hi as (r0 & _ & -> & -> & _). done.
  - intros cfg raw Hcfg Hraw.
    unfold find_spots. unfold_monad.
    rewrite Hcfg, Hraw, (read_config_output _ _ _ Hcfg).
    assert (∀ r' : reflection_table,
               length (rows (with_rows r' (reset_bbox (reset_xyzobs (rows raw)))))
               = length (rows raw)) as Hlen.
    { intros r'. simpl. by rewrite reset_bbox_fmap, reset_xyzobs_fmap, !length_fmap. }
    destruct (truthy (strong_filename (cfg_output cfg)));
      (eexists _, _; split; [reflexivity|]; split; [apply Hlen|];
       intros i r Hi; apply reset_rows_lookup in Hi as (r0 & ? & ? & ? & _); eauto).
Qed.

End StageFacts.

Section ReferenceFacts.
Context `{C : Collaborators}.

(** C8, as amended.  [refine] returns the experiment models it was
    given, whatever the centroids are, and calls no collaborator, so
    that no minimisation is run.  It leaves the store as it is.  It has
    two effects and no other: it prints its fixed notice on standard
    output, always, and then writes the models to the
    refined-experiments file exactly when that file name is set. *)
Theorem refine_is_pass_through (self : processor) (experiments : list experiment)
    (centroids : reflection_table) (w : world) (o : output_scope) :
  read_output w (params self) = Some o →
  refine self experiments centroids w
  = (Ok experiments,
     add_events w
       (Print "Skipping refinement because the crystal orientation is refined during indexing"
        :: match truthy (refined_experiments_filename o) with
           | Some filename => [Write filename (ExperimentsJson experiments)]
           | None => []
           end)).
Proof.
  intros Ho. unfold refine. unfold_monad.
  rewrite read_output_add_events, Ho.
  destruct (truthy (refined_experiments_filename o)); [|done].
  by rewrite add_events_app.
Qed.

Lemma filter_all (f : reflection → bool) (l : list reflection) :
  (∀ r, r ∈ l → f r = true) → filter (λ r, f r = true) l = l.
Proof.
  induction l as [|r l IH]; intros Hall; [done|].
  rewrite filter_cons, decide_True by (apply Hall; left).
  f_equal. apply IH. intros r' Hr'. apply Hall. by right.
Qed.

(** The rows left by the [del_selected] of the unindexed reflections,
    which the program skips when there is none. *)
Lemma keep_indexed_rows (t : reflection_table) :
  rows (if (0 <? count_mask false (get_flags_indexed t))%nat
        then del_selected t (negb <$> get_flags_indexed t)
        else t)
  = filter (λ r, indexed (flags r) = true) (rows t).
Proof.
  unfold get_flags_indexed, column_mask.
  destruct (0 <? _)%nat eqn:Hc.
  - simpl. rewrite <- !list_fmap_compose, select_rows_fmap.
    apply list_filter_iff. intros r. simpl. by destruct (indexed (flags r)).
  - pose proof (proj1 (count_mask_zero _ _ _) Hc) as Hall.
    symmetry. by apply filter_all.
Qed.

Lemma cols_keep_indexed (t : reflection_table) :
  cols (if (0 <? count_mask false (get_flags_indexed t))%nat
        then del_selected t (negb <$> get_flags_indexed t)
        else t)
  = cols t.
Proof. by destruct (0 <? _)%nat. Qed.

Lemma table_eta (t t' : reflection_table) :
  cols t' = cols t → t' = with_rows t (rows t').
Proof. destruct t, t'. simpl. by intros ->. Qed.

Lemma filter_none (f : reflection → bool) (l : list reflection) :
  (∀ r, r ∈ l → f r = false) → filter (λ r, f r = true) l = [].
Proof.
  induction l as [|r l IH]; intros Hall; [done|].
  rewrite filter_cons, decide_False by (rewrite (Hall r); [done|left]).
  apply IH. intros r' Hr'. apply Hall. by right.
Qed.

(** What [process_reference] computes on a table that has both
    columns. *)
Lemma process_reference_spec (self : processor) (t : reflection_table) (w : world) :
  has_miller_index (cols t) = true → has_id (cols t) = true →
  let idx := filter (λ r, indexed (flags r) = true) (rows t) in
  let kept := filter (λ r, is_hkl_zero r = false) idx in
  let junk := filter (λ r, indexed (flags r) = false) (rows t)
              ++ filter (λ r, is_hkl_zero r = true) idx in
  let bad := filter (λ r, (experiment_id r <? 0) = true) kept in
  process_reference self (Some t) w
  = if decide (idx = []) then (Raise (Sorry (msg_no_indexed 0 0)), w)
    else if decide (bad = [])
         then (Ok (Some (with_rows t kept), Some (with_rows t junk)), w)
         else (Raise (Sorry (msg_invalid_id (length bad))), w).
Proof.
  intros Hmi Hid idx kept junk bad. unfold process_reference.
  rewrite Hmi, Hid. cbn [negb].
  pose proof (keep_indexed_rows t) as Hrows.
  pose proof (cols_keep_indexed t) as Hcols.
  set (t1 := if (0 <? count_mask false (get_flags_indexed t))%nat
             then del_selected t (negb <$> get_flags_indexed t) else t) in *.
  fold idx in Hrows. cbv zeta.
  rewrite (table_eta t t1 Hcols), Hrows. clear Hrows Hcols t1.
  cbn [rows with_rows]. destruct (decide (idx = [])) as [->|Hidx]; [done|].
  assert ((length idx =? 0)%nat = false) as ->
    by (apply Nat.eqb_neq; destruct idx; [done|simpl; lia]).
  assert (select t (negb <$> get_flags_indexed t)
          = with_rows t (filter (λ r, indexed (flags r) = false) (rows t))) as ->.
  { unfold select, get_flags_indexed, column_mask. f_equal.
    apply select_rows_negb_fmap. }
  set (u := if (0 <? count_mask true (column_mask is_hkl_zero (with_rows t idx)))%nat
            then _ else _).
  assert (u = (with_rows t kept, with_rows t junk)) as ->.
  { subst u. unfold column_mask. cbn [rows with_rows].
    destruct (0 <? _)%nat eqn:Hc.
    - unfold del_selected, select, with_rows. simpl.
      rewrite select_rows_negb_fmap, select_rows_fmap. done.
    - pose proof (proj1 (count_mask_zero _ _ _) Hc) as Hall. simpl in Hall.
      assert (filter (λ r, is_hkl_zero r = false) idx = idx) as Hk.
      { transitivity (filter (λ r, negb (is_hkl_zero r) = true) idx).
        - apply list_filter_iff. intros r. by destruct (is_hkl_zero r).
        - apply filter_all. intros r Hr. by rewrite (Hall r Hr). }
      subst kept junk. by rewrite Hk, (filter_none _ _ Hall), app_nil_r. }
  unfold column_mask. cbn [rows with_rows]. rewrite count_mask_filter. fold bad.
  destruct (decide (bad = [])) as [->|Hbad]; [done|].
  destruct bad; [done|]. done.
Qed.

End ReferenceFacts.

Section IntegrationFacts.
Context `{C : Collaborators}.

Lemma guarded_raise {A} (stage : M A) (label tag : string) (w w' : world) (e : exn) :
  stage w = (Raise e, w') →
  guarded stage label tag w
  = (Ok None, add_events w' [Print (diagnostic label tag e)]).
Proof. intros H. unfold guarded. unfold_monad. by rewrite H. Qed.

Lemma guarded_ok {A} (stage : M A) (label tag : string) (w w' : world) (a : A) :
  stage w = (Ok a, w') →
  guarded stage label tag w = (Ok (Some a), w').
Proof. intros H. unfold guarded. unfold_monad. by rewrite H. Qed.

Lemma integrate_reference_raises (self : processor) (experiments : list experiment)
    (t : reflection_table) (w w' : world) (e : exn) :
  process_reference self (Some t) w = (Raise e, w') →
  integrate self experiments t w = (Raise e, w').
Proof.
  intros H. unfold integrate, integrate_reflections. unfold_monad. by rewrite H.
Qed.

Lemma invalid_input_no_indexed (expected got : nat) :
  Py.contains "Invalid input" (msg_no_indexed expected got) = true.
Proof. reflexivity. Qed.

Lemma invalid_input_invalid_id (n : nat) :
  Py.contains "Invalid input" (msg_invalid_id n) = true.
Proof. reflexivity. Qed.

(** C6, as amended.  [process_reference] asserts that the table has the
    columns [miller_index] and [id].  It removes the observations that
    are not flagged indexed and, among the indexed ones, those with
    miller index (0,0,0), whatever their experiment id.  When an indexed
    observation exists and one of the observations that remain has a
    negative experiment id, it raises [Sorry] with the text "Invalid
    input for reference reflections" and the number of such
    observations, and so does [integrate]; when none has, it returns the
    remaining observations and the removed ones. *)
Theorem reference_hygiene (self : processor) (t : reflection_table) (w : world) :
  let idx := filter (λ r, indexed (flags r) = true) (rows t) in
  let kept := filter (λ r, is_hkl_zero r = false) idx in
  let junk := filter (λ r, indexed (flags r) = false) (rows t)
              ++ filter (λ r, is_hkl_zero r = true) idx in
  let bad := filter (λ r, (experiment_id r <? 0) = true) kept in
  (has_miller_index (cols t) = false ∨ has_id (cols t) = false →
     process_reference self (Some t) w = (Raise AssertionError, w))
  ∧ (has_miller_index (cols t) = true → has_id (cols t) = true → idx ≠ [] →
       ((∃ r, r ∈ kept ∧ experiment_id r < 0) →
          process_reference self (Some t) w
            = (Raise (Sorry (msg_invalid_id (length bad))), w)
          ∧ (∀ experiments,
               integrate self experiments t w
               = (Raise (Sorry (msg_invalid_id (length bad))), w))
          ∧ Py.contains "Invalid input" (msg_invalid_id (length bad)) = true)
       ∧ ((∀ r, r ∈ kept → 0 ≤ experiment_id r) →
            process_reference self (Some t) w
            = (Ok (Some (with_rows t kept), Some (with_rows t junk)), w))).
Proof.
  intros idx kept junk bad. split.
  - unfold process_reference. intros [->| ->]; [done|].
    by destruct (has_miller_index (cols t)).
  - intros Hmi Hid Hidx.
    pose proof (process_reference_spec self t w Hmi Hid) as Hspec.
    cbv zeta in Hspec. fold idx kept junk bad in Hspec.
    rewrite decide_False in Hspec by done.
    split.
    + intros (r & Hr & Hneg).
      assert (bad ≠ []) as Hbad.
      { intros Hnil. assert (r ∈ bad) as Hin.
        { apply list_elem_of_filter. split; [|done]. by apply Z.ltb_lt. }
        rewrite Hnil in Hin. by apply elem_of_nil in Hin. }
      rewrite decide_False in Hspec by done.
      split; [done|]. split; [|apply invalid_input_invalid_id].
      intros experiments. by apply integrate_reference_raises.
    + intros Hall.
      assert (bad = []) as Hbad.
      { apply filter_none. intros r Hr. apply Z.ltb_ge. by apply Hall. }
      by rewrite decide_True in Hspec.
Qed.

(** C10.  When no observation of the reference is flagged indexed, so
    that nothing is left once the unindexed ones are removed,
    [process_reference] raises [Sorry] with the text "Invalid input for
    reference reflections"; [integrate] raises it too, before any
    collaborator is called, and the unit ends with the diagnostic of the
    integration stage. *)
Theorem no_indexed_reflections_is_fatal (self : processor)
    (experiments : list experiment) (t : reflection_table) (tag : string) (w : world) :
  has_miller_index (cols t) = true → has_id (cols t) = true →
  filter (λ r, indexed (flags r) = true) (rows t) = [] →
  process_reference self (Some t) w = (Raise (Sorry (msg_no_indexed 0 0)), w)
  ∧ integrate self experiments t w = (Raise (Sorry (msg_no_indexed 0 0)), w)
  ∧ guarded (integrate self experiments t) "Error integrating" tag w
    = (Ok None,
       add_events w [Print (diagnostic "Error integrating" tag
                              (Sorry (msg_no_indexed 0 0)))])
  ∧ Py.contains "Invalid input" (msg_no_indexed 0 0) = true.
Proof.
  intros Hmi Hid Hidx.
  pose proof (process_reference_spec self t w Hmi Hid) as Hspec.
  cbv zeta in Hspec. rewrite Hidx in Hspec. rewrite decide_True in Hspec by done.
  split; [done|].
  pose proof (integrate_reference_raises self experiments t w w _ Hspec) as Hint.
  split; [done|]. split; [by apply guarded_raise|reflexivity].
Qed.

End IntegrationFacts.

Lemma reference_hygiene_witness :
  process_reference (C := Demo.collaborators)
    {| params := Demo.run_params; tag := Some "a" |}
    (Some (Demo.table [Demo.measured (1, 2, 3) (-1) true 4%Q 4%Q 1%Q]))
    (Demo.world_with default_output)
  = (Raise (Sorry (msg_invalid_id 1)), Demo.world_with default_output).
Proof.
  apply (proj2 (reference_hygiene (C := Demo.collaborators)
                  {| params := Demo.run_params; tag := Some "a" |}
                  (Demo.table [Demo.measured (1, 2, 3) (-1) true 4%Q 4%Q 1%Q])
                  (Demo.world_with default_output))).
  - reflexivity.
  - reflexivity.
  - discriminate.
  - exists (Demo.measured (1, 2, 3) (-1) true 4%Q 4%Q 1%Q). split; [left|reflexivity].
Defined.

(** C6 as stated fails: observations with a negative experiment id that
    are unindexed, or indexed with miller index (0,0,0), are removed
    before the experiment ids are looked at, and the unit goes on. *)
Lemma negative_id_can_pass :
  (∃ r, r ∈ rows Demo.indexed_spots ∧ indexed (flags r) = true ∧ experiment_id r < 0)
  ∧ (∃ r, r ∈ rows Demo.indexed_spots ∧ indexed (flags r) = false ∧ experiment_id r < 0)
  ∧ process_reference (C := Demo.collaborators)
      {| params := Demo.run_params; tag := Some "a" |}
      (Some Demo.indexed_spots) (Demo.world_with default_output)
    = (Ok (Some (Demo.table [Demo.measured (1, 2, 3) 0 true 4%Q 4%Q 1%Q]),
           Some (Demo.table [Demo.measured (3, 1, 1) (-1) false 4%Q 4%Q 1%Q;
                             Demo.measured (0, 0, 0) (-1) true 4%Q 4%Q 1%Q])),
       Demo.world_with default_output).
Proof.
  split; [|split].
  - exists (Demo.measured (0, 0, 0) (-1) true 4%Q 4%Q 1%Q).
    split; [right; left|done].
  - exists (Demo.measured (3, 1, 1) (-1) false 4%Q 4%Q 1%Q).
    split; [right; right; left|done].
  - reflexivity.
Qed.

Lemma no_indexed_reflections_is_fatal_witness :
  integrate (C := Demo.collaborators)
    {| params := Demo.run_params; tag := Some "a" |} [0%nat]
    (Demo.table [Demo.measured (3, 1, 1) 0 false 4%Q 4%Q 1%Q])
    (Demo.world_with default_output)
  = (Raise (Sorry (msg_no_indexed 0 0)), Demo.world_with default_output).
Proof.
  apply (no_indexed_reflections_is_fatal (C := Demo.collaborators)
           {| params := Demo.run_params; tag := Some "a" |} [0%nat]
           (Demo.table [Demo.measured (3, 1, 1) 0 false 4%Q 4%Q 1%Q]) "a"
           (Demo.world_with default_output)).
  - reflexivity.
  - reflexivity.
  - reflexivity.
Defined.

Section VarianceFacts.
Context `{C : Collaborators}.

Lemma Qle_bool_false (x y : Q) : Qle_bool x y = false ↔ (y < x)%Q.
Proof.
  rewrite <- not_true_iff_false, Qle_bool_iff. split.
  - apply Qnot_le_lt.
  - apply Qlt_not_le.
Qed.



Lemma verify_prf_ok (t : reflection_table) (w : world) :
  (has_prf (cols t) = true → ∀ r, r ∈ rows t → (0 < intensity_prf_variance r)%Q) →
  verify_prf t w = (Ok tt, w).
Proof.
  intros Hall. unfold verify_prf, column_mask.
  destruct (has_prf (cols t)); [|done].
  rewrite (proj2 (count_mask_zero _ true (rows t))); [done|].
  intros r Hr. apply Qle_bool_false. by apply Hall.
Qed.



Lemma verify_sum_ok (self : processor) (t : reflection_table) (w : world)
    (cfg : config algo) :
  read_config w (params self) = Some cfg →
  (has_sum (cols t) = true → ∀ r, r ∈ rows t → (0 < intensity_sum_variance r)%Q) →
  verify_sum self t w
  = (Ok (if has_sum (cols t)
         then with_rows t ((λ r, set_sum_variance r
                                   (intensity_sum_variance r * cfg_detector_gain cfg)%Q)
                             <$> rows t)
         else t), w).
Proof.
  intros Hcfg Hall. unfold verify_sum, column_mask.
  destruct (has_sum (cols t)); [|done].
  rewrite (proj2 (count_mask_zero _ true (rows t))).
  - unfold_monad. by rewrite Hcfg.
  - intros r Hr. apply Qle_bool_false. by apply Hall.
Qed.


Lemma verify_bkg_ok (self : processor) (t : reflection_table) (w : world)
    (cfg : config algo) :
  read_config w (params self) = Some cfg →
  has_bkg (cols t) = true →
  (∀ r, r ∈ rows t → (0 <= background_sum_variance r)%Q) →
  let zero := filter (λ r, Qeq_bool (background_sum_variance r) 0%Q = true) (rows t) in
  let positive :=
    filter (λ r, negb (Qle_bool (background_sum_variance r) 0%Q) = true) (rows t) in
  verify_bkg self t w
  = (Ok (with_rows t
           ((λ r, set_bkg_variance r
                    (background_sum_variance r * cfg_detector_gain cfg)%Q)
              <$> positive)),
     add_events w
       (if decide (zero = []) then []
        else [Print ("Filtering " +:+ pretty (length zero)
                     +:+ " reflections with zero background variance")])).
Proof.
  intros Hcfg Hbkg Hall zero positive. unfold verify_bkg, column_mask.
  rewrite Hbkg.
  rewrite (proj2 (count_mask_zero _ true (rows t)));
    [|intros r Hr; apply negb_false_iff, Qle_bool_iff; by apply Hall].
  rewrite count_mask_filter. fold zero.
  destruct (decide (zero = [])) as [Hz|Hz].
  - rewrite Hz. simpl. unfold_monad. rewrite Hcfg, add_events_nil.
    assert (positive = rows t) as ->; [|done].
    apply filter_all. intros r Hr. apply negb_true_iff.
    destruct (Qle_bool (background_sum_variance r) 0) eqn:Hle; [exfalso|done].
    apply Qle_bool_iff in Hle.
    assert (r ∈ zero) as Hin.
    { apply list_elem_of_filter. split; [|done]. apply Qeq_bool_iff.
      apply Qle_antisym; [done|by apply Hall]. }
    rewrite Hz in Hin. by apply elem_of_nil in Hin.
  - assert ((0 <? length zero)%nat = true) as ->
      by (apply Nat.ltb_lt; destruct zero; [done|simpl; lia]).
    unfold_monad. rewrite read_config_add_events, Hcfg.
    unfold select. cbn [rows with_rows cols]. by rewrite select_rows_fmap.
Qed.

Lemma scaled_sum_cols (t : reflection_table) (gain : Q) :
  cols (if has_sum (cols t)
        then with_rows t ((λ r, set_sum_variance r (intensity_sum_variance r * gain)%Q)
                            <$> rows t)
        else t)
  = cols t.
Proof. by destruct (has_sum (cols t)). Qed.

Lemma scaled_sum_bkg (t : reflection_table) (gain : Q) (P : Q → Prop) :
  (∃ r, r ∈ rows t ∧ P (background_sum_variance r))
  ↔ (∃ r, r ∈ rows (if has_sum (cols t)
                     then with_rows t ((λ r, set_sum_variance r
                                               (intensity_sum_variance r * gain)%Q)
                                         <$> rows t)
                     else t)
          ∧ P (background_sum_variance r)).
Proof.
  destruct (has_sum (cols t)); [|done]. cbn [rows with_rows]. split.
  - intros (r & Hr & HP). eexists. split; [by apply list_elem_of_fmap_2|done].
  - intros (r1 & Hr1 & HP). apply list_elem_of_fmap in Hr1 as (r & -> & Hr). eauto.
Qed.



End VarianceFacts.


Section IsolationFacts.
Context `{C : Collaborators}.

Lemma run_stages_cases (self : processor) (tag : string) (db : datablock) (w : world) :
  match find_spots self db w with
  | (Raise e, w1) =>
      run_stages self tag db w
      = (Ok tt, add_events w1 [Print (diagnostic "Error spotfinding" tag e)])
  | (Ok observed, w1) =>
      match index self db observed w1 with
      | (Raise e, w2) =>
          run_stages self tag db w
          = (Ok tt, add_events w2 [Print (diagnostic "Couldn't index" tag e)])
      | (Ok (experiments, indexed), w2) =>
          match refine self experiments indexed w2 with
          | (Raise e, w3) =>
              run_stages self tag db w
              = (Ok tt, add_events w3 [Print (diagnostic "Error refining" tag e)])
          | (Ok experiments', w3) =>
              match integrate self experiments' indexed w3 with
              | (Raise e, w4) =>
                  run_stages self tag db w
                  = (Ok tt,
                     add_events w4 [Print (diagnostic "Error integrating" tag e)])
              | (Ok _, w4) => run_stages self tag db w = (Ok tt, w4)
              end
          end
      end
  end.
Proof.
  unfold run_stages, guarded. unfold_monad.
  destruct (find_spots self db w) as [[observed|e] w1]; [|done].
  destruct (index self db observed w1) as [[[experiments indexed]|e] w2]; [|done].
  destruct (refine self experiments indexed w2) as [[experiments'|e] w3]; [|done].
  by destruct (integrate self experiments' indexed w3) as [[integrated|e] w4].
Qed.

Lemma run_stages_returns (self : processor) (tag : string) (db : datablock) (w : world) :
  (run_stages self tag db w).1 = Ok tt.
Proof.
  pose proof (run_stages_cases self tag db w) as H.
  destruct (find_spots self db w) as [[observed|e] w1]; [|by rewrite H].
  destruct (index self db observed w1) as [[[experiments indexed]|e] w2]; [|by rewrite H].
  destruct (refine self experiments indexed w2) as [[experiments'|e] w3]; [|by rewrite H].
  destruct (integrate self experiments' indexed w3) as [[integrated|e] w4]; by rewrite H.
Qed.

(** C2.  Each stage has its own handler.  Whatever a stage raises is
    caught there: the unit ends in the world the failing stage left,
    with exactly one more printed line, which reads: the label of the
    stage (["Error spotfinding"], ["Couldn't index"], ["Error refining"]
    or ["Error integrating"]), a blank, the tag of the unit, a blank,
    and the text of the error; no later stage has run.  The stages as a
    whole return normally in every case.  Hence [process_datablock]
    returns normally once the output paths are set and the datablock is
    dumped, and a loop over the units, that of a rank or a plain
    sequential one, goes on with the remaining items after a unit that
    returned. *)
Theorem stage_failure_is_isolated (self : processor) (tag : string) (db : datablock) :
  let text (e : exn) : string :=
    match e with
    | Sorry msg | Abort msg | TypeError msg | AttributeError msg
    | ColumnError msg | CollaboratorError msg => msg
    | AssertionError => EmptyString
    end in
  let line (stage : string) (e : exn) : string :=
    stage +:+ " " +:+ tag +:+ " " +:+ text e in
  (∀ w,
     match find_spots self db w with
     | (Raise e, w1) =>
         run_stages self tag db w
         = (Ok tt, add_events w1 [Print (line "Error spotfinding" e)])
     | (Ok observed, w1) =>
         match index self db observed w1 with
         | (Raise e, w2) =>
             run_stages self tag db w
             = (Ok tt, add_events w2 [Print (line "Couldn't index" e)])
         | (Ok (experiments, indexed), w2) =>
             match refine self experiments indexed w2 with
             | (Raise e, w3) =>
                 run_stages self tag db w
                 = (Ok tt, add_events w3 [Print (line "Error refining" e)])
             | (Ok experiments', w3) =>
                 match integrate self experiments' indexed w3 with
                 | (Raise e, w4) =>
                     run_stages self tag db w
                     = (Ok tt, add_events w4 [Print (line "Error integrating" e)])
                 | (Ok _, w4) => run_stages self tag db w = (Ok tt, w4)
                 end
             end
         end
     end)
  ∧ (∀ w0 w1 w,
       set_output_paths self tag w0 = (Ok tt, w1) →
       dump_datablock {| params := params self; tag := Some tag |} db w1 = (Ok tt, w) →
       process_datablock self tag db w0
         = run_stages {| params := params self; tag := Some tag |} tag db w
       ∧ (process_datablock self tag db w0).1 = Ok tt)
  ∧ (∀ (A : Type) (do_work : A → M unit) rank size i item rest w w',
       Mpi.selected rank size i = true →
       do_work item w = (Ok tt, w') →
       mpi_loop_from do_work rank size i (item :: rest) w
       = mpi_loop_from do_work rank size (i + 1) rest w')
  ∧ (∀ (A : Type) (do_work : A → M unit) item rest w w',
       do_work item w = (Ok tt, w') →
       for_each do_work (item :: rest) w = for_each do_work rest w').
Proof.
  intros text line. split; [|split; [|split]].
  - intros w. exact (run_stages_cases self tag db w).
  - intros w0 w1 w Hpaths Hdump.
    assert (process_datablock self tag db w0
            = run_stages {| params := params self; tag := Some tag |} tag db w) as Heq.
    { unfold process_datablock. unfold mbind, M_bind, bind.
      by rewrite Hpaths, Hdump. }
    split; [done|]. rewrite Heq. apply run_stages_returns.
  - intros A do_work rank size i item rest w w' Hsel Hwork.
    simpl. unfold mbind, M_bind, bind. by rewrite Hsel, Hwork.
  - intros A do_work item rest w w' Hwork.
    simpl. unfold bind. by rewrite Hwork.
Qed.

End IsolationFacts.

Lemma stage_failure_is_isolated_witness :
  mpi_loop_from (C := Demo.collaborators) (do_work_pre_import Demo.run_params)
    0 1 0 [("a", "powder"); ("b", "img")] (Demo.world_with default_output)
  = mpi_loop_from (C := Demo.collaborators) (do_work_pre_import Demo.run_params)
      0 1 (0 + 1) [("b", "img")]
      (do_work_pre_import (C := Demo.collaborators) Demo.run_params ("a", "powder")
         (Demo.world_with default_output)).2
  ∧ printed_lines
      (do_work_pre_import (C := Demo.collaborators) Demo.run_params ("a", "powder")
         (Demo.world_with default_output)).2
    = ["Couldn't index a No suitable lattice could be found"].
Proof.
  split; [|reflexivity].
  apply (proj1 (proj2 (proj2 (stage_failure_is_isolated (C := Demo.collaborators)
           {| params := Demo.run_params; tag := None |} "a" "powder")))).
  - reflexivity.
  - vm_compute. reflexivity.
Defined.

Section PathFacts.
Context `{C : Collaborators}.

Lemma set_output_spec (w : world) (p : loc) (o : output_scope)
    (f : output_scope → output_scope) :
  read_output w p = Some o →
  ∃ w', set_output p f w = (Ok tt, w')
        ∧ read_output w' p = Some (f o) ∧ trace w' = trace w.
Proof.
  unfold read_output, set_output. intros Ho.
  destruct (roots w !! p) as [r|] eqn:Hr; simplify_eq/=. rewrite Ho.
  eexists. split; [done|]. split; [|done].
  unfold read_output. simpl. rewrite Hr. simpl. apply lookup_insert_eq.
Qed.

Lemma resolve_world (p : loc) (template s : string) (w : world) :
  ∃ r, resolve p template s w = (r, w).
Proof.
  unfold resolve, path_join. unfold_monad.
  destruct (read_output w p) as [o|]; [|by eexists].
  destruct (format_s template _) as [name|]; [|by eexists].
  destruct (OsPath.join (output_dir o) name); by eexists.
Qed.

(** A statement that sets one output path leaves the other output
    parameters and the trace as they are, even when it raises. *)
Lemma set_path_if_not_none_keeps (get other : output_scope → option string)
    (set : output_scope → option string → output_scope)
    (self : processor) (s : string) (w : world) (o : output_scope) :
  (∀ o v, other (set o v) = other o) →
  read_output w (params self) = Some o →
  ∃ r w' o', set_path_if_not_none get set self s w = (r, w')
             ∧ read_output w' (params self) = Some o'
             ∧ other o' = other o ∧ trace w' = trace w.
Proof.
  intros Hother Ho. unfold set_path_if_not_none. unfold_monad. rewrite Ho.
  destruct (get o) as [template|]; [|by eexists _, _, _].
  destruct (Py.contains "%s" template); [|by eexists _, _, _].
  destruct (resolve_world (params self) template s w) as [[path|e] ->];
    [|by eexists _, _, _].
  destruct (set_output_spec w (params self) o (λ o, set o (Some path)) Ho)
    as (w' & -> & Ho' & Htrace).
  eexists _, _, _. split; [done|]. split; [done|]. by rewrite Hother.
Qed.

Lemma set_path_keeps (get other : output_scope → option string)
    (set : output_scope → option string → output_scope)
    (self : processor) (s : string) (w : world) (o : output_scope) :
  (∀ o v, other (set o v) = other o) →
  read_output w (params self) = Some o →
  ∃ r w' o', set_path get set self s w = (r, w')
             ∧ read_output w' (params self) = Some o'
             ∧ other o' = other o ∧ trace w' = trace w.
Proof.
  intros Hother Ho. unfold set_path. unfold_monad. rewrite Ho.
  destruct (get o) as [template|]; [|by eexists _, _, _].
  destruct (Py.contains "%s" template); [|by eexists _, _, _].
  destruct (resolve_world (params self) template s w) as [[path|e] ->];
    [|by eexists _, _, _].
  destruct (set_output_spec w (params self) o (λ o, set o (Some path)) Ho)
    as (w' & -> & Ho' & Htrace).
  eexists _, _, _. split; [done|]. split; [done|]. by rewrite Hother.
Qed.

Lemma set_path_none (get : output_scope → option string)
    (set : output_scope → option string → output_scope)
    (self : processor) (s : string) (w : world) (o : output_scope) :
  read_output w (params self) = Some o → get o = None →
  set_path get set self s w = (Raise not_iterable, w).
Proof. intros Ho Hget. unfold set_path. unfold_monad. by rewrite Ho, Hget. Qed.

(** C9 fails on the code.  With [refined_experiments_filename] or
    [integrated_filename] set to [None], [process_datablock] raises
    while it sets the output paths: no stage runs, nothing is printed
    and nothing is written. *)
Theorem none_template_raises (self : processor) (tag : string) (db : datablock)
    (w : world) (o : output_scope) :
  read_output w (params self) = Some o →
  refined_experiments_filename o = None ∨ integrated_filename o = None →
  ∃ e w', process_datablock self tag db w = (Raise e, w') ∧ trace w' = trace w.
Proof.
  intros Ho Hnone.
  assert (∃ e w', set_output_paths self tag w = (Raise e, w') ∧ trace w' = trace w)
    as (e & w' & Hpaths & Htrace).
  { unfold set_output_paths. unfold mbind, M_bind, bind.
    destruct Hnone as [Hnone|Hnone].
    - destruct (set_path_if_not_none_keeps datablock_filename
                  refined_experiments_filename set_datablock_filename self tag w o
                  ltac:(done) Ho) as ([[]|e1] & w1 & o1 & -> & Ho1 & Hf1 & Ht1);
        [|by eexists _, _].
      destruct (set_path_if_not_none_keeps strong_filename
                  refined_experiments_filename set_strong_filename self tag w1 o1
                  ltac:(done) Ho1) as ([[]|e2] & w2 & o2 & -> & Ho2 & Hf2 & Ht2);
        [|eexists _, _; split; [done|congruence]].
      destruct (set_path_if_not_none_keeps indexed_filename
                  refined_experiments_filename set_indexed_filename self tag w2 o2
                  ltac:(done) Ho2) as ([[]|e3] & w3 & o3 & -> & Ho3 & Hf3 & Ht3);
        [|eexists _, _; split; [done|congruence]].
      rewrite (set_path_none _ _ self tag w3 o3 Ho3) by congruence.
      eexists _, _. split; [done|congruence].
    - destruct (set_path_if_not_none_keeps datablock_filename
                  integrated_filename set_datablock_filename self tag w o
                  ltac:(done) Ho) as ([[]|e1] & w1 & o1 & -> & Ho1 & Hf1 & Ht1);
        [|by eexists _, _].
      destruct (set_path_if_not_none_keeps strong_filename
                  integrated_filename set_strong_filename self tag w1 o1
                  ltac:(done) Ho1) as ([[]|e2] & w2 & o2 & -> & Ho2 & Hf2 & Ht2);
        [|eexists _, _; split; [done|congruence]].
      destruct (set_path_if_not_none_keeps indexed_filename
                  integrated_filename set_indexed_filename self tag w2 o2
                  ltac:(done) Ho2) as ([[]|e3] & w3 & o3 & -> & Ho3 & Hf3 & Ht3);
        [|eexists _, _; split; [done|congruence]].
      destruct (set_path_keeps refined_experiments_filename
                  integrated_filename set_refined_experiments_filename self tag w3 o3
                  ltac:(done) Ho3) as ([[]|e4] & w4 & o4 & -> & Ho4 & Hf4 & Ht4);
        [|eexists _, _; split; [done|congruence]].
      rewrite (set_path_none _ _ self tag w4 o4 Ho4) by congruence.
      eexists _, _. split; [done|congruence]. }
  exists e, w'. split; [|done].
  unfold process_datablock. unfold mbind, M_bind, bind. by rewrite Hpaths.
Qed.

End PathFacts.

Lemma none_template_raises_witness :
  ∃ e w',
    process_datablock (C := Demo.collaborators)
      {| params := Demo.run_params; tag := None |} "a" "img"
      (Demo.world_with (set_refined_experiments_filename default_output None))
    = (Raise e, w')
    ∧ trace w' = trace (Demo.world_with (set_refined_experiments_filename default_output None)).
Proof.
  apply (none_template_raises (C := Demo.collaborators)
           {| params := Demo.run_params; tag := None |} "a" "img"
           (Demo.world_with (set_refined_experiments_filename default_output None))
           (set_refined_experiments_filename default_output None)).
  - reflexivity.
  - left. reflexivity.
Defined.

(** The failing run of C9 spelled out: with the defaults of the phil
    scope and [refined_experiments_filename=None], the unit ends with
    Python's [TypeError] and an empty trace, although the datablock and
    the stages were ready to run. *)
Lemma none_refined_template_demo :
  let r := process_datablock (C := Demo.collaborators)
             {| params := Demo.run_params; tag := None |} "a" "img"
             (Demo.world_with (set_refined_experiments_filename default_output None)) in
  r.1 = Raise (TypeError "argument of type 'NoneType' is not iterable")
  ∧ trace r.2 = [].
Proof. split; reflexivity. Qed.

(** * Ownership of the configuration *)

Section OwnershipFacts.
Context `{C : Collaborators}.
Implicit Types (n : loc) (w : world).

Lemma preserves_ret n (w0 : world) {A} (a : A) : preserves n w0 (ret a).
Proof. by intros w Hw. Qed.

Lemma preserves_raise n (w0 : world) {A} (e : exn) : preserves n w0 (raise (A := A) e).
Proof. by intros w Hw. Qed.

Lemma preserves_lift n (w0 : world) {A} (r : result A) : preserves n w0 (lift r).
Proof. by intros w Hw. Qed.

Lemma preserves_bind n (w0 : world) {A B} (m : M A) (k : A → M B) :
  preserves n w0 m → (∀ a, preserves n w0 (k a)) → preserves n w0 (m ≫= k).
Proof.
  intros Hm Hk w Hw. unfold mbind, M_bind, bind.
  specialize (Hm w Hw). destruct (m w) as [[a|e] w']; [|done].
  by apply Hk.
Qed.

Lemma preserves_try_except n (w0 : world) {A} (m : M A) (h : exn → M A) :
  preserves n w0 m → (∀ e, preserves n w0 (h e)) → preserves n w0 (try_except m h).
Proof.
  intros Hm Hh w Hw. unfold try_except.
  specialize (Hm w Hw). destruct (m w) as [[a|e] w']; [done|].
  by apply Hh.
Qed.

Lemma preserves_emit n (w0 : world) (e : event) : preserves n w0 (emit e).
Proof. by intros w Hw. Qed.

Lemma preserves_print n (w0 : world) (line : string) : preserves n w0 (print line).
Proof. apply preserves_emit. Qed.

Lemma preserves_get_output n (w0 : world) (p : loc) : preserves n w0 (get_output p).
Proof. intros w Hw. unfold get_output. by destruct (read_output w p). Qed.

Lemma preserves_get_config n (w0 : world) (p : loc) : preserves n w0 (get_config p).
Proof. intros w Hw. unfold get_config. by destruct (read_config w p). Qed.

Lemma preserves_for_each n (w0 : world) {A} (f : A → M unit) (l : list A) :
  (∀ x, preserves n w0 (f x)) → preserves n w0 (for_each f l).
Proof.
  intros Hf. induction l as [|x l IH]; [apply preserves_ret|].
  simpl. apply (preserves_bind n w0 (f x) (λ _, for_each f l)); [apply Hf|done].
Qed.

(** Assignments go to the scopes of the object they are made through;
    for an object at or above the mark these lie at or above it. *)
Lemma preserves_set_output n (w0 : world) (p : loc) (f : output_scope → output_scope) :
  (n ≤ p)%nat → preserves n w0 (set_output p f).
Proof.
  intros Hp w (Hnext & Hbelow & Habove & Hfree). unfold set_output.
  destruct (roots w !! p) as [r|] eqn:Hr; [|done].
  destruct (outputs w !! p_output r) as [o|]; [|done].
  destruct (Habove p r Hp Hr) as (Ho & _ & _).
  split; [done|]. split; [|done]. simpl. intros l Hl.
  rewrite lookup_insert_ne by lia. by apply Hbelow.
Qed.

Lemma preserves_set_scan_varying n (w0 : world) (p : loc) (v : bool) :
  (n ≤ p)%nat → preserves n w0 (set_scan_varying p v).
Proof.
  intros Hp w (Hnext & Hbelow & Habove & Hfree). unfold set_scan_varying.
  destruct (roots w !! p) as [r|] eqn:Hr; [|done].
  destruct (refinements w !! p_refinement r) as [o|]; [|done].
  destruct (Habove p r Hp Hr) as (_ & Ho & _).
  split; [done|]. split; [|done]. simpl. intros l Hl.
  rewrite lookup_insert_ne by lia. by apply Hbelow.
Qed.

(** A deep copy is made of new objects, at or above any mark that the
    allocation pointer has passed. *)
Lemma deepcopy_private n (w0 : world) (p : loc) (w : world) :
  private_above n w0 w →
  private_above n w0 (deepcopy p w).2
  ∧ ∀ p', (deepcopy p w).1 = Ok p' → (n ≤ p')%nat.
Proof.
  intros (Hnext & Hbelow & Habove & Hfree). unfold deepcopy.
  destruct (roots w !! p) as [r|] eqn:Hr; [|done].
  destruct (read_config w p) as [c|]; [|done]. unfold private_above. simpl. split.
  - split; [lia|]. split; [|split].
    + intros l Hl. rewrite !lookup_insert_ne by lia. by apply Hbelow.
    + intros l r' Hl Hr'.
      destruct (decide (l = (next w + 3)%nat)) as [->|Hne].
      * rewrite lookup_insert_eq in Hr'. injection Hr' as <-. simpl. lia.
      * rewrite lookup_insert_ne in Hr' by done. by eapply Habove.
    + intros l Hl. rewrite lookup_insert_ne by lia. apply Hfree. lia.
  - intros p' [= <-]. lia.
Qed.

Lemma preserves_deepcopy_bind n (w0 : world) {B} (p : loc) (k : loc → M B) :
  (∀ p', (n ≤ p')%nat → preserves n w0 (k p')) →
  preserves n w0 (deepcopy p ≫= k).
Proof.
  intros Hk w Hw. unfold mbind, M_bind, bind.
  destruct (deepcopy_private n w0 p w Hw) as [Hw' Hp'].
  destruct (deepcopy p w) as [[p'|e] w']; [|done].
  apply Hk; [by apply Hp'|done].
Qed.

End OwnershipFacts.

(** Walks through a computation of the program, one operation at a time. *)
Ltac preserves_step :=
  lazymatch goal with
  | |- preserves _ _ (ret _) => apply preserves_ret
  | |- preserves _ _ (raise _) => apply preserves_raise
  | |- preserves _ _ (lift _) => apply preserves_lift
  | |- preserves _ _ (print _) => apply preserves_print
  | |- preserves _ _ (emit _) => apply preserves_emit
  | |- preserves _ _ (save_reflections _ _) => apply preserves_emit
  | |- preserves _ _ (get_output _) => apply preserves_get_output
  | |- preserves _ _ (get_config _) => apply preserves_get_config
  | |- preserves _ _ (set_output _ _) => apply preserves_set_output; assumption
  | |- preserves _ _ (set_scan_varying _ _) =>
      apply preserves_set_scan_varying; assumption
  | |- preserves _ _ (deepcopy _ ≫= _) => apply preserves_deepcopy_bind; intros
  | |- preserves _ _ (_ ≫= _) => apply preserves_bind; [|intros]
  | |- preserves _ _ (try_except _ _) => apply preserves_try_except; [|intros]
  | |- preserves _ _ (for_each _ _) => apply preserves_for_each; intros
  | |- preserves _ _ (match ?x with _ => _ end) => destruct x
  end.

Ltac preserves_auto := repeat preserves_step.

Section UnitOwnership.
Context `{C : Collaborators}.

Lemma preserves_path_join n (w0 : world) (a : option string) (b : string) :
  preserves n w0 (path_join a b).
Proof. unfold path_join. preserves_auto. Qed.

Lemma preserves_resolve n (w0 : world) (p : loc) (template s : string) :
  preserves n w0 (resolve p template s).
Proof. unfold resolve. preserves_auto. apply preserves_path_join. Qed.

Lemma preserves_get_detector_gain n (w0 : world) (p : loc) :
  preserves n w0 (get_detector_gain p).
Proof. unfold get_detector_gain. preserves_auto. Qed.

Lemma preserves_find_spots n (w0 : world) (self : processor) (db : datablock) :
  preserves n w0 (find_spots self db).
Proof. unfold find_spots. preserves_auto. Qed.

Lemma preserves_index n (w0 : world) (self : processor) (db : datablock)
    (reflections : reflection_table) :
  preserves n w0 (index self db reflections).
Proof. unfold index. preserves_auto. Qed.

Lemma preserves_refine n (w0 : world) (self : processor)
    (experiments : list experiment) (centroids : reflection_table) :
  preserves n w0 (refine self experiments centroids).
Proof. unfold refine. preserves_auto. Qed.

Lemma preserves_process_reference n (w0 : world) (self : processor)
    (reference : option reflection_table) :
  preserves n w0 (process_reference self reference).
Proof. unfold process_reference. preserves_auto. Qed.

Lemma preserves_verify_sigmas n (w0 : world) (self : processor)
    (integrated : reflection_table) :
  preserves n w0 (verify_sigmas self integrated).
Proof.
  unfold verify_sigmas, verify_prf, verify_sum, verify_bkg.
  preserves_auto; apply preserves_get_detector_gain.
Qed.

Lemma preserves_write_integration_pickles n (w0 : world) (self : processor)
    (integrated : reflection_table) (experiments : list experiment) :
  preserves n w0 (write_integration_pickles self integrated experiments).
Proof.
  unfold write_integration_pickles, write_one_pickle.
  preserves_auto; apply preserves_path_join.
Qed.

Lemma preserves_integrate n (w0 : world) (self : processor)
    (experiments : list experiment) (indexed : reflection_table) :
  preserves n w0 (integrate self experiments indexed).
Proof.
  unfold integrate, integrate_reflections, report_integrated.
  preserves_auto;
    first [apply preserves_process_reference | apply preserves_verify_sigmas
          | apply preserves_write_integration_pickles].
Qed.

Lemma preserves_guarded n (w0 : world) {A} (stage : M A) (label tag : string) :
  preserves n w0 stage → preserves n w0 (guarded stage label tag).
Proof. intros Hstage. unfold guarded. preserves_auto. done. Qed.

Lemma preserves_run_stages n (w0 : world) (self : processor) (tag : string)
    (db : datablock) :
  preserves n w0 (run_stages self tag db).
Proof.
  unfold run_stages.
  preserves_auto; apply preserves_guarded;
    first [apply preserves_find_spots | apply preserves_index
          | apply preserves_refine | apply preserves_integrate].
Qed.

Lemma preserves_set_output_paths n (w0 : world) (self : processor) (s : string) :
  (n ≤ params self)%nat → preserves n w0 (set_output_paths self s).
Proof.
  intros Hp. unfold set_output_paths, set_path_if_not_none, set_path.
  preserves_auto; apply preserves_resolve.
Qed.

(** A processor whose configuration lies at or above the mark changes
    nothing below it. *)
Lemma preserves_process_datablock n (w0 : world) (self : processor) (tag : string)
    (db : datablock) :
  (n ≤ params self)%nat → preserves n w0 (process_datablock self tag db).
Proof.
  intros Hp. unfold process_datablock, dump_datablock.
  preserves_auto;
    first [by apply preserves_set_output_paths | apply preserves_run_stages].
Qed.

Lemma preserves_do_work_pre_import n (w0 : world) (p0 : loc) (item : string * datablock) :
  preserves n w0 (do_work_pre_import p0 item).
Proof.
  unfold do_work_pre_import. preserves_auto. by apply preserves_process_datablock.
Qed.

Lemma preserves_do_work_deferred n (w0 : world) (p0 : loc) (item : string * string) :
  preserves n w0 (do_work_deferred p0 item).
Proof.
  unfold do_work_deferred, do_import. destruct item as [tag filename].
  preserves_auto. by apply preserves_process_datablock.
Qed.

End UnitOwnership.

Section RunOwnership.
Context `{C : Collaborators}.

Lemma private_above_refl (p0 : loc) (cfg : config algo) (w : world) :
  run_inv p0 cfg w → private_above (next w) w w.
Proof.
  intros (_ & _ & Hfree). split; [done|]. split; [done|]. split; [|done].
  intros l r Hl Hr. by rewrite Hfree in Hr.
Qed.

Lemma run_inv_private (p0 : loc) (cfg : config algo) (w w' : world) :
  run_inv p0 cfg w → private_above (next w) w w' → run_inv p0 cfg w'.
Proof.
  intros (Hcfg & (r & Hr & Hp & Ho & Hs & Hg) & _) (Hnext & Hbelow & _ & Hfree).
  split; [|split; [|done]].
  - rewrite <- Hcfg. unfold read_config.
    destruct (Hbelow p0 Hp) as (-> & _). rewrite Hr. simpl.
    destruct (Hbelow _ Ho) as (_ & -> & _).
    destruct (Hbelow _ Hs) as (_ & _ & -> & _).
    destruct (Hbelow _ Hg) as (_ & _ & _ & ->). done.
  - exists r. destruct (Hbelow p0 Hp) as (-> & _). split; [done|]. lia.
Qed.

Lemma run_inv_preserved (p0 : loc) (cfg : config algo) {A} (m : M A) (w : world) :
  preserves (next w) w m → run_inv p0 cfg w → run_inv p0 cfg (m w).2.
Proof.
  intros Hm Hinv. eapply run_inv_private; [done|].
  apply Hm. by eapply private_above_refl.
Qed.

(** [copy.deepcopy] of a parameter object that has the value [cfg]
    returns a new object with the value [cfg]. *)
Lemma deepcopy_spec (p : loc) (cfg : config algo) (w : world) :
  read_config w p = Some cfg →
  ∃ w1, deepcopy p w = (Ok (next w + 3)%nat, w1)
        ∧ read_config w1 (next w + 3)%nat = Some cfg
        ∧ roots w1 !! (next w + 3)%nat
          = Some {| p_output := next w; p_refinement := (next w + 1)%nat;
                    p_integration := (next w + 2)%nat; p_algo := cfg_algo cfg |}
        ∧ next w1 = (next w + 4)%nat
        ∧ trace w1 = trace w.
Proof.
  intros Hcfg. unfold deepcopy. rewrite Hcfg.
  unfold read_config in Hcfg.
  destruct (roots w !! p) as [r|]; [|done]. simpl in Hcfg.
  destruct (outputs w !! p_output r) as [o|]; [|done]. simpl in Hcfg.
  destruct (refinements w !! p_refinement r) as [sv|]; [|done]. simpl in Hcfg.
  destruct (integrations w !! p_integration r) as [g|]; [|done]. simpl in Hcfg.
  injection Hcfg as <-. eexists. split; [done|]. simpl.
  split; [|by rewrite lookup_insert_eq].
  unfold read_config. simpl. rewrite !lookup_insert_eq. simpl.
  by rewrite !lookup_insert_eq.
Qed.

Lemma run_inv_mpi_loop (p0 : loc) (cfg : config algo) {A} (do_work : A → M unit) :
  (∀ item w, run_inv p0 cfg w → run_inv p0 cfg (do_work item w).2) →
  ∀ items rank size i w,
    run_inv p0 cfg w → run_inv p0 cfg (mpi_loop_from do_work rank size i items w).2.
Proof.
  intros Hwork items rank size. induction items as [|item rest IH]; intros i w Hinv.
  - done.
  - simpl. unfold mbind, M_bind, bind. destruct (Mpi.selected rank size i).
    + specialize (Hwork item w Hinv).
      destruct (do_work item w) as [[[]|e] w']; [by apply IH|done].
    + by apply IH.
Qed.

Lemma run_inv_for_each (p0 : loc) (cfg : config algo) {A} (do_work : A → M unit) :
  (∀ item w, run_inv p0 cfg w → run_inv p0 cfg (do_work item w).2) →
  ∀ items w, run_inv p0 cfg w → run_inv p0 cfg (for_each do_work items w).2.
Proof.
  intros Hwork items. induction items as [|item rest IH]; intros w Hinv; [done|].
  simpl. unfold bind. specialize (Hwork item w Hinv).
  destruct (do_work item w) as [[[]|e] w']; [by apply IH|done].
Qed.

Lemma set_scan_varying_spec (p : loc) (v : bool) (cfg : config algo) (w : world) :
  read_config w p = Some cfg →
  ∃ w', set_scan_varying p v w = (Ok tt, w')
        ∧ read_config w' p
          = Some {| cfg_output := cfg_output cfg; cfg_scan_varying := v;
                    cfg_detector_gain := cfg_detector_gain cfg;
                    cfg_algo := cfg_algo cfg |}.
Proof.
  intros Hcfg. unfold set_scan_varying. unfold read_config in Hcfg.
  destruct (roots w !! p) as [r|] eqn:Hr; [|done]. simpl in Hcfg.
  destruct (outputs w !! p_output r) as [o|] eqn:Ho; [|done]. simpl in Hcfg.
  destruct (refinements w !! p_refinement r) as [sv|] eqn:Hs; [|done]. simpl in Hcfg.
  destruct (integrations w !! p_integration r) as [g|] eqn:Hg; [|done]. simpl in Hcfg.
  injection Hcfg as <-. eexists. split; [done|].
  unfold read_config. simpl. rewrite Hr. simpl. rewrite Ho. simpl.
  rewrite lookup_insert_eq. simpl. by rewrite Hg.
Qed.

(** The indexer is given a copy of the configuration in which
    [scan_varying] is switched off. *)
Lemma index_result (self : processor) (db : datablock) (reflections : reflection_table)
    (cfg : config algo) (w : world) :
  run_inv (params self) cfg w →
  (index self db reflections w).1
  = indexer_from_parameters reflections db
      {| cfg_output := cfg_output cfg; cfg_scan_varying := false;
         cfg_detector_gain := cfg_detector_gain cfg; cfg_algo := cfg_algo cfg |}.
Proof.
  intros Hinv.
  pose proof (run_inv_preserved (params self) cfg
                (deepcopy (params self) ≫= λ p', set_scan_varying p' false) w) as Hinv2.
  unfold mbind, M_bind, bind in Hinv2.
  unfold index. unfold mbind, M_bind, bind.
  destruct (deepcopy_spec _ _ _ (proj1 Hinv)) as (w1 & Hcopy & Hcfg1 & _).
  rewrite Hcopy in *.
  destruct (set_scan_varying_spec _ false _ _ Hcfg1) as (w2 & Hset & Hcfg2).
  rewrite Hset in *. unfold get_config. rewrite Hcfg2. unfold lift.
  destruct (indexer_from_parameters _ _ _) as [[experiments indexed]|e]; [|done].
  assert (run_inv (params self) cfg w2) as Hw2.
  { apply Hinv2; [|done]. intros w' Hw'.
    pose proof (preserves_deepcopy_bind (next w) w (params self)
                  (λ p', set_scan_varying p' false)) as Hp.
    unfold mbind, M_bind, bind in Hp. apply Hp; [|done].
    intros p' Hp'. by apply preserves_set_scan_varying. }
  unfold get_output. rewrite (read_config_output _ _ _ (proj1 Hw2)).
  unfold save_reflections, emit, ret.
  by destruct (truthy (indexed_filename (cfg_output cfg))).
Qed.

(** C4.  Let the [params] of [Script.run] have the value [cfg].  The
    processor of every unit is built on a deep copy: a new parameter
    object with new scopes, which has the value [cfg] again.  Whatever
    the unit then does, in either mode and however it ends, no object
    that existed when the unit started has changed, those of earlier
    units included, and the [params] of [Script.run] still has the value
    [cfg]; so it has before and after every unit of any sequence of
    units, for any rank.
    Indexing in turn works on a copy of the processor's configuration:
    the indexer sees [scan_varying] switched off, the processor's own
    configuration keeps its value. *)
Theorem configuration_is_private (p0 : loc) (cfg : config algo) (w : world) :
  run_inv p0 cfg w →
  (∃ p w1,
      deepcopy p0 w = (Ok p, w1)
      ∧ read_config w1 p = Some cfg
      ∧ (∃ r r0, roots w1 !! p = Some r ∧ roots w1 !! p0 = Some r0
                 ∧ p ≠ p0 ∧ p_output r ≠ p_output r0
                 ∧ p_refinement r ≠ p_refinement r0
                 ∧ p_integration r ≠ p_integration r0)
      ∧ run_inv p0 cfg w1
      ∧ ∀ item, do_work_pre_import p0 item w
                = process_datablock {| params := p; tag := None |} item.1 item.2 w1)
  ∧ (∀ item, run_inv p0 cfg (do_work_pre_import p0 item w).2
             ∧ private_above (next w) w (do_work_pre_import p0 item w).2)
  ∧ (∀ item, run_inv p0 cfg (do_work_deferred p0 item w).2
             ∧ private_above (next w) w (do_work_deferred p0 item w).2)
  ∧ (∀ rank size i,
       (∀ items,
          run_inv p0 cfg (mpi_loop_from (do_work_pre_import p0) rank size i items w).2)
       ∧ (∀ items,
          run_inv p0 cfg (mpi_loop_from (do_work_deferred p0) rank size i items w).2))
  ∧ ((∀ items, run_inv p0 cfg (for_each (do_work_pre_import p0) items w).2)
     ∧ (∀ items, run_inv p0 cfg (for_each (do_work_deferred p0) items w).2))
  ∧ (∀ t db reflections,
       run_inv p0 cfg (index {| params := p0; tag := t |} db reflections w).2
       ∧ (index {| params := p0; tag := t |} db reflections w).1
         = indexer_from_parameters reflections db
             {| cfg_output := cfg_output cfg; cfg_scan_varying := false;
                cfg_detector_gain := cfg_detector_gain cfg;
                cfg_algo := cfg_algo cfg |}).
Proof.
  intros Hinv.
  assert (∀ item w, run_inv p0 cfg w → run_inv p0 cfg (do_work_pre_import p0 item w).2)
    as Hpre by (intros; apply run_inv_preserved;
                [apply preserves_do_work_pre_import|done]).
  assert (∀ item w, run_inv p0 cfg w → run_inv p0 cfg (do_work_deferred p0 item w).2)
    as Hdef by (intros; apply run_inv_preserved;
                [apply preserves_do_work_deferred|done]).
  split; [|split; [|split; [|split; [|split]]]].
  - pose proof (proj1 (deepcopy_private (next w) w p0 w
                          (private_above_refl _ _ _ Hinv))) as (_ & Hsame & _).
    destruct Hinv as (Hcfg & Hbelow & Hfree).
    destruct (deepcopy_spec p0 cfg w Hcfg) as (w1 & Hcopy & Hcfg1 & Hroot & Hnext & Htrace).
    exists (next w + 3)%nat, w1. split; [done|]. split; [done|]. split; [|split].
    + destruct Hbelow as (r0 & Hr0 & Hp0 & Ho0 & Hs0 & Hg0).
      rewrite Hcopy in Hsame. simpl in Hsame. destruct (Hsame p0 Hp0) as (Hr1 & _).
      eexists _, r0. split; [exact Hroot|]. split; [by rewrite Hr1|]. simpl. lia.
    + replace w1 with (deepcopy p0 w).2 by (by rewrite Hcopy).
      apply run_inv_preserved; [|by split].
      intros w' Hw'. by apply deepcopy_private.
    + intros item. unfold do_work_pre_import. unfold mbind, M_bind, bind.
      by rewrite Hcopy.
  - intros item. split; [by apply Hpre|].
    apply preserves_do_work_pre_import. by eapply private_above_refl.
  - intros item. split; [by apply Hdef|].
    apply preserves_do_work_deferred. by eapply private_above_refl.
  - intros rank size i. split; intros items; by apply run_inv_mpi_loop.
  - split; intros items; by apply run_inv_for_each.
  - intros t db reflections. split.
    + apply run_inv_preserved; [apply preserves_index|done].
    + by apply (index_result {| params := p0; tag := t |}).
Qed.

End RunOwnership.

(** * The theorems on a run *)

Lemma find_spots_resets_z_witness :
  ∃ observed w',
    find_spots (C := Demo.collaborators)
      {| params := Demo.run_params; tag := Some "a" |} "img"
      (Demo.world_with default_output)
    = (Ok observed, w')
    ∧ length (rows observed) = length (rows Demo.strong_spots)
    ∧ ∀ i r, rows observed !! i = Some r →
        ∃ r0, rows Demo.strong_spots !! i = Some r0
              ∧ xyzobs_px_value r
                = ((xyzobs_px_value r0).1.1, (xyzobs_px_value r0).1.2, 0%Q)
              ∧ bbox r = ((bbox r0).1.1.1.1.1, (bbox r0).1.1.1.1.2,
                          (bbox r0).1.1.1.2, (bbox r0).1.1.2, 0, 1).
Proof.
  apply (proj2 (find_spots_resets_z (C := Demo.collaborators)
                  {| params := Demo.run_params; tag := Some "a" |} "img"
                  (Demo.world_with default_output))
           {| cfg_output := default_output; cfg_scan_varying := true;
              cfg_detector_gain := 2%Q; cfg_algo := tt |}
           Demo.strong_spots).
  - reflexivity.
  - reflexivity.
Defined.

Lemma refine_is_pass_through_witness :
  refine (C := Demo.collaborators)
    {| params := Demo.run_params; tag := Some "a" |} [0%nat; 1%nat]
    Demo.indexed_spots (Demo.world_with default_output)
  = (Ok [0%nat; 1%nat],
     add_events (Demo.world_with default_output)
       [Print "Skipping refinement because the crystal orientation is refined during indexing";
        Write "%s_refined_experiments.json"
          (ExperimentsJson (C := Demo.collaborators) [0%nat; 1%nat])]).
Proof.
  apply (refine_is_pass_through (C := Demo.collaborators)
           {| params := Demo.run_params; tag := Some "a" |} [0%nat; 1%nat]
           Demo.indexed_spots (Demo.world_with default_output) default_output).
  reflexivity.
Defined.

(** C8 fails as stated: persisting the models is not the only effect
    of [refine].  With no refined-experiments file configured it writes
    nothing, and yet the world is not the one it started in: the notice
    has been printed. *)
Lemma refine_also_prints :
  let w := Demo.world_with (set_refined_experiments_filename default_output None) in
  let r := refine (C := Demo.collaborators)
             {| params := Demo.run_params; tag := Some "a" |} [0%nat; 1%nat]
             Demo.indexed_spots w in
  r.1 = Ok [0%nat; 1%nat]
  ∧ written_paths r.2 = []
  ∧ printed_lines r.2
    = ["Skipping refinement because the crystal orientation is refined during indexing"]
  ∧ r.2 ≠ w.
Proof.
  repeat split; try reflexivity.
  intros H. apply (f_equal trace) in H. discriminate H.
Qed.

Lemma configuration_is_private_witness :
  run_inv (C := Demo.collaborators) Demo.run_params
    {| cfg_output := default_output; cfg_scan_varying := true;
       cfg_detector_gain := 2%Q; cfg_algo := tt |}
    (for_each (do_work_pre_import (C := Demo.collaborators) Demo.run_params)
       [("a", "img"); ("b", "powder"); ("c", "blank")]
       (Demo.world_with default_output)).2.
Proof.
  assert (run_inv (C := Demo.collaborators) Demo.run_params
            {| cfg_output := default_output; cfg_scan_varying := true;
               cfg_detector_gain := 2%Q; cfg_algo := tt |}
            (Demo.world_with default_output)) as Hinv.
  { split; [reflexivity|]. split.
    - eexists. split; [reflexivity|].
      unfold Demo.run_params, Demo.world_with. simpl. lia.
    - intros l Hl. unfold Demo.world_with in *. simpl in *.
      apply lookup_singleton_ne. lia. }
  exact (proj1 (proj1 (proj2 (proj2 (proj2 (proj2
           (configuration_is_private (C := Demo.collaborators) Demo.run_params _
              (Demo.world_with default_output) Hinv))))))
           [("a", "img"); ("b", "powder"); ("c", "blank")]).
Defined.

(** A batch of three units run in order by one process: the first is
    integrated, the second cannot be indexed, the third has no spots.
    Each failure prints its line and the next unit is processed; the
    strong spots of the second unit stay on disk.  The parameter object
    of the run keeps its templates, while the copy made for the first
    unit, at location 7, has them replaced by paths. *)
Example batch_demo :
  let w := (for_each (do_work_pre_import (C := Demo.collaborators) Demo.run_params)
              [("a", "img"); ("b", "powder"); ("c", "blank")]
              (Demo.world_with default_output)).2 in
  printed_lines w
  = ["Skipping refinement because the crystal orientation is refined during indexing";
     "Filtering 0 reflections with at least one bad foreground pixel out of 2";
     "Filtering 1 reflections with zero background variance";
     "Couldn't index b No suitable lattice could be found";
     "Error spotfinding c no strong spots"]
  ∧ written_paths w
    = ["./idx-a_datablock.json"; "./idx-a_strong.pickle"; "./idx-a_indexed.pickle";
       "./idx-a_refined_experiments.json"; "./idx-a_integrated.pickle";
       "./int-0-a.pickle";
       "./idx-b_datablock.json"; "./idx-b_strong.pickle";
       "./idx-c_datablock.json"]
  ∧ read_output w Demo.run_params = Some default_output
  ∧ read_output w 7%nat
    = Some {| output_dir := Some ".";
              datablock_filename := Some "./idx-a_datablock.json";
              strong_filename := Some "./idx-a_strong.pickle";
              indexed_filename := Some "./idx-a_indexed.pickle";
              refined_experiments_filename := Some "./idx-a_refined_experiments.json";
              integrated_filename := Some "./idx-a_integrated.pickle";
              integration_pickle := Some "int-%d-%s.pickle" |}.
Proof. repeat split; reflexivity. Qed.

(** The outputs whose statement tests for [None] can be switched off:
    without a datablock, strong-spot, indexed or pickle file name the
    unit runs through and writes the two remaining files. *)
Example optional_outputs_demo :
  let o := {| output_dir := Some "out";
              datablock_filename := None;
              strong_filename := None;
              indexed_filename := None;
              refined_experiments_filename := Some "%s_refined_experiments.json";
              integrated_filename := Some "%s_integrated.pickle";
              integration_pickle := None |} in
  let r := process_datablock (C := Demo.collaborators)
             {| params := Demo.run_params; tag := None |} "a" "img"
             (Demo.world_with o) in
  r.1 = Ok tt
  ∧ written_paths r.2
    = ["out/idx-a_refined_experiments.json"; "out/idx-a_integrated.pickle"].
Proof. split; reflexivity. Qed.

(** * Further properties of the tags and of the rank partition *)

Module TagShape.
Import Py OsPath Tags TagFacts.

(** [c in s] for a one-character string, in terms of [rfind]. *)
Lemma contains_char (c : ascii) (s : string) :
  contains (String c EmptyString) s = false ↔ rfind c s = (-1)%Z.
Proof.
  induction s as [|a s IH]; [done|].
  rewrite rfind_cons_absent, <- IH.
  change (contains (String c EmptyString) (String a s))
    with ((bool_decide (c = a) && true) || contains (String c EmptyString) s).
  rewrite andb_true_r, orb_false_iff, bool_decide_eq_false.
  split; intros [H1 H2]; split; congruence.
Qed.

Lemma rfind_drop_last (c : ascii) (p : string) :
  rfind c (drop (Z.to_nat (rfind c p + 1)) p) = (-1)%Z.
Proof.
  induction p as [|a p IH]; [done|].
  pose proof (rfind_ge c p) as Hge.
  cbn [rfind]. cbv zeta.
  destruct (Z.leb_spec 0 (rfind c p)) as [Hr|Hr].
  - replace (Z.to_nat (rfind c p + 1 + 1)) with (S (Z.to_nat (rfind c p + 1))) by lia.
    exact IH.
  - assert (rfind c p = -1) as Hp by lia.
    case_bool_decide as Hac.
    + simpl. exact Hp.
    + simpl. apply rfind_cons_absent. done.
Qed.

Lemma rfind_take_absent (c : ascii) (p : string) :
  rfind c p = (-1)%Z → ∀ n, rfind c (take n p) = (-1)%Z.
Proof.
  induction p as [|a p IH]; intros Hp n.
  - by destruct n.
  - apply rfind_cons_absent in Hp as [Hac Hp].
    destruct n as [|n]; [done|]. simpl take.
    apply rfind_cons_absent. split; [done|]. by apply IH.
Qed.

Lemma rfind_splitext_scan (c : ascii) (p : string) (fuel : nat) :
  rfind c p = (-1)%Z →
  ∀ dotIndex filenameIndex,
    rfind c (splitext_scan p dotIndex filenameIndex fuel).1 = (-1)%Z.
Proof.
  intros Hp. induction fuel as [|fuel IH]; intros d f; simpl; [done|].
  repeat case_match; simpl; try done.
  by apply rfind_take_absent.
Qed.

(** The stem of a path holds no separator. *)
Lemma rfind_stem (filename : string) : rfind "/" (stem filename) = (-1)%Z.
Proof.
  unfold stem, splitext.
  pose proof (rfind_drop_last "/" filename) as Hb. fold (basename filename) in Hb.
  case_match; [|done].
  by apply rfind_splitext_scan.
Qed.

Lemma pretty_N_char_no_slash (x : N) : pretty_N_char x ≠ "/"%char.
Proof. unfold pretty_N_char. by repeat case_match. Qed.

Lemma rfind_slash_pretty_N_go (x : N) : ∀ s,
  rfind "/" s = (-1)%Z → rfind "/" (pretty_N_go x s) = (-1)%Z.
Proof.
  induction (N.lt_wf_0 x) as [x _ IH]. intros s Hs.
  destruct (decide (x = 0)%N) as [->|Hx]; [by rewrite pretty_N_go_0|].
  rewrite pretty_N_go_step by lia. apply IH.
  - apply N.div_lt; lia.
  - apply rfind_cons_absent. split; [apply pretty_N_char_no_slash|done].
Qed.

Lemma rfind_slash_fmt_05d (i : nat) : rfind "/" (fmt_05d i) = (-1)%Z.
Proof.
  unfold fmt_05d. apply rfind_app_absent. split.
  - generalize (5 - String.length (pretty i))%nat. intros n.
    induction n; [done|]. by apply rfind_cons_absent.
  - unfold pretty, pretty_nat, pretty, pretty_N. case_decide; [done|].
    by apply rfind_slash_pretty_N_go.
Qed.

Lemma rfind_slash_tag_for (basenames : list string) (i : nat) (basename : string) :
  rfind "/" basename = (-1)%Z → rfind "/" (tag_for basenames i basename) = (-1)%Z.
Proof.
  intros Hb. unfold tag_for, fmt_s_05d. case_bool_decide; [|done].
  rewrite !rfind_app_absent. split; [done|split; [done|apply rfind_slash_fmt_05d]].
Qed.

Lemma split_units_stem (datablocks : list datablock_paths) (u : nat * string) :
  u ∈ split_units datablocks → ∃ path, u.2 = stem path.
Proof.
  unfold split_units. intros Hu.
  apply list_elem_of_bind in Hu as (datablock & Hu & _).
  apply list_elem_of_bind in Hu as (imageset & Hu & _).
  apply elem_of_lookup_imap in Hu as (i & path & -> & _).
  by exists path.
Qed.

(** X1.  No tag holds a path separator, in either mode: a tag is the stem
    of a base name, followed at most by an underscore and digits.  The
    file names made from a tag therefore name files and not directories. *)
Theorem tags_hold_no_separator (tag : string) :
  (∀ all_paths, tag ∈ deferred_tags all_paths → contains "/" tag = false)
  ∧ (∀ datablocks, tag ∈ pre_import_tags datablocks → contains "/" tag = false).
Proof.
  split.
  - intros all_paths Hin. apply contains_char.
    unfold deferred_tags in Hin.
    apply elem_of_lookup_imap in Hin as (i & b & -> & Hb).
    apply rfind_slash_tag_for.
    apply list_lookup_fmap_Some in Hb as (path & -> & _).
    apply rfind_stem.
  - intros datablocks Hin. apply contains_char.
    unfold pre_import_tags, zip_tags in Hin.
    apply elem_of_lookup_zip_with in Hin as (p & i & b & -> & _ & Hb).
    apply rfind_slash_tag_for.
    apply list_lookup_fmap_Some in Hb as (u & -> & Hu).
    apply list_elem_of_lookup_2 in Hu.
    destruct (split_units_stem _ _ Hu) as (path & ->).
    apply rfind_stem.
Qed.

End TagShape.

Module MpiBalance.
Import Mpi MpiFacts.

Lemma div_step (a size : Z) :
  0 < size → a / size - (a - 1) / size = if a mod size =? 0 then 1 else 0.
Proof.
  intros Hs. destruct (Z.eqb_spec (a mod size) 0) as [He|He];
    Z.div_mod_to_equations; nia.
Qed.

(** The number of items of a share, counted from position [i]. *)
Lemma length_share_from {A} (rank size i : Z) (iterable : list A) :
  0 < size →
  Z.of_nat (length (share_from rank size i iterable))
  = (i + rank + Z.of_nat (length iterable) - 1) / size - (i + rank - 1) / size.
Proof.
  intros Hs. revert i. induction iterable as [|item rest IH]; intros i.
  - simpl. rewrite Z.add_0_r, Z.sub_diag. done.
  - cbn [share_from]. rewrite length_app, Nat2Z.inj_add, IH.
    pose proof (div_step (i + rank) size Hs) as Hstep.
    unfold selected. cbn [length].
    replace (i + 1 + rank + Z.of_nat (length rest) - 1)
      with (i + rank + Z.of_nat (S (length rest)) - 1) by lia.
    replace (i + 1 + rank - 1) with (i + rank) by lia.
    destruct ((i + rank) mod size =? 0); simpl length; lia.
Qed.

(** X2.  The rank loop balances the load: with [n] items and [size]
    ranks, every rank, whatever its number, is given [n / size] items or
    one more, and exactly [n / size] when [size] divides [n]. *)
Theorem shares_are_balanced {A} (rank size : Z) (iterable : list A) :
  0 < size →
  let n := Z.of_nat (length iterable) in
  let mine := Z.of_nat (length (share rank size iterable)) in
  n / size ≤ mine ≤ n / size + 1
  ∧ (n mod size = 0 → mine = n / size).
Proof.
  intros Hs n mine. subst mine. unfold share.
  rewrite (length_share_from rank size 0 iterable Hs). fold n.
  split; [|intros Hdiv]; Z.div_mod_to_equations; nia.
Qed.

End MpiBalance.

Lemma shares_are_balanced_witness :
  0 < 3
  ∧ 7 / 3 ≤ Z.of_nat (length (Mpi.share 1 3 (seq 0 7))) ≤ 7 / 3 + 1.
Proof.
  split; [lia|].
  exact (proj1 (MpiBalance.shares_are_balanced 1 3 (seq 0 7) ltac:(lia))).
Defined.

Lemma tags_hold_no_separator_witness :
  "shot_00001" ∈ Tags.deferred_tags ["run1/shot.cbf"; "run2/shot.cbf"]
  ∧ Py.contains "/" "shot_00001" = false.
Proof.
  assert ("shot_00001" ∈ Tags.deferred_tags ["run1/shot.cbf"; "run2/shot.cbf"]) as Hin.
  { apply (list_elem_of_lookup_2 _ 1%nat). vm_compute. reflexivity. }
  split; [exact Hin|].
  exact (proj1 (TagShape.tags_hold_no_separator "shot_00001") _ Hin).
Defined.

(** * Further properties of the integration stage *)

Section ReferenceSplit.
Context `{C : Collaborators}.

Lemma filter_true_false (f : reflection → bool) (l : list reflection) :
  filter (λ r, f r = true) l ++ filter (λ r, f r = false) l ≡ₚ l.
Proof.
  rewrite <- (filter_app_complement (λ r, f r = true) l) at 3.
  apply Permutation_app_head.
  assert (filter (λ r, f r = false) l = filter (λ r, ¬ f r = true) l) as ->; [|done].
  apply list_filter_iff. intros r. by destruct (f r).
Qed.

(** What a successful [process_reference] has computed. *)
Lemma process_reference_ok_inv (self : processor) (reference : reflection_table)
    (kept junk : option reflection_table) (w w' : world) :
  process_reference self (Some reference) w = (Ok (kept, junk), w') →
  let idx := filter (λ r, indexed (flags r) = true) (rows reference) in
  let k := filter (λ r, is_hkl_zero r = false) idx in
  let j := filter (λ r, indexed (flags r) = false) (rows reference)
           ++ filter (λ r, is_hkl_zero r = true) idx in
  w' = w
  ∧ kept = Some (with_rows reference k) ∧ junk = Some (with_rows reference j)
  ∧ filter (λ r, (experiment_id r <? 0) = true) k = [].
Proof.
  intros H.
  destruct (has_miller_index (cols reference)) eqn:Hmi;
    [|unfold process_reference in H; by rewrite Hmi in H].
  destruct (has_id (cols reference)) eqn:Hid;
    [|unfold process_reference in H; by rewrite Hmi, Hid in H].
  rewrite (process_reference_spec self reference w Hmi Hid) in H. cbv zeta in H.
  intros idx k j. fold idx in H. fold k in H. fold j in H.
  destruct (decide (idx = [])); [done|].
  destruct (decide (filter (λ r, (experiment_id r <? 0) = true) k = [])) as [Hbad|];
    [|done].
  by injection H as <- <- <-.
Qed.

(** X3.  Whenever [process_reference] returns, it hands back two tables
    that split the given one: no reflection is lost, duplicated or
    altered, and the store and the trace are as before.  The first
    table holds, in their order, exactly the reflections that are
    indexed and have a miller index other than (0,0,0), all of them
    with a valid experiment id; the second holds the others. *)
Theorem reference_is_split (self : processor) (reference : reflection_table)
    (kept junk : option reflection_table) (w w' : world) :
  process_reference self (Some reference) w = (Ok (kept, junk), w') →
  ∃ k j,
    kept = Some k ∧ junk = Some j ∧ w' = w
    ∧ cols k = cols reference ∧ cols j = cols reference
    ∧ rows k ++ rows j ≡ₚ rows reference
    ∧ rows k `sublist_of` rows reference
    ∧ (∀ r, r ∈ rows k ↔
            r ∈ rows reference ∧ indexed (flags r) = true
            ∧ miller_index r ≠ (0, 0, 0))
    ∧ (∀ r, r ∈ rows k → 0 ≤ experiment_id r).
Proof.
  intros H. apply process_reference_ok_inv in H as (-> & -> & -> & Hbad).
  set (idx := filter (λ r, indexed (flags r) = true) (rows reference)) in *.
  set (k := filter (λ r, is_hkl_zero r = false) idx) in *.
  eexists _, _. split; [done|]. split; [done|]. split; [done|].
  cbn [cols rows with_rows]. split; [done|]. split; [done|].
  split; [|split; [|split]].
  - etrans; [|apply (filter_true_false (λ r, indexed (flags r)) (rows reference))].
    fold idx.
    rewrite (Permutation_app_comm (filter (λ r, indexed (flags r) = false) _)).
    rewrite (assoc (++)). apply Permutation_app_tail.
    rewrite Permutation_app_comm. apply filter_true_false.
  - subst k idx. etrans; apply sublist_filter.
  - intros r. subst k idx. rewrite !list_elem_of_filter.
    unfold is_hkl_zero. rewrite bool_decide_eq_false. tauto.
  - intros r Hr.
    destruct (Z.ltb_spec (experiment_id r) 0) as [Hneg|]; [exfalso|done].
    assert (r ∈ filter (λ r, (experiment_id r <? 0) = true) k) as Hin.
    { apply list_elem_of_filter. split; [by apply Z.ltb_lt|done]. }
    rewrite Hbad in Hin. by apply elem_of_nil in Hin.
Qed.

End ReferenceSplit.

Lemma reference_is_split_witness :
  ∃ k j w',
    process_reference (C := Demo.collaborators) {| params := Demo.run_params; tag := None |}
      (Some Demo.indexed_spots) (Demo.world_with default_output)
    = (Ok (Some k, Some j), w')
    ∧ rows k ++ rows j ≡ₚ rows Demo.indexed_spots.
Proof.
  eexists _, _, _. split; [vm_compute; reflexivity|].
  destruct (reference_is_split (C := Demo.collaborators)
              {| params := Demo.run_params; tag := None |} Demo.indexed_spots
              _ _ (Demo.world_with default_output) _ eq_refl)
    as (k & j & Hk & Hj & _ & _ & _ & Hperm & _).
  injection Hk as <-. injection Hj as <-. exact Hperm.
Defined.

Section IntegratedFlags.
Context `{C : Collaborators}.

(** X4.  Whenever the integration proper returns, every reflection it
    hands on is flagged as integrated by summation, and by profile
    fitting too when the table has profile-fitted intensities, and none
    has a bad pixel in its foreground.  The reflections removed for a bad
    foreground pixel are counted in the one line printed; nothing else
    is left behind. *)
Theorem integrated_rows_are_flagged (self : processor) (experiments : list experiment)
    (indexed_table : reflection_table) (w w' : world)
    (experiments' : list experiment) (reference : option reflection_table)
    (integrated : reflection_table) :
  integrate_reflections self experiments indexed_table w
  = (Ok (experiments', reference, integrated), w') →
  (∀ r, r ∈ rows integrated →
        integrated_sum (flags r) = true
        ∧ (has_prf (cols integrated) = true → integrated_prf (flags r) = true)
        ∧ foreground_includes_bad_pixels (flags r) = false)
  ∧ ∃ removed total,
      total = (removed + length (rows integrated))%nat
      ∧ w' = add_events w
               [Print ("Filtering " +:+ pretty removed
                       +:+ " reflections with at least one bad foreground pixel out of "
                       +:+ pretty total)].
Proof.
  intros H. unfold integrate_reflections in H. unfold mbind, M_bind, bind in H.
  destruct (process_reference self (Some indexed_table) w) as [[[k j]|e] w1] eqn:Hpr;
    [|done].
  apply process_reference_ok_inv in Hpr as (-> & -> & -> & _).
  set (k' := with_rows indexed_table _) in *.
  unfold_monad.
  destruct (read_config w (params self)) as [cfg|] eqn:Hcfg; [|done].
  destruct (profile_model_create cfg experiments (Some k')) as [es|]; [|done].
  rewrite Hcfg in H. cbv beta iota in H.
  destruct (predict_and_match cfg es (Some k')) as [predicted|]; [|done].
  rewrite Hcfg in H. cbv beta iota in H.
  destruct (integrator_integrate cfg es predicted) as [t|]; [|done].
  injection H as <- <- <- <-.
  unfold select, get_flags_bad_foreground, get_flags_integrated_all,
    get_flags_integrated_sum, column_mask.
  cbn [rows cols with_rows].
  rewrite select_rows_negb_fmap.
  set (sel := select_rows (rows t) _).
  assert (∀ r, r ∈ sel →
            integrated_sum (flags r) = true
            ∧ (has_prf (cols t) = true → integrated_prf (flags r) = true)) as Hsel.
  { subst sel. intros r. destruct (has_prf (cols t)).
    - rewrite select_rows_fmap, list_elem_of_filter.
      intros [[? ?]%andb_true_iff _]. done.
    - rewrite select_rows_fmap, list_elem_of_filter. intros [? _]. done. }
  split.
  - intros r [Hbad Hr]%list_elem_of_filter.
    destruct (Hsel r Hr) as [? ?]. done.
  - eexists _, _. split; [|reflexivity].
    pose proof (length_filter (λ r, foreground_includes_bad_pixels (flags r) = false) sel).
    lia.
Qed.

End IntegratedFlags.

Lemma integrated_rows_are_flagged_witness :
  ∃ out w',
    integrate_reflections (C := Demo.collaborators)
      {| params := Demo.run_params; tag := Some "a" |} [0%nat] Demo.indexed_spots
      (Demo.world_with default_output)
    = (Ok out, w')
    ∧ ∀ r, r ∈ rows out.2 → foreground_includes_bad_pixels (flags r) = false.
Proof.
  eexists (_, _, _), _. split; [vm_compute; reflexivity|].
  intros r Hr.
  exact (proj2 (proj2 (proj1 (integrated_rows_are_flagged (C := Demo.collaborators)
           {| params := Demo.run_params; tag := Some "a" |} [0%nat] Demo.indexed_spots
           (Demo.world_with default_output) _ _ _ _ eq_refl) r Hr))).
Defined.

Section PickleFacts.
Context `{C : Collaborators}.

Lemma write_one_pickle_ok (self : processor) (integrated : reflection_table)
    (experiments : list experiment) (k : nat) (e : experiment) (w : world)
    (o : output_scope) (t template name path : string) (f : frame) :
  read_output w (params self) = Some o →
  tag self = Some t →
  integration_pickle o = Some template →
  has_id (cols integrated) = true →
  make_frame (select integrated
                (column_mask (λ r, experiment_id r =? Z.of_nat k) integrated)) e = Ok f →
  format_d_s template k t = Ok name →
  OsPath.join (output_dir o) name = Some path →
  write_one_pickle self integrated experiments k e w
  = (Ok tt, add_events w [Write path (FramePickle f)]).
Proof.
  intros Ho Ht Htem Hid Hf Hname Hpath. unfold write_one_pickle, path_join.
  rewrite Hid, Ht. unfold_monad. rewrite Hf, Ho, Htem, Hname, Hpath. done.
Qed.

Lemma for_each_pickles (self : processor) (integrated : reflection_table)
    (experiments : list experiment) (o : output_scope) (t template : string)
    (frame_of : nat → frame) (path_of : nat → string) (es : list experiment) :
  tag self = Some t →
  integration_pickle o = Some template →
  has_id (cols integrated) = true →
  ∀ (j : nat) (w : world),
    read_output w (params self) = Some o →
    (∀ i e, es !! i = Some e →
       make_frame (select integrated
                     (column_mask (λ r, experiment_id r =? Z.of_nat (j + i)) integrated)) e
       = Ok (frame_of (j + i)%nat)
       ∧ ∃ name, format_d_s template (j + i) t = Ok name
                 ∧ OsPath.join (output_dir o) name = Some (path_of (j + i)%nat)) →
    for_each (λ '(e_number, experiment),
                write_one_pickle self integrated experiments e_number experiment)
             (imap (λ i e, ((j + i)%nat, e)) es) w
    = (Ok tt,
       add_events w
         (imap (λ i _, Write (path_of (j + i)%nat) (FramePickle (frame_of (j + i)%nat))) es)).
Proof.
  intros Ht Htem Hid. induction es as [|e es IH]; intros j w Ho Hall.
  - simpl. by rewrite add_events_nil.
  - rewrite !imap_cons. cbn [for_each]. unfold bind.
    destruct (Hall 0%nat e eq_refl) as (Hf & name & Hname & Hpath).
    rewrite (write_one_pickle_ok _ _ _ _ _ _ _ _ _ _ _ _ Ho Ht Htem Hid Hf Hname Hpath).
    rewrite (imap_ext (_ ∘ S) (λ i e, ((S j + i)%nat, e)) es)
      by (intros i x _; simpl; f_equal; lia).
    rewrite IH.
    + rewrite add_events_app. do 2 f_equal. f_equal.
      apply imap_ext. intros i x _. simpl.
      by replace (j + S i)%nat with (S (j + i)) by lia.
    + by rewrite read_output_add_events.
    + intros i x Hx. replace (S j + i)%nat with (j + S i)%nat by lia.
      apply (Hall (S i) x Hx).
Qed.

(** X5.  With a pickle template, a tagged processor writes one
    integration pickle per experiment, in the order of the experiments
    and nothing else: the pickle of experiment number [k] holds the
    frame made from the reflections whose experiment id is [k], and its
    path is the output directory joined with the template filled in with
    [k] and the tag. *)
Theorem one_pickle_per_experiment (self : processor) (integrated : reflection_table)
    (experiments : list experiment) (w : world) (o : output_scope)
    (t template : string) (frame_of : nat → frame) (path_of : nat → string) :
  read_output w (params self) = Some o →
  tag self = Some t →
  integration_pickle o = Some template →
  has_id (cols integrated) = true →
  (∀ k e, experiments !! k = Some e →
     make_frame (select integrated
                   (column_mask (λ r, experiment_id r =? Z.of_nat k) integrated)) e
     = Ok (frame_of k)
     ∧ ∃ name, format_d_s template k t = Ok name
               ∧ OsPath.join (output_dir o) name = Some (path_of k)) →
  write_integration_pickles self integrated experiments w
  = (Ok tt,
     add_events w
       (imap (λ k _, Write (path_of k) (FramePickle (frame_of k))) experiments)).
Proof.
  intros Ho Ht Htem Hid Hall. unfold write_integration_pickles.
  unfold_monad. rewrite Ho, Htem.
  exact (for_each_pickles self integrated experiments o t template frame_of path_of
           experiments Ht Htem Hid 0%nat w Ho Hall).
Qed.

(** X6.  Without a pickle template, or without an experiment, nothing is
    written and no collaborator is asked, whatever the table holds.
    With a template and an experiment, a table that has no ['id'] column
    makes the writer raise before it writes anything. *)
Theorem no_pickle_without_need (self : processor) (integrated : reflection_table)
    (experiments : list experiment) (w : world) (o : output_scope) :
  read_output w (params self) = Some o →
  (integration_pickle o = None ∨ experiments = [] →
   write_integration_pickles self integrated experiments w = (Ok tt, w))
  ∧ (integration_pickle o ≠ None → experiments ≠ [] →
     has_id (cols integrated) = false →
     write_integration_pickles self integrated experiments w
     = (Raise (ColumnError "id"), w)).
Proof.
  intros Ho. unfold write_integration_pickles. unfold_monad. rewrite Ho. split.
  - intros [-> | ->]; [done|]. by destruct (integration_pickle o).
  - intros Htem Hes Hid. destruct (integration_pickle o); [|done].
    destruct experiments as [|e es]; [done|].
    rewrite imap_cons. cbn [for_each]. unfold bind, write_one_pickle.
    rewrite Hid. done.
Qed.

End PickleFacts.

Lemma one_pickle_per_experiment_witness :
  write_integration_pickles (C := Demo.collaborators)
    {| params := Demo.run_params; tag := Some "a" |} Demo.integrated_spots [7%nat]
    (Demo.world_with default_output)
  = (Ok tt,
     add_events (Demo.world_with default_output)
       [Write "./int-0-a.pickle" (FramePickle (C := Demo.collaborators)
                                    (rows Demo.integrated_spots))]).
Proof.
  apply (one_pickle_per_experiment (C := Demo.collaborators)
           {| params := Demo.run_params; tag := Some "a" |} Demo.integrated_spots [7%nat]
           (Demo.world_with default_output) default_output "a" "int-%d-%s.pickle"
           (λ _, rows Demo.integrated_spots) (λ _, "./int-0-a.pickle")).
  - reflexivity.
  - reflexivity.
  - reflexivity.
  - reflexivity.
  - intros [|k] e He; [|done]. split; [reflexivity|].
    exists "int-0-a.pickle". split; vm_compute; reflexivity.
Defined.

Lemma no_pickle_without_need_witness :
  write_integration_pickles (C := Demo.collaborators)
    {| params := Demo.run_params; tag := Some "a" |} Demo.integrated_spots []
    (Demo.world_with default_output)
  = (Ok tt, Demo.world_with default_output).
Proof.
  apply (proj1 (no_pickle_without_need (C := Demo.collaborators)
                  {| params := Demo.run_params; tag := Some "a" |} Demo.integrated_spots []
                  (Demo.world_with default_output) default_output eq_refl)).
  by right.
Defined.

(** * Further properties of the work items *)

Section WorkItemFacts.
Context `{C : Collaborators}.

(** X7.  A deferred unit looks at the image sets of its file before it
    copies the parameters.  A file without an image set, or whose first
    image set is empty, is skipped, even when further image sets
    follow: the unit returns normally and, apart from the message that
    the source sends to the logger, nothing is printed, written or
    copied.  Otherwise a file with more than one image set, or with
    more than one frame, makes the unit raise [Abort], again with
    nothing changed. *)
Theorem deferred_unit_edge_cases (run_params : loc) (tag filename : string)
    (d db : datablock) (w : world) :
  load_datablocks filename = Ok [d] → as_stills d = Ok db →
  (imageset_lengths db = [] ∨ (∃ others, imageset_lengths db = 0%nat :: others) →
   do_work_deferred run_params (tag, filename) w = (Ok tt, w))
  ∧ (∀ n m others, imageset_lengths db = S n :: m :: others →
     do_work_deferred run_params (tag, filename) w
     = (Raise (Abort ("Found more than one imageset in file: " +:+ filename)), w))
  ∧ (∀ n, imageset_lengths db = [S (S n)] →
     do_work_deferred run_params (tag, filename) w
     = (Raise (Abort "Found a multi-image file. Run again with pre_import=True"), w)).
Proof.
  intros Hload Hstills. unfold do_work_deferred, do_import. unfold_monad.
  rewrite Hload, Hstills. split; [|split].
  - intros [-> | [others ->]]; done.
  - intros n m others ->. done.
  - intros n ->. done.
Qed.

Lemma mpi_loop_from_app {A} (do_work : A → M unit) (rank size : Z)
    (before rest : list A) :
  ∀ (i : Z) (w : world),
    mpi_loop_from do_work rank size i (before ++ rest) w
    = match mpi_loop_from do_work rank size i before w with
      | (Ok _, w1) =>
          mpi_loop_from do_work rank size (i + Z.of_nat (length before)) rest w1
      | (Raise e, w1) => (Raise e, w1)
      end.
Proof.
  induction before as [|item before IH]; intros i w.
  - simpl. unfold ret. by rewrite Z.add_0_r.
  - cbn [app mpi_loop_from length]. unfold mbind, M_bind, bind.
    destruct (Mpi.selected rank size i).
    + destruct (do_work item w) as [[[]|e] w1]; [|done].
      rewrite IH. by replace (i + 1 + Z.of_nat (length before))
                       with (i + Z.of_nat (S (length before))) by lia.
    + unfold ret. rewrite IH.
      by replace (i + 1 + Z.of_nat (length before))
           with (i + Z.of_nat (S (length before))) by lia.
Qed.

(** X8.  A file that cannot be imported is not isolated the way a
    failing stage is.  In deferred mode, when a rank reaches a file that
    holds no datablock, or several, its loop ends there with [Abort]:
    the world is the one the earlier units left, and the items after
    the file are not processed. *)
Theorem unloadable_file_stops_the_rank (run_params : loc) (rank size : Z)
    (before rest : list (string * string)) (tag filename msg : string)
    (w0 w : world) :
  mpi_loop (do_work_deferred run_params) rank size before w0 = (Ok tt, w) →
  Mpi.selected rank size (Z.of_nat (length before)) = true →
  (load_datablocks filename = Ok [] ∧ msg = "Could not load " +:+ filename)
  ∨ (∃ d1 d2 ds, load_datablocks filename = Ok (d1 :: d2 :: ds)
                 ∧ msg = "Got multiple datablocks from file " +:+ filename) →
  mpi_loop (do_work_deferred run_params) rank size
    (before ++ (tag, filename) :: rest) w0
  = (Raise (Abort msg), w).
Proof.
  unfold mpi_loop. intros Hbefore Hsel Hload.
  rewrite mpi_loop_from_app, Hbefore. cbn [mpi_loop_from].
  rewrite Z.add_0_l, Hsel. unfold mbind, M_bind, bind.
  assert (do_work_deferred run_params (tag, filename) w = (Raise (Abort msg), w)) as ->;
    [|done].
  unfold do_work_deferred, do_import. unfold_monad.
  destruct Hload as [[-> ->]|(d1 & d2 & ds & -> & ->)]; done.
Qed.

End WorkItemFacts.

Lemma deferred_unit_edge_cases_witness :
  do_work_deferred (C := DemoRun.collaborators) DemoRun.run_params ("multi", "multi.h5")
    (DemoRun.world_with default_output)
  = (Raise (Abort "Found a multi-image file. Run again with pre_import=True"),
     DemoRun.world_with default_output).
Proof.
  exact (proj2 (proj2 (deferred_unit_edge_cases (C := DemoRun.collaborators)
           DemoRun.run_params "multi" "multi.h5" "multi.h5" "multi.h5"
           (DemoRun.world_with default_output) eq_refl eq_refl)) 1%nat eq_refl).
Defined.

Lemma unloadable_file_stops_the_rank_witness :
  ∃ w,
    mpi_loop (C := DemoRun.collaborators) (do_work_deferred DemoRun.run_params) 0 1
      [("a", "a.cbf")] (DemoRun.world_with default_output) = (Ok tt, w)
    ∧ mpi_loop (C := DemoRun.collaborators) (do_work_deferred DemoRun.run_params) 0 1
        ([("a", "a.cbf")] ++ ("missing", "missing.cbf") :: [("b", "b.cbf")])
        (DemoRun.world_with default_output)
      = (Raise (Abort "Could not load missing.cbf"), w).
Proof.
  eexists. split; [vm_compute; reflexivity|].
  apply (unloadable_file_stops_the_rank (C := DemoRun.collaborators)).
  - vm_compute; reflexivity.
  - reflexivity.
  - left. split; reflexivity.
Defined.

(** * Further properties of the output paths *)

Section OutputPathFacts.
Context `{C : Collaborators}.

Lemma set_path_if_not_none_literal (get : output_scope → option string)
    (set : output_scope → option string → output_scope)
    (self : processor) (s : string) (w : world) (o : output_scope) :
  read_output w (params self) = Some o →
  (∀ t, get o = Some t → Py.contains "%s" t = false) →
  set_path_if_not_none get set self s w = (Ok tt, w).
Proof.
  intros Ho Hget. unfold set_path_if_not_none. unfold_monad. rewrite Ho.
  destruct (get o) as [t|]; [|done]. by rewrite (Hget t eq_refl).
Qed.

Lemma set_path_literal (get : output_scope → option string)
    (set : output_scope → option string → output_scope)
    (self : processor) (s : string) (w : world) (o : output_scope) :
  read_output w (params self) = Some o →
  (∃ t, get o = Some t ∧ Py.contains "%s" t = false) →
  set_path get set self s w = (Ok tt, w).
Proof.
  intros Ho (t & Hget & Hc). unfold set_path. unfold_monad.
  by rewrite Ho, Hget, Hc.
Qed.

Lemma set_path_if_not_none_step (get : output_scope → option string)
    (set : output_scope → option string → output_scope)
    (self : processor) (s : string) (w : world) (o : output_scope) :
  read_output w (params self) = Some o →
  ∃ r w' o',
    set_path_if_not_none get set self s w = (r, w')
    ∧ read_output w' (params self) = Some o'
    ∧ (o' = o
       ∨ ∃ path t, o' = set o (Some path)
                   ∧ get o = Some t ∧ Py.contains "%s" t = true).
Proof.
  intros Ho. unfold set_path_if_not_none. unfold_monad. rewrite Ho.
  destruct (get o) as [template|] eqn:Hget; [|eexists _, _, _; eauto].
  destruct (Py.contains "%s" template) eqn:Hc; [|eexists _, _, _; eauto].
  destruct (resolve_world (params self) template s w) as [[path|e] ->];
    [|eexists _, _, _; eauto].
  destruct (set_output_spec w (params self) o (λ o, set o (Some path)) Ho)
    as (w' & -> & Ho' & _).
  eexists _, _, _. split; [done|]. split; [done|]. right. eauto.
Qed.

Lemma set_path_step (get : output_scope → option string)
    (set : output_scope → option string → output_scope)
    (self : processor) (s : string) (w : world) (o : output_scope) :
  read_output w (params self) = Some o →
  ∃ r w' o',
    set_path get set self s w = (r, w')
    ∧ read_output w' (params self) = Some o'
    ∧ (o' = o
       ∨ ∃ path t, o' = set o (Some path)
                   ∧ get o = Some t ∧ Py.contains "%s" t = true).
Proof.
  intros Ho. unfold set_path. unfold_monad. rewrite Ho.
  destruct (get o) as [template|] eqn:Hget; [|eexists _, _, _; eauto].
  destruct (Py.contains "%s" template) eqn:Hc; [|eexists _, _, _; eauto].
  destruct (resolve_world (params self) template s w) as [[path|e] ->];
    [|eexists _, _, _; eauto].
  destruct (set_output_spec w (params self) o (λ o, set o (Some path)) Ho)
    as (w' & -> & Ho' & _).
  eexists _, _, _. split; [done|]. split; [done|]. right. eauto.
Qed.

(** X9.  A template without the placeholder [%s] is a file name of its
    own: setting the output paths leaves it as it is, neither tagged nor
    joined with the output directory, whatever the other templates are
    and whether or not the step as a whole succeeds.  When no template
    has the placeholder, of which the first three may be [None], nothing
    is changed at all. *)
Theorem literal_names_are_kept (self : processor) (s : string) (w : world)
    (o : output_scope) :
  read_output w (params self) = Some o →
  (∃ r w' o',
      set_output_paths self s w = (r, w')
      ∧ read_output w' (params self) = Some o'
      ∧ (literal (datablock_filename o) →
         datablock_filename o' = datablock_filename o)
      ∧ (literal (strong_filename o) →
         strong_filename o' = strong_filename o)
      ∧ (literal (indexed_filename o) →
         indexed_filename o' = indexed_filename o)
      ∧ (literal (refined_experiments_filename o) →
         refined_experiments_filename o' = refined_experiments_filename o)
      ∧ (literal (integrated_filename o) →
         integrated_filename o' = integrated_filename o))
  ∧ (literal (datablock_filename o) →
     literal (strong_filename o) →
     literal (indexed_filename o) →
     (∃ t, refined_experiments_filename o = Some t ∧ Py.contains "%s" t = false) →
     (∃ t, integrated_filename o = Some t ∧ Py.contains "%s" t = false) →
     set_output_paths self s w = (Ok tt, w)).
Proof.
  intros Ho. split.
  - unfold set_output_paths. unfold mbind, M_bind, bind.
    destruct (set_path_if_not_none_step datablock_filename set_datablock_filename
                self s w o Ho) as (r1 & w1 & o1 & -> & Ho1 & H1).
    destruct (set_path_if_not_none_step strong_filename set_strong_filename
                self s w1 o1 Ho1) as (r2 & w2 & o2 & E2 & Ho2 & H2).
    destruct (set_path_if_not_none_step indexed_filename set_indexed_filename
                self s w2 o2 Ho2) as (r3 & w3 & o3 & E3 & Ho3 & H3).
    destruct (set_path_step refined_experiments_filename
                set_refined_experiments_filename
                self s w3 o3 Ho3) as (r4 & w4 & o4 & E4 & Ho4 & H4).
    destruct (set_path_step integrated_filename set_integrated_filename
                self s w4 o4 Ho4) as (r5 & w5 & o5 & E5 & Ho5 & H5).
    assert (∀ o' : output_scope,
              o' = o1 ∨ o' = o2 ∨ o' = o3 ∨ o' = o4 ∨ o' = o5 →
              (literal (datablock_filename o) →
               datablock_filename o' = datablock_filename o)
              ∧ (literal (strong_filename o) →
                 strong_filename o' = strong_filename o)
              ∧ (literal (indexed_filename o) →
                 indexed_filename o' = indexed_filename o)
              ∧ (literal (refined_experiments_filename o) →
                 refined_experiments_filename o' = refined_experiments_filename o)
              ∧ (literal (integrated_filename o) →
                 integrated_filename o' = integrated_filename o)) as Hfields.
    { clear E2 E3 E4 E5 Ho Ho1 Ho2 Ho3 Ho4 Ho5.
      destruct H1 as [->|(p1 & t1 & -> & G1 & C1)];
        destruct H2 as [->|(p2 & t2 & -> & G2 & C2)];
        destruct H3 as [->|(p3 & t3 & -> & G3 & C3)];
        destruct H4 as [->|(p4 & t4 & -> & G4 & C4)];
        destruct H5 as [->|(p5 & t5 & -> & G5 & C5)];
        simpl in *;
        intros o' [->|[->|[->|[->| ->]]]];
        (repeat split; intros L; simpl; try reflexivity; exfalso;
         match goal with
         | G : _ = Some ?t, Cn : Py.contains "%s" ?t = true |- _ =>
             rewrite (L t G) in Cn; discriminate Cn
         end). }
    destruct r1 as [[]|e1]; [|exists (Raise e1), w1, o1; split; [done|];
                              split; [done|]; apply Hfields; tauto].
    rewrite E2.
    destruct r2 as [[]|e2]; [|exists (Raise e2), w2, o2; split; [done|];
                              split; [done|]; apply Hfields; tauto].
    rewrite E3.
    destruct r3 as [[]|e3]; [|exists (Raise e3), w3, o3; split; [done|];
                              split; [done|]; apply Hfields; tauto].
    rewrite E4.
    destruct r4 as [[]|e4]; [|exists (Raise e4), w4, o4; split; [done|];
                              split; [done|]; apply Hfields; tauto].
    exists r5, w5, o5. split; [done|]. split; [done|]. apply Hfields; tauto.
  - intros H1 H2 H3 H4 H5.
    unfold set_output_paths. unfold mbind, M_bind, bind.
    rewrite (set_path_if_not_none_literal _ _ self s w o Ho H1).
    rewrite (set_path_if_not_none_literal _ _ self s w o Ho H2).
    rewrite (set_path_if_not_none_literal _ _ self s w o Ho H3).
    rewrite (set_path_literal _ _ self s w o Ho H4).
    apply (set_path_literal _ _ self s w o Ho H5).
Qed.

Lemma set_path_if_not_none_resolved (get : output_scope → option string)
    (set : output_scope → option string → output_scope)
    (self : processor) (s : string) (w : world) (o : output_scope) (path : string) :
  (∀ o v, output_dir (set o v) = output_dir o) →
  read_output w (params self) = Some o →
  resolves_to o s (get o) path →
  ∃ w', set_path_if_not_none get set self s w = (Ok tt, w')
        ∧ read_output w' (params self) = Some (set o (Some path))
        ∧ trace w' = trace w.
Proof.
  intros Hdir Ho (t & name & Hget & Hc & Hname & Hpath).
  unfold set_path_if_not_none, resolve, path_join. unfold_monad.
  rewrite Ho, Hget, Hc, Hname. cbv beta iota. rewrite Ho. cbv beta iota.
  rewrite Hpath. cbv beta iota.
  apply (set_output_spec w (params self) o (λ o, set o (Some path)) Ho).
Qed.

Lemma set_path_resolved (get : output_scope → option string)
    (set : output_scope → option string → output_scope)
    (self : processor) (s : string) (w : world) (o : output_scope) (path : string) :
  (∀ o v, output_dir (set o v) = output_dir o) →
  read_output w (params self) = Some o →
  resolves_to o s (get o) path →
  ∃ w', set_path get set self s w = (Ok tt, w')
        ∧ read_output w' (params self) = Some (set o (Some path))
        ∧ trace w' = trace w.
Proof.
  intros Hdir Ho (t & name & Hget & Hc & Hname & Hpath).
  unfold set_path, resolve, path_join. unfold_monad.
  rewrite Ho, Hget, Hc, Hname. cbv beta iota. rewrite Ho. cbv beta iota.
  rewrite Hpath. cbv beta iota.
  apply (set_output_spec w (params self) o (λ o, set o (Some path)) Ho).
Qed.

Lemma resolves_to_dir (o o' : output_scope) (s : string) (template : option string)
    (path : string) :
  output_dir o' = output_dir o →
  resolves_to o s template path → resolves_to o' s template path.
Proof. intros Hd (t & name & ? & ? & ? & ?). exists t, name. by rewrite Hd. Qed.

(** X10.  When the five templates have the placeholder and resolve, the
    output scope of the unit afterwards holds, for each of them, the
    output directory joined with the template filled in with ["idx-"]
    and the tag; the output directory and the pickle template are as
    they were, and nothing is printed or written meanwhile.  The unit
    then writes the datablock to its resolved path before any stage
    runs, and returns normally whatever the stages do. *)
Theorem output_paths_follow_the_tag (self : processor) (tag : string) (db : datablock)
    (w : world) (o : output_scope) (p1 p2 p3 p4 p5 : string) :
  read_output w (params self) = Some o →
  resolves_to o tag (datablock_filename o) p1 →
  resolves_to o tag (strong_filename o) p2 →
  resolves_to o tag (indexed_filename o) p3 →
  resolves_to o tag (refined_experiments_filename o) p4 →
  resolves_to o tag (integrated_filename o) p5 →
  ∃ w',
    set_output_paths self tag w = (Ok tt, w')
    ∧ read_output w' (params self)
      = Some {| output_dir := output_dir o;
                datablock_filename := Some p1;
                strong_filename := Some p2;
                indexed_filename := Some p3;
                refined_experiments_filename := Some p4;
                integrated_filename := Some p5;
                integration_pickle := integration_pickle o |}
    ∧ trace w' = trace w
    ∧ (p1 ≠ EmptyString →
       process_datablock self tag db w
       = run_stages {| params := params self; tag := Some tag |} tag db
           (add_events w' [Write p1 (DatablockJson db)])
       ∧ (process_datablock self tag db w).1 = Ok tt).
Proof.
  intros Ho R1 R2 R3 R4 R5.
  destruct (set_path_if_not_none_resolved datablock_filename set_datablock_filename
              self tag w o p1 ltac:(done) Ho R1) as (w1 & E1 & Ho1 & T1).
  destruct (set_path_if_not_none_resolved strong_filename set_strong_filename
              self tag w1 _ p2 ltac:(done) Ho1
              (resolves_to_dir o _ tag _ p2 eq_refl R2)) as (w2 & E2 & Ho2 & T2).
  destruct (set_path_if_not_none_resolved indexed_filename set_indexed_filename
              self tag w2 _ p3 ltac:(done) Ho2
              (resolves_to_dir o _ tag _ p3 eq_refl R3)) as (w3 & E3 & Ho3 & T3).
  destruct (set_path_resolved refined_experiments_filename
              set_refined_experiments_filename
              self tag w3 _ p4 ltac:(done) Ho3
              (resolves_to_dir o _ tag _ p4 eq_refl R4)) as (w4 & E4 & Ho4 & T4).
  destruct (set_path_resolved integrated_filename set_integrated_filename
              self tag w4 _ p5 ltac:(done) Ho4
              (resolves_to_dir o _ tag _ p5 eq_refl R5)) as (w5 & E5 & Ho5 & T5).
  assert (set_output_paths self tag w = (Ok tt, w5)) as Hpaths.
  { unfold set_output_paths. unfold mbind, M_bind, bind.
    by rewrite E1, E2, E3, E4, E5. }
  exists w5. split; [done|]. split; [exact Ho5|]. split; [congruence|].
  intros Hp1.
  assert (process_datablock self tag db w
          = run_stages {| params := params self; tag := Some tag |} tag db
              (add_events w5 [Write p1 (DatablockJson db)])) as Hunit.
  { unfold process_datablock, dump_datablock. unfold_monad.
    rewrite Hpaths. cbn [params].
    rewrite Ho5. cbv beta iota. unfold truthy.
    change (datablock_filename _) with (Some p1). cbv beta iota.
    by rewrite bool_decide_eq_false_2. }
  split; [done|]. rewrite Hunit. apply run_stages_returns.
Qed.

End OutputPathFacts.

Lemma literal_names_are_kept_witness :
  let o := set_strong_filename default_output (Some "strong.pickle") in
  ∃ r w' o',
    set_output_paths (C := Demo.collaborators)
      {| params := Demo.run_params; tag := None |} "a" (Demo.world_with o) = (r, w')
    ∧ read_output w' Demo.run_params = Some o'
    ∧ strong_filename o' = Some "strong.pickle"
    ∧ indexed_filename o' = Some "./idx-a_indexed.pickle".
Proof.
  intros o.
  destruct (proj1 (literal_names_are_kept (C := Demo.collaborators)
                     {| params := Demo.run_params; tag := None |} "a"
                     (Demo.world_with o) o eq_refl))
    as (r & w' & o' & Hrun & Ho' & _ & Hstrong & _).
  exists r, w', o'. split; [exact Hrun|]. split; [exact Ho'|]. split.
  - apply Hstrong. intros t Ht. injection Ht as <-. reflexivity.
  - vm_compute in Hrun. injection Hrun as <- <-.
    vm_compute in Ho'. injection Ho' as <-. reflexivity.
Defined.

Lemma output_paths_follow_the_tag_witness :
  ∃ w',
    set_output_paths (C := Demo.collaborators)
      {| params := Demo.run_params; tag := None |} "a" (Demo.world_with default_output)
    = (Ok tt, w')
    ∧ read_output w' Demo.run_params
      = Some {| output_dir := Some ".";
                datablock_filename := Some "./idx-a_datablock.json";
                strong_filename := Some "./idx-a_strong.pickle";
                indexed_filename := Some "./idx-a_indexed.pickle";
                refined_experiments_filename := Some "./idx-a_refined_experiments.json";
                integrated_filename := Some "./idx-a_integrated.pickle";
                integration_pickle := Some "int-%d-%s.pickle" |}.
Proof.
  destruct (output_paths_follow_the_tag (C := Demo.collaborators)
              {| params := Demo.run_params; tag := None |} "a" "img"
              (Demo.world_with default_output) default_output
              "./idx-a_datablock.json" "./idx-a_strong.pickle" "./idx-a_indexed.pickle"
              "./idx-a_refined_experiments.json" "./idx-a_integrated.pickle")
    as (w' & Hpaths & Hout & _).
  - reflexivity.
  - eexists _, _. repeat split; vm_compute; reflexivity.
  - eexists _, _. repeat split; vm_compute; reflexivity.
  - eexists _, _. repeat split; vm_compute; reflexivity.
  - eexists _, _. repeat split; vm_compute; reflexivity.
  - eexists _, _. repeat split; vm_compute; reflexivity.
  - exists w'. split; [exact Hpaths|exact Hout].
Defined.

(** * Properties of [Script.run] *)

Section ScriptFacts.
Context `{R : RunCollaborators}.

(** X11.  With a reference geometry file, the reference detector is
    always the only detector of that file: the single detector of its
    single datablock when the file loads as datablocks, and otherwise
    the single detector of its experiment list.  The loader raises
    [Sorry] exactly when the file loads in neither way; a file that
    loads but holds no detector or several fails the assertion. *)
Theorem reference_detector_is_the_only_one (path : string) :
  (∀ d, load_reference_geometry (Some path) = Ok d →
        ∃ det, d = Some det
               ∧ ((∃ db, datablocks_from_json_file path = Ok [db]
                         ∧ unique_detectors db = [det])
                  ∨ ((∃ e, datablocks_from_json_file path = Raise e)
                     ∧ experiment_detectors_from_json_file path = Ok [det])))
  ∧ (∀ e, load_reference_geometry (Some path) = Raise e →
          e = AssertionError ∨ e = Sorry ("Couldn't load geometry file " +:+ path))
  ∧ (load_reference_geometry (Some path)
     = Raise (Sorry ("Couldn't load geometry file " +:+ path))
     ↔ (∃ e, datablocks_from_json_file path = Raise e)
       ∧ (∃ e, experiment_detectors_from_json_file path = Raise e)).
Proof.
  unfold load_reference_geometry.
  destruct (datablocks_from_json_file path) as [[|db [|db' l]]|e1].
  - split; [done|]. split; [intros e [= <-]; by left|].
    split; [done|]. by intros [[e He] _].
  - destruct (unique_detectors db) as [|det [|det' ds]] eqn:Hdb.
    + split; [done|]. split; [intros e [= <-]; by left|].
      split; [done|]. by intros [[e He] _].
    + split; [|split; [done|]].
      * intros d [= <-]. exists det. split; [done|]. left. by exists db.
      * split; [done|]. by intros [[e He] _].
    + split; [done|]. split; [intros e [= <-]; by left|].
      split; [done|]. by intros [[e He] _].
  - split; [done|]. split; [intros e [= <-]; by left|].
    split; [done|]. by intros [[e He] _].
  - destruct (experiment_detectors_from_json_file path) as [[|det [|det' ds]]|e2].
    + split; [done|]. split; [intros e [= <-]; by left|].
      split; [done|]. by intros [_ [e He]].
    + split; [|split; [done|]].
      * intros d [= <-]. exists det. split; [done|]. right. split; [by exists e1|done].
      * split; [done|]. by intros [_ [e He]].
    + split; [done|]. split; [intros e [= <-]; by left|].
      split; [done|]. by intros [_ [e He]].
    + split; [done|]. split; [intros e [= <-]; by right|].
      split; [intros _; split; eauto|done].
Qed.

Lemma load_reference_geometry_sorry (path : string) (e1 e2 : exn) :
  datablocks_from_json_file path = Raise e1 →
  experiment_detectors_from_json_file path = Raise e2 →
  load_reference_geometry (Some path)
  = Raise (Sorry ("Couldn't load geometry file " +:+ path)).
Proof. intros H1 H2. unfold load_reference_geometry. by rewrite H1, H2. Qed.

(** X12.  [run] looks at its arguments before it imports anything.
    Without a file name it prints the help and returns, and does not
    even open the reference geometry.  With file names and a reference
    geometry file that loads in neither way, it raises [Sorry] before
    any file is imported or any unit is processed. *)
Theorem run_checks_before_importing (opts : run_options) (run_params : loc)
    (rank size : Z) (w : world) :
  run opts [] run_params rank size w = (Ok tt, add_events w [Print help_text])
  ∧ ∀ path all_paths e1 e2,
      all_paths ≠ [] →
      input_reference_geometry opts = Some path →
      datablocks_from_json_file path = Raise e1 →
      experiment_detectors_from_json_file path = Raise e2 →
      run opts all_paths run_params rank size w
      = (Raise (Sorry ("Couldn't load geometry file " +:+ path)), w).
Proof.
  split; [done|]. intros path all_paths e1 e2 Hne Hgeo H1 H2.
  destruct all_paths as [|p ps]; [done|].
  unfold run. unfold mbind, M_bind, bind, lift.
  by rewrite Hgeo, (load_reference_geometry_sorry path e1 e2 H1 H2).
Qed.

(** X13.  With exactly one file name, [dispatch.pre_import] has no
    effect: the file is imported beforehand and split into its frames
    whatever the option says. *)
Theorem one_path_is_always_pre_imported (opts opts' : run_options) (path : string)
    (run_params : loc) (rank size : Z) (w : world) :
  mp_method opts' = mp_method opts →
  mp_nproc opts' = mp_nproc opts →
  input_reference_geometry opts' = input_reference_geometry opts →
  run opts' [path] run_params rank size w = run opts [path] run_params rank size w
  ∧ run opts [path] run_params rank size w
    = (reference_detector ← lift (load_reference_geometry (input_reference_geometry opts));
       datablock ← do_import path;
       datablocks ← lift (import_geometry reference_detector [datablock]);
       process_the_data opts (do_work_pre_import run_params)
         (pre_import_items datablocks) rank size) w.
Proof.
  intros Hm Hn Hg. unfold run, process_the_data. cbn [length Nat.eqb].
  rewrite !orb_true_r, Hm, Hn, Hg. split; [done|].
  cbn [import_all]. unfold mbind, M_bind, bind, ret, lift.
  destruct (load_reference_geometry _) as [reference_detector|]; [|done].
  destruct (do_import path w) as [[datablock|e] w1]; done.
Qed.

Lemma do_import_world (filename : string) (w : world) :
  ∃ r, do_import filename w = (r, w).
Proof.
  unfold do_import. unfold_monad.
  destruct (load_datablocks filename) as [[|d [|d' l]]|e]; by eexists.
Qed.

Lemma import_all_world (all_paths : list string) (w : world) :
  ∃ r, import_all all_paths w = (r, w).
Proof.
  induction all_paths as [|path rest [r IH]]; [by eexists|].
  cbn [import_all]. unfold mbind, M_bind, bind, ret.
  destruct (do_import_world path w) as [[db|e] ->]; [|by eexists].
  rewrite IH. destruct r; by eexists.
Qed.

Lemma import_all_fails (all_paths : list string) (path : string) (w : world) (e0 : exn) :
  path ∈ all_paths → (do_import path w).1 = Raise e0 →
  ∃ e, import_all all_paths w = (Raise e, w).
Proof.
  intros Hin Hfail. induction all_paths as [|p rest IH]; [by apply elem_of_nil in Hin|].
  cbn [import_all]. unfold mbind, M_bind, bind, ret.
  destruct (do_import_world p w) as [[db|e] Hp]; rewrite Hp; [|by eexists].
  apply elem_of_cons in Hin as [->|Hin]; [by rewrite Hp in Hfail|].
  destruct (IH Hin) as [e ->]. by eexists.
Qed.

(** X14.  In pre-import mode a single file that cannot be imported,
    wherever it stands in the list, makes the whole run raise before
    any unit is processed: nothing is printed, written or copied. *)
Theorem pre_import_fails_before_any_unit (opts : run_options) (all_paths : list string)
    (run_params : loc) (rank size : Z) (w : world) (path : string) (e0 : exn) :
  dispatch_pre_import opts = true ∨ length all_paths = 1%nat →
  path ∈ all_paths →
  (do_import path w).1 = Raise e0 →
  ∃ e, run opts all_paths run_params rank size w = (Raise e, w).
Proof.
  intros Hpre Hin Hfail. unfold run.
  destruct all_paths as [|p ps] eqn:Hpaths; [by apply elem_of_nil in Hin|].
  rewrite <- Hpaths in *.
  assert (dispatch_pre_import opts || (length all_paths =? 1)%nat = true) as ->.
  { destruct Hpre as [-> | ->]; [done|by rewrite orb_true_r]. }
  unfold mbind, M_bind, bind, lift.
  destruct (load_reference_geometry _) as [reference_detector|e]; [|by eexists].
  destruct (import_all_fails all_paths path w e0 Hin Hfail) as [e ->]. by eexists.
Qed.

Lemma length_split_units (frames : list (list (list (string * datablock)))) :
  length (Tags.split_units
            ((λ imagesets : list (list (string * datablock)),
                (λ imageset : list (string * datablock), imageset.*1) <$> imagesets)
               <$> frames))
  = length (concat (concat frames)).
Proof.
  unfold Tags.split_units.
  induction frames as [|imagesets frames IH]; [done|].
  cbn [fmap list_fmap mbind list_bind concat].
  rewrite concat_app, !length_app. f_equal; [|exact IH].
  clear IH. induction imagesets as [|imageset imagesets IH]; [done|].
  cbn [fmap list_fmap mbind list_bind concat].
  rewrite !length_app, length_imap, length_fmap. f_equal. exact IH.
Qed.

(** X15.  No frame and no path is lost when the work items are made:
    in pre-import mode the items are the frames of the imported
    datablocks, in their order, each with the tag of its position; in
    deferred mode they are the paths, in their order, each with its
    tag. *)
Theorem every_frame_and_path_is_a_unit :
  (∀ datablocks : list datablock,
      let frames := split_frames <$> datablocks in
      let paths :=
        (λ imagesets : list (list (string * datablock)),
           (λ imageset : list (string * datablock), imageset.*1) <$> imagesets)
          <$> frames in
      (pre_import_items datablocks).*2 = (concat (concat frames)).*2
      ∧ (pre_import_items datablocks).*1 = Tags.pre_import_tags paths)
  ∧ (∀ all_paths : list string,
      (deferred_items all_paths).*2 = all_paths
      ∧ (deferred_items all_paths).*1 = Tags.deferred_tags all_paths).
Proof.
  split.
  - intros datablocks frames paths. unfold pre_import_items. fold frames. fold paths.
    assert (length (Tags.pre_import_tags paths) = length (concat (concat frames)).*2)
      as Hlen.
    { unfold Tags.pre_import_tags, Tags.zip_tags.
      rewrite length_zip_with, !length_fmap, Nat.min_id.
      apply length_split_units. }
    split; [apply snd_zip|apply fst_zip]; lia.
  - intros all_paths. unfold deferred_items.
    assert (length (Tags.deferred_tags all_paths) = length all_paths) as Hlen.
    { unfold Tags.deferred_tags. by rewrite length_imap, length_fmap. }
    split; [apply snd_zip|apply fst_zip]; lia.
Qed.

(** X16.  A run in [mpi] mode never changes the parameter object that
    the parser returned: whether the run returns or raises, and
    whatever the rank, the object holds afterwards what it held
    before. *)
Theorem run_keeps_its_parameters (opts : run_options) (all_paths : list string)
    (run_params : loc) (cfg : config algo) (rank size : Z) (w : world) :
  mp_method opts = mpi →
  run_inv run_params cfg w →
  run_inv run_params cfg (run opts all_paths run_params rank size w).2.
Proof.
  intros Hmpi Hinv. unfold run, process_the_data. rewrite Hmpi.
  destruct all_paths as [|p ps] eqn:Hpaths.
  { apply run_inv_preserved; [apply preserves_print|done]. }
  rewrite <- Hpaths. clear Hpaths. unfold mbind, M_bind, bind, lift.
  destruct (load_reference_geometry _) as [reference_detector|e]; [|done].
  destruct (dispatch_pre_import opts || (length all_paths =? 1)%nat).
  - destruct (import_all_world all_paths w) as [[datablocks|e] ->]; [|done].
    destruct (import_geometry reference_detector datablocks) as [dbs|e]; [|done].
    apply run_inv_mpi_loop; [|done].
    intros item w1 Hinv1. apply run_inv_preserved; [|done].
    apply preserves_do_work_pre_import.
  - apply run_inv_mpi_loop; [|done].
    intros item w1 Hinv1. apply run_inv_preserved; [|done].
    apply preserves_do_work_deferred.
Qed.

End ScriptFacts.

Lemma reference_detector_is_the_only_one_witness :
  load_reference_geometry (R := DemoRun.run_collaborators) (Some "experiments.json")
  = Ok (Some "experiments.json")
  ∧ ∃ det : string, Some "experiments.json" = Some det.
Proof.
  split; [reflexivity|].
  destruct (proj1 (reference_detector_is_the_only_one (R := DemoRun.run_collaborators)
                     "experiments.json") _ eq_refl) as (det & Hdet & _).
  by exists det.
Defined.

Lemma run_checks_before_importing_witness :
  let opts := {| dispatch_pre_import := false; mp_method := mpi; mp_nproc := 1%nat;
                 input_reference_geometry := Some "geometry.txt" |} in
  run (R := DemoRun.run_collaborators) opts ["a.cbf"; "b.cbf"] DemoRun.run_params 0 1
    (DemoRun.world_with default_output)
  = (Raise (Sorry "Couldn't load geometry file geometry.txt"),
     DemoRun.world_with default_output).
Proof.
  intros opts.
  apply (proj2 (run_checks_before_importing (R := DemoRun.run_collaborators) opts
                  DemoRun.run_params 0 1 (DemoRun.world_with default_output))
           "geometry.txt" ["a.cbf"; "b.cbf"]
           (CollaboratorError "not a datablock file")
           (CollaboratorError "not an experiment list")).
  - discriminate.
  - reflexivity.
  - reflexivity.
  - reflexivity.
Defined.

Lemma one_path_is_always_pre_imported_witness :
  let opts flag := {| dispatch_pre_import := flag; mp_method := mpi; mp_nproc := 1%nat;
                      input_reference_geometry := None |} in
  run (R := DemoRun.run_collaborators) (opts true) ["multi.h5"] DemoRun.run_params 0 1
    (DemoRun.world_with default_output)
  = run (R := DemoRun.run_collaborators) (opts false) ["multi.h5"] DemoRun.run_params 0 1
      (DemoRun.world_with default_output).
Proof.
  intros opts.
  exact (proj1 (one_path_is_always_pre_imported (R := DemoRun.run_collaborators)
                  (opts false) (opts true) "multi.h5" DemoRun.run_params 0 1
                  (DemoRun.world_with default_output) eq_refl eq_refl eq_refl)).
Defined.

Lemma pre_import_fails_before_any_unit_witness :
  let opts := {| dispatch_pre_import := true; mp_method := mpi; mp_nproc := 1%nat;
                 input_reference_geometry := None |} in
  ∃ e,
    run (R := DemoRun.run_collaborators) opts ["a.cbf"; "missing.cbf"]
      DemoRun.run_params 0 1 (DemoRun.world_with default_output)
    = (Raise e, DemoRun.world_with default_output).
Proof.
  intros opts.
  apply (pre_import_fails_before_any_unit (R := DemoRun.run_collaborators) opts
           ["a.cbf"; "missing.cbf"] DemoRun.run_params 0 1
           (DemoRun.world_with default_output) "missing.cbf"
           (Abort "Could not load missing.cbf")).
  - left. reflexivity.
  - apply elem_of_cons; right; apply elem_of_cons; by left.
  - reflexivity.
Defined.

Lemma run_keeps_its_parameters_witness :
  let opts := {| dispatch_pre_import := false; mp_method := mpi; mp_nproc := 1%nat;
                 input_reference_geometry := None |} in
  let cfg := {| cfg_output := default_output; cfg_scan_varying := true;
                cfg_detector_gain := 2%Q; cfg_algo := tt |} in
  read_config
    (run (R := DemoRun.run_collaborators) opts ["a.cbf"; "missing.cbf"; "b.cbf"]
       DemoRun.run_params 0 1 (DemoRun.world_with default_output)).2
    DemoRun.run_params
  = Some cfg.
Proof.
  intros opts cfg.
  assert (run_inv (C := DemoRun.collaborators) DemoRun.run_params cfg
            (DemoRun.world_with default_output)) as Hinv.
  { split; [reflexivity|]. split.
    - eexists. split; [reflexivity|]. unfold DemoRun.run_params, DemoRun.world_with.
      simpl. lia.
    - intros l Hl. unfold DemoRun.world_with in *. simpl in *.
      apply lookup_singleton_ne. lia. }
  exact (proj1 (run_keeps_its_parameters (R := DemoRun.run_collaborators) opts
                  ["a.cbf"; "missing.cbf"; "b.cbf"] DemoRun.run_params cfg 0 1
                  (DemoRun.world_with default_output) eq_refl Hinv)).
Defined.

(** * A unit whose stages all succeed *)

Section SuccessfulUnit.
Context `{C : Collaborators}.

Lemma run_inv_add_events (p0 : loc) (cfg : config algo) (w : world) (es : list event) :
  run_inv p0 cfg w → run_inv p0 cfg (add_events w es).
Proof. intros (H1 & H2 & H3). split; [by rewrite read_config_add_events|done]. Qed.

Lemma find_spots_ok (self : processor) (db : datablock) (w : world)
    (cfg : config algo) (raw : reflection_table) :
  read_config w (params self) = Some cfg →
  from_observations db cfg = Ok raw →
  let observed := with_rows raw (reset_bbox (reset_xyzobs (rows raw))) in
  find_spots self db w
  = (Ok observed,
     add_events w (written_if (strong_filename (cfg_output cfg))
                     (ReflectionPickle observed))).
Proof.
  intros Hcfg Hraw observed. unfold find_spots, written_if. unfold_monad.
  rewrite Hcfg, Hraw. cbv beta iota. rewrite (read_config_output _ _ _ Hcfg).
  destruct (truthy (strong_filename (cfg_output cfg))); [done|].
  by rewrite add_events_nil.
Qed.

Lemma set_scan_varying_trace (p : loc) (v : bool) (w : world) :
  trace (set_scan_varying p v w).2 = trace w.
Proof. unfold set_scan_varying. by repeat case_match. Qed.

Lemma index_ok (self : processor) (db : datablock) (reflections : reflection_table)
    (cfg : config algo) (w : world) (experiments : list experiment)
    (indexed_table : reflection_table) :
  run_inv (params self) cfg w →
  indexer_from_parameters reflections db
    {| cfg_output := cfg_output cfg; cfg_scan_varying := false;
       cfg_detector_gain := cfg_detector_gain cfg; cfg_algo := cfg_algo cfg |}
  = Ok (experiments, indexed_table) →
  ∃ w2, index self db reflections w = (Ok (experiments, indexed_table), w2)
        ∧ run_inv (params self) cfg w2
        ∧ trace w2 = trace w ++ written_if (indexed_filename (cfg_output cfg))
                                   (ReflectionPickle indexed_table).
Proof.
  intros Hinv Hidx.
  pose proof (run_inv_preserved (params self) cfg (index self db reflections) w
                (preserves_index _ _ _ _ _) Hinv) as Hinv2.
  pose proof (index_result self db reflections cfg w Hinv) as Hres.
  rewrite Hidx in Hres.
  destruct (index self db reflections w) as [r w2] eqn:Hrun.
  simpl in Hres, Hinv2. subst r. exists w2. split; [done|]. split; [done|].
  unfold index in Hrun. unfold mbind, M_bind, bind in Hrun.
  destruct (deepcopy_spec _ _ _ (proj1 Hinv)) as (w1 & Hcopy & Hcfg1 & _ & _ & Ht1).
  rewrite Hcopy in Hrun.
  pose proof (set_scan_varying_trace (next w + 3)%nat false w1) as Ht2.
  destruct (set_scan_varying_spec _ false _ _ Hcfg1) as (w2' & Hset & Hcfg2).
  rewrite Hset in Hrun, Ht2. simpl in Ht2.
  unfold get_config in Hrun. rewrite Hcfg2 in Hrun. unfold lift in Hrun.
  rewrite Hidx in Hrun.
  assert (run_inv (params self) cfg w2') as Hw2'.
  { pose proof (run_inv_preserved (params self) cfg
                  (deepcopy (params self) ≫= λ p', set_scan_varying p' false) w) as Hp.
    unfold mbind, M_bind, bind in Hp. rewrite Hcopy, Hset in Hp.
    apply Hp; [|done]. intros w' Hw'.
    pose proof (preserves_deepcopy_bind (next w) w (params self)
                  (λ p', set_scan_varying p' false)) as Hq.
    unfold mbind, M_bind, bind in Hq. apply Hq; [|done].
    intros p' Hp'. by apply preserves_set_scan_varying. }
  unfold get_output in Hrun. rewrite (read_config_output _ _ _ (proj1 Hw2')) in Hrun.
  unfold written_if, save_reflections, emit, ret in *.
  destruct (truthy (indexed_filename (cfg_output cfg))); injection Hrun as <-; simpl.
  - congruence.
  - rewrite app_nil_r. congruence.
Qed.

Lemma refine_ok (self : processor) (experiments : list experiment)
    (centroids : reflection_table) (w : world) (cfg : config algo) :
  read_config w (params self) = Some cfg →
  refine self experiments centroids w
  = (Ok experiments,
     add_events w
       (Print "Skipping refinement because the crystal orientation is refined during indexing"
        :: written_if (refined_experiments_filename (cfg_output cfg))
             (ExperimentsJson experiments))).
Proof.
  intros Hcfg. unfold refine, written_if. unfold_monad.
  rewrite read_output_add_events, (read_config_output _ _ _ Hcfg).
  destruct (truthy (refined_experiments_filename (cfg_output cfg))); [|done].
  by rewrite add_events_app.
Qed.

Lemma integrate_reflections_ok (self : processor) (experiments es : list experiment)
    (indexed_table predicted raw : reflection_table) (w : world) (cfg : config algo) :
  read_config w (params self) = Some cfg →
  has_miller_index (cols indexed_table) = true →
  has_id (cols indexed_table) = true →
  let reference :=
    with_rows indexed_table
      (filter (λ r, is_hkl_zero r = false)
         (filter (λ r, indexed (flags r) = true) (rows indexed_table))) in
  (∃ r, r ∈ rows indexed_table ∧ indexed (flags r) = true) →
  (∀ r, r ∈ rows reference → 0 ≤ experiment_id r) →
  profile_model_create cfg experiments (Some reference) = Ok es →
  predict_and_match cfg es (Some reference) = Ok predicted →
  integrator_integrate cfg es predicted = Ok raw →
  let flagged :=
    filter (λ r, (if has_prf (cols raw)
                  then integrated_sum (flags r) && integrated_prf (flags r)
                  else integrated_sum (flags r)) = true) (rows raw) in
  let good := filter (λ r, foreground_includes_bad_pixels (flags r) = false) flagged in
  integrate_reflections self experiments indexed_table w
  = (Ok (es, Some reference, with_rows raw good),
     add_events w
       [Print ("Filtering " +:+ pretty (length flagged - length good)%nat
               +:+ " reflections with at least one bad foreground pixel out of "
               +:+ pretty (length flagged))]).
Proof.
  intros Hcfg Hmi Hid reference (r0 & Hr0 & Hi0) Hids Hpm Hpred Hint flagged good.
  unfold integrate_reflections. unfold mbind, M_bind, bind.
  rewrite (process_reference_spec self indexed_table w Hmi Hid). cbv zeta.
  rewrite decide_False; [|intros Hnil;
    assert (r0 ∈ filter (λ r, indexed (flags r) = true) (rows indexed_table)) as Hin
      by (by apply list_elem_of_filter);
    rewrite Hnil in Hin; by apply elem_of_nil in Hin].
  rewrite decide_True.
  2: { apply (filter_none (λ r, experiment_id r <? 0)). intros r Hr.
       apply Z.ltb_ge. by apply Hids. }
  fold reference. unfold_monad. rewrite Hcfg, Hpm. cbv beta iota.
  rewrite Hcfg, Hpred. cbv beta iota. rewrite Hcfg, Hint. cbv beta iota.
  assert (select raw (if has_prf (cols raw)
                      then get_flags_integrated_all raw
                      else get_flags_integrated_sum raw)
          = with_rows raw flagged) as ->.
  { unfold select, get_flags_integrated_all, get_flags_integrated_sum, column_mask.
    subst flagged. destruct (has_prf (cols raw)); by rewrite select_rows_fmap. }
  unfold select, get_flags_bad_foreground, column_mask. cbn [rows cols with_rows].
  rewrite select_rows_negb_fmap. done.
Qed.

Lemma verify_sigmas_ok (self : processor) (t : reflection_table) (w : world)
    (cfg : config algo) :
  read_config w (params self) = Some cfg →
  let gain := cfg_detector_gain cfg in
  let t1 := if has_sum (cols t)
            then with_rows t ((λ r, set_sum_variance r
                                      (intensity_sum_variance r * gain)%Q) <$> rows t)
            else t in
  let zero := filter (λ r, Qeq_bool (background_sum_variance r) 0%Q = true) (rows t1) in
  let positive :=
    filter (λ r, negb (Qle_bool (background_sum_variance r) 0%Q) = true) (rows t1) in
  (has_prf (cols t) = true → ∀ r, r ∈ rows t → (0 < intensity_prf_variance r)%Q) →
  (has_sum (cols t) = true → ∀ r, r ∈ rows t → (0 < intensity_sum_variance r)%Q) →
  has_bkg (cols t) = true →
  (∀ r, r ∈ rows t → (0 <= background_sum_variance r)%Q) →
  verify_sigmas self t w
  = (Ok (with_rows t
           ((λ r, set_bkg_variance r (background_sum_variance r * gain)%Q)
              <$> positive)),
     add_events w
       (if decide (zero = []) then []
        else [Print ("Filtering " +:+ pretty (length zero)
                     +:+ " reflections with zero background variance")])).
Proof.
  intros Hcfg gain t1 zero positive Hprf Hsum Hbkg Hall.
  unfold verify_sigmas. unfold mbind, M_bind, bind.
  rewrite (verify_prf_ok t w Hprf), (verify_sum_ok self t w cfg Hcfg Hsum).
  fold gain. fold t1.
  assert (cols t1 = cols t) as Hcols by apply scaled_sum_cols.
  rewrite (verify_bkg_ok self t1 w cfg Hcfg).
  - fold zero positive gain. do 2 f_equal. unfold with_rows. by rewrite Hcols.
  - by rewrite Hcols.
  - intros r1 Hr1.
    destruct (proj2 (scaled_sum_bkg t gain (λ v, v = background_sum_variance r1))
                (ex_intro _ r1 (conj Hr1 eq_refl))) as (r & Hr & Heq).
    rewrite <- Heq. by apply Hall.
Qed.

Lemma report_integrated_ok (self : processor) (es : list experiment)
    (reference : option reflection_table) (integrated : reflection_table)
    (w : world) (cfg : config algo) (t template report : string)
    (frame_of : nat → frame) (path_of : nat → string) :
  read_config w (params self) = Some cfg →
  tag self = Some t →
  integration_pickle (cfg_output cfg) = Some template →
  has_id (cols integrated) = true →
  (∀ k e, es !! k = Some e →
     make_frame (select integrated
                   (column_mask (λ r, experiment_id r =? Z.of_nat k) integrated)) e
     = Ok (frame_of k)
     ∧ ∃ name, format_d_s template k t = Ok name
               ∧ OsPath.join (output_dir (cfg_output cfg)) name = Some (path_of k)) →
  quality_report es reference integrated = Ok report →
  report_integrated self es reference integrated w
  = (Ok integrated,
     add_events w
       (written_if (integrated_filename (cfg_output cfg)) (ReflectionPickle integrated)
        ++ imap (λ k _, Write (path_of k) (FramePickle (frame_of k))) es)).
Proof.
  intros Hcfg Ht Htem Hid Hall Hq.
  pose proof (read_config_output _ _ _ Hcfg) as Ho.
  unfold report_integrated, write_integration_pickles. unfold mbind, M_bind, bind.
  unfold get_output at 1. rewrite Ho.
  set (w1 := add_events w (written_if (integrated_filename (cfg_output cfg))
                             (ReflectionPickle integrated))).
  assert (read_output w1 (params self) = Some (cfg_output cfg)) as Ho1
    by (subst w1; by rewrite read_output_add_events).
  assert ((match truthy (integrated_filename (cfg_output cfg)) with
           | Some filename => save_reflections integrated filename
           | None => ret tt
           end) w = (Ok tt, w1)) as ->.
  { subst w1. unfold written_if, save_reflections, emit, ret.
    destruct (truthy _); [done|]. by rewrite add_events_nil. }
  unfold get_output. rewrite Ho1, Htem.
  assert (for_each (λ '(e_number, experiment),
                      write_one_pickle self integrated es e_number experiment)
                   (imap pair es) w1
          = (Ok tt,
             add_events w1
               (imap (λ k _, Write (path_of k) (FramePickle (frame_of k))) es))) as Hp
    by exact (for_each_pickles self integrated es (cfg_output cfg) t template
                frame_of path_of es Ht Htem Hid 0%nat w1 Ho1 Hall).
  rewrite Hp. unfold lift, ret. rewrite Hq.
  subst w1. by rewrite add_events_app.
Qed.

(** X17.  A unit whose stages all succeed.  Let the processor's
    parameters have the value [cfg] and its output paths be set.  When
    the spot finder, the indexer, the profile model, the prediction and
    the integrator return, the indexed reflections pass the reference
    checks and the integrated ones pass the variance checks, the unit
    leaves exactly this, in this order: the strong spots with z reset,
    the indexed reflections, the notice of [refine] and the experiments
    of the indexer, the count of bad-foreground reflections, the count
    of zero-background reflections when there are some, the integrated
    reflections with summation and background variances multiplied by
    the gain, and one pickle for each experiment of the profile model.
    Each of the four files is written exactly when its name is set, and
    the parameters still have the value [cfg] afterwards. *)
Theorem successful_unit_outputs (self : processor) (t : string) (db : datablock)
    (w : world) (cfg : config algo)
    (raw indexed_table predicted raw_integrated : reflection_table)
    (experiments es : list experiment) (template report : string)
    (frame_of : nat → frame) (path_of : nat → string) :
  run_inv (params self) cfg w →
  tag self = Some t →
  let o := cfg_output cfg in
  let gain := cfg_detector_gain cfg in
  from_observations db cfg = Ok raw →
  let observed := with_rows raw (reset_bbox (reset_xyzobs (rows raw))) in
  indexer_from_parameters observed db
    {| cfg_output := o; cfg_scan_varying := false;
       cfg_detector_gain := gain; cfg_algo := cfg_algo cfg |}
  = Ok (experiments, indexed_table) →
  has_miller_index (cols indexed_table) = true →
  has_id (cols indexed_table) = true →
  let reference :=
    with_rows indexed_table
      (filter (λ r, is_hkl_zero r = false)
         (filter (λ r, indexed (flags r) = true) (rows indexed_table))) in
  (∃ r, r ∈ rows indexed_table ∧ indexed (flags r) = true) →
  (∀ r, r ∈ rows reference → 0 ≤ experiment_id r) →
  profile_model_create cfg experiments (Some reference) = Ok es →
  predict_and_match cfg es (Some reference) = Ok predicted →
  integrator_integrate cfg es predicted = Ok raw_integrated →
  let flagged :=
    filter (λ r, (if has_prf (cols raw_integrated)
                  then integrated_sum (flags r) && integrated_prf (flags r)
                  else integrated_sum (flags r)) = true) (rows raw_integrated) in
  let good := filter (λ r, foreground_includes_bad_pixels (flags r) = false) flagged in
  let scaled :=
    if has_sum (cols raw_integrated)
    then (λ r, set_sum_variance r (intensity_sum_variance r * gain)%Q) <$> good
    else good in
  let zero := filter (λ r, Qeq_bool (background_sum_variance r) 0%Q = true) scaled in
  let positive :=
    filter (λ r, negb (Qle_bool (background_sum_variance r) 0%Q) = true) scaled in
  let integrated :=
    with_rows raw_integrated
      ((λ r, set_bkg_variance r (background_sum_variance r * gain)%Q) <$> positive) in
  (has_prf (cols raw_integrated) = true →
   ∀ r, r ∈ good → (0 < intensity_prf_variance r)%Q) →
  (has_sum (cols raw_integrated) = true →
   ∀ r, r ∈ good → (0 < intensity_sum_variance r)%Q) →
  has_bkg (cols raw_integrated) = true →
  (∀ r, r ∈ good → (0 <= background_sum_variance r)%Q) →
  has_id (cols raw_integrated) = true →
  integration_pickle o = Some template →
  (∀ k e, es !! k = Some e →
     make_frame (select integrated
                   (column_mask (λ r, experiment_id r =? Z.of_nat k) integrated)) e
     = Ok (frame_of k)
     ∧ ∃ name, format_d_s template k t = Ok name
               ∧ OsPath.join (output_dir o) name = Some (path_of k)) →
  quality_report es (Some reference) integrated = Ok report →
  ∃ w',
    run_stages self t db w = (Ok tt, w')
    ∧ read_config w' (params self) = Some cfg
    ∧ trace w'
      = trace w
        ++ written_if (strong_filename o) (ReflectionPickle observed)
        ++ written_if (indexed_filename o) (ReflectionPickle indexed_table)
        ++ [Print "Skipping refinement because the crystal orientation is refined during indexing"]
        ++ written_if (refined_experiments_filename o) (ExperimentsJson experiments)
        ++ [Print ("Filtering " +:+ pretty (length flagged - length good)%nat
                   +:+ " reflections with at least one bad foreground pixel out of "
                   +:+ pretty (length flagged))]
        ++ (if decide (zero = []) then []
            else [Print ("Filtering " +:+ pretty (length zero)
                         +:+ " reflections with zero background variance")])
        ++ written_if (integrated_filename o) (ReflectionPickle integrated)
        ++ imap (λ k _, Write (path_of k) (FramePickle (frame_of k))) es.
Proof.
  intros Hinv Htag o gain Hraw observed Hidx Hmi Hid reference Hsome Hids Hpm Hpred
    Hint flagged good scaled zero positive integrated Hprf Hsum Hbkg Hall Hiid Htem
    Hframes Hq.
  pose proof (find_spots_ok self db w cfg raw (proj1 Hinv) Hraw) as Hfind.
  cbv zeta in Hfind. fold observed o in Hfind.
  set (w1 := add_events w (written_if (strong_filename o) (ReflectionPickle observed)))
    in *.
  assert (run_inv (params self) cfg w1) as Hinv1 by by apply run_inv_add_events.
  destruct (index_ok self db observed cfg w1 experiments indexed_table Hinv1 Hidx)
    as (w2 & Hindex & Hinv2 & Ht2).
  pose proof (refine_ok self experiments indexed_table w2 cfg (proj1 Hinv2)) as Hrefine.
  fold o in Hrefine.
  set (w3 := add_events w2 _) in Hrefine.
  assert (read_config w3 (params self) = Some cfg) as Hcfg3
    by (subst w3; rewrite read_config_add_events; apply Hinv2).
  pose proof (integrate_reflections_ok self experiments es indexed_table predicted
                raw_integrated w3 cfg Hcfg3 Hmi Hid Hsome Hids Hpm Hpred Hint) as Hfront.
  cbv zeta in Hfront. fold reference flagged in Hfront. fold good in Hfront.
  set (w4 := add_events w3 _) in Hfront.
  assert (read_config w4 (params self) = Some cfg) as Hcfg4
    by (subst w4; by rewrite read_config_add_events).
  pose proof (verify_sigmas_ok self (with_rows raw_integrated good) w4 cfg Hcfg4) as Hver.
  cbv zeta in Hver. cbn [cols rows with_rows] in Hver.
  assert (rows (if has_sum (cols raw_integrated)
                then with_rows (with_rows raw_integrated good)
                       ((λ r, set_sum_variance r
                                (intensity_sum_variance r * cfg_detector_gain cfg)%Q)
                          <$> good)
                else with_rows raw_integrated good) = scaled) as Hscaled
    by (subst scaled; by destruct (has_sum (cols raw_integrated))).
  rewrite Hscaled in Hver. fold gain zero positive in Hver.
  specialize (Hver Hprf Hsum Hbkg Hall).
  change (with_rows (with_rows raw_integrated good) _) with integrated in Hver.
  set (w5 := add_events w4 _) in Hver.
  assert (read_config w5 (params self) = Some cfg) as Hcfg5
    by (subst w5; by rewrite read_config_add_events).
  pose proof (report_integrated_ok self es (Some reference) integrated w5 cfg t template
                report frame_of path_of Hcfg5 Htag Htem Hiid Hframes Hq) as Hreport.
  fold o in Hreport. set (w6 := add_events w5 _) in Hreport.
  assert (integrate self experiments indexed_table w3 = (Ok integrated, w6)) as Hintegrate.
  { unfold integrate. unfold mbind, M_bind, bind. by rewrite Hfront, Hver, Hreport. }
  exists w6. split; [|split].
  - pose proof (run_stages_cases self t db w) as Hcases.
    rewrite Hfind, Hindex, Hrefine, Hintegrate in Hcases. exact Hcases.
  - subst w6. by rewrite read_config_add_events.
  - subst w6 w5 w4 w3 w1. cbn [trace add_events]. rewrite Ht2. cbn [trace add_events].
    rewrite <- !(assoc (++)). done.
Qed.

End SuccessfulUnit.

Lemma successful_unit_outputs_witness :
  let o := {| output_dir := Some ".";
              datablock_filename := Some "./idx-a_datablock.json";
              strong_filename := Some "./idx-a_strong.pickle";
              indexed_filename := None;
              refined_experiments_filename := Some "./idx-a_refined_experiments.json";
              integrated_filename := Some "./idx-a_integrated.pickle";
              integration_pickle := Some "int-%d-%s.pickle" |} in
  ∃ w',
    run_stages (C := Demo.collaborators) {| params := Demo.run_params; tag := Some "a" |}
      "a" "img" (Demo.world_with o) = (Ok tt, w')
    ∧ written_paths w'
      = ["./idx-a_strong.pickle"; "./idx-a_refined_experiments.json";
         "./idx-a_integrated.pickle"; "./int-0-a.pickle"].
Proof.
  intros o.
  set (cfg := {| cfg_output := o; cfg_scan_varying := true;
                 cfg_detector_gain := 2%Q; cfg_algo := tt |}).
  assert (run_inv (C := Demo.collaborators) Demo.run_params cfg (Demo.world_with o))
    as Hinv.
  { split; [reflexivity|]. split.
    - eexists. split; [reflexivity|].
      unfold Demo.run_params, Demo.world_with. simpl. lia.
    - intros l Hl. unfold Demo.world_with in *. simpl in *.
      apply lookup_singleton_ne. lia. }
  destruct (successful_unit_outputs (C := Demo.collaborators)
              {| params := Demo.run_params; tag := Some "a" |} "a" "img"
              (Demo.world_with o) cfg Demo.strong_spots Demo.indexed_spots
              Demo.integrated_spots Demo.integrated_spots [0%nat] [0%nat]
              "int-%d-%s.pickle" "RMSD indexed (px)"
              (λ _, [Demo.measured (1, 2, 3) 0 true 4%Q (4 * 2)%Q (1 * 2)%Q])
              (λ _, "./int-0-a.pickle") Hinv eq_refl eq_refl eq_refl eq_refl eq_refl)
    as (w' & Hrun & _ & Htrace).
  - eexists. split; [left|reflexivity].
  - intros r Hr. vm_compute in Hr.
    by repeat (apply elem_of_cons in Hr as [->|Hr]; [done|]); apply elem_of_nil in Hr.
  - reflexivity.
  - reflexivity.
  - reflexivity.
  - intros _ r Hr. vm_compute in Hr.
    by repeat (apply elem_of_cons in Hr as [->|Hr]; [done|]); apply elem_of_nil in Hr.
  - intros _ r Hr. vm_compute in Hr.
    by repeat (apply elem_of_cons in Hr as [->|Hr]; [done|]); apply elem_of_nil in Hr.
  - reflexivity.
  - intros r Hr. vm_compute in Hr.
    by repeat (apply elem_of_cons in Hr as [->|Hr]; [done|]); apply elem_of_nil in Hr.
  - reflexivity.
  - reflexivity.
  - intros [|k] e He; [|done]. split; [vm_compute; reflexivity|].
    exists "int-0-a.pickle". split; vm_compute; reflexivity.
  - reflexivity.
  - exists w'. split; [exact Hrun|].
    unfold written_paths. rewrite Htrace. vm_compute. reflexivity.
Defined.
